(** * comfyui-replicate: the node factory of [node.py]

    A shallow embedding of [node.py] and the properties of its
    specification.  Python values are an inductive type, a [dict] is an
    association list in insertion order, tensors are a shape with row-major
    data, and code that prints, reads the clock, talks to the network or
    raises runs in a small monad over an explicit state; an exception keeps
    the state reached when it was raised, as in Python.

    Text is modelled as Rocq strings (bytes); the functions below agree with
    Python on ASCII text. *)

From Stdlib Require Import ZArith NArith List String Ascii Bool Lia Arith.
From Stdlib Require Import Floats.SpecFloat.
From Stdlib Require Import Init.Byte.
From Stdlib Require Import DecimalString.
Import ListNotations.

Local Open Scope string_scope.
Local Open Scope list_scope.

Set Implicit Arguments.
Local Set Warnings "-register-all".

(** ** Exceptions and results *)

(** The classes derived from Python's [Exception] that this module meets.
    [OtherException] stands for those raised inside external collaborators
    (connection errors, decoder errors, ...).  Signals outside [Exception]
    (keyboard interrupt, interpreter exit) are not modelled. *)
Inductive exn : Type :=
| KeyError (key : string)
| ValueError (msg : string)
| TypeError (msg : string)
| AttributeError (msg : string)
| RuntimeError (msg : string)
| IndexError (msg : string)
| OtherException (cls msg : string).

Inductive outcome (A : Type) : Type :=
| Ret (a : A)
| Raise (e : exn).

Arguments Ret {A} a.
Arguments Raise {A} e.

Definition obind {A B} (m : outcome A) (k : A -> outcome B) : outcome B :=
  match m with
  | Ret a => k a
  | Raise e => Raise e
  end.

(** ** Tensors *)

(** IEEE values are [spec_float]s; single precision has 24 bits of
    mantissa and maximal exponent 128, double precision 53 and 1024. *)
Definition is_zero (f : spec_float) : bool :=
  match f with
  | S754_zero _ => true
  | _ => false
  end.

Definition f32_of_N (n : N) : spec_float :=
  binary_normalize 24 128 (Z.of_N n) 0 false.

Definition f64_of_Z (z : Z) : spec_float :=
  binary_normalize 53 1024 z 0 false.

Record tensor : Type := mkTensor { shape : list nat; data : list spec_float }.

Definition numel (sh : list nat) : nat := fold_right Nat.mul 1 sh.

(** [t.dim()] *)
Definition dim (t : tensor) : nat := List.length (shape t).

(** [t.unsqueeze(0)] *)
Definition unsqueeze0 (t : tensor) : tensor :=
  mkTensor (1 :: shape t) (data t).

(** [t.squeeze()]: every dimension of size one is removed. *)
Definition squeeze (t : tensor) : tensor :=
  mkTensor (filter (fun n => negb (n =? 1)%nat) (shape t)) (data t).

(** [t.squeeze(0)]: the first dimension is removed when its size is one. *)
Definition squeeze0 (t : tensor) : tensor :=
  match shape t with
  | 1 :: rest => mkTensor rest (data t)
  | _ => t
  end.

(** Row-major strides and the multi-indices of a shape in row-major order. *)
Fixpoint strides (sh : list nat) : list nat :=
  match sh with
  | [] => []
  | _ :: rest => numel rest :: strides rest
  end.

Fixpoint multi_indices (sh : list nat) : list (list nat) :=
  match sh with
  | [] => [[]]
  | n :: rest =>
      flat_map (fun i => map (cons i) (multi_indices rest)) (seq 0 n)
  end.

Fixpoint dot (xs ys : list nat) : nat :=
  match xs, ys with
  | x :: xs', y :: ys' => x * y + dot xs' ys'
  | _, _ => 0
  end.

Fixpoint mem_nat (n : nat) (l : list nat) : bool :=
  match l with
  | [] => false
  | m :: rest => (n =? m)%nat || mem_nat n rest
  end.

Fixpoint nodup_nat (l : list nat) : bool :=
  match l with
  | [] => true
  | n :: rest => negb (mem_nat n rest) && nodup_nat rest
  end.

(** [t.permute(dims)]: dimension [k] of the result is dimension
    [nth k dims] of [t]. *)
Definition permute (dims : list nat) (t : tensor) : outcome tensor :=
  let r := List.length (shape t) in
  if (List.length dims =? r)%nat && forallb (fun d => d <? r)%nat dims && nodup_nat dims
  then
    let sh' := map (fun d => nth d (shape t) 0) dims in
    let st' := map (fun d => nth d (strides (shape t)) 0) dims in
    Ret (mkTensor sh'
           (map (fun idx => nth (dot idx st') (data t) (S754_zero false))
                (multi_indices sh')))
  else Raise (RuntimeError "permute: dims do not match the tensor").

(** [torch.cat(ts, dim=0)].  Tensors of shape [(0,)] are skipped, as torch
    does; the others must agree on every dimension but the first. *)
Definition is_legacy_empty (t : tensor) : bool :=
  match shape t with
  | [0] => true
  | _ => false
  end.

Definition list_nat_eqb (a b : list nat) : bool :=
  if list_eq_dec Nat.eq_dec a b then true else false.

Definition torch_cat (ts : list tensor) : outcome tensor :=
  match ts with
  | [] => Raise (RuntimeError "torch.cat(): expected a non-empty list of Tensors")
  | first :: _ =>
      match filter (fun t => negb (is_legacy_empty t)) ts with
      | [] => Ret first
      | t0 :: rest =>
          match shape t0 with
          | [] => Raise (RuntimeError "zero-dimensional tensor cannot be concatenated")
          | _ :: tail0 =>
              if forallb (fun t => match shape t with
                                   | [] => false
                                   | _ :: tail => list_nat_eqb tail tail0
                                   end) rest
              then Ret (mkTensor
                          (fold_right (fun t acc => hd 0 (shape t) + acc) 0 (t0 :: rest)
                             :: tail0)
                          (flat_map data (t0 :: rest)))
              else Raise (RuntimeError "Sizes of tensors must match except in dimension 0")
          end
      end
  end.

(** [t[i:i+1]], the [i]-th entry of a batch, kept as a batch of one. *)
Definition narrow0 (i : nat) (t : tensor) : tensor :=
  match shape t with
  | [] => t
  | _ :: tail =>
      mkTensor (1 :: tail) (firstn (numel tail) (skipn (i * numel tail) (data t)))
  end.

(** ** Images *)

(** A decoded PIL image: mode, size and the band values of its pixels, row
    by row. *)
Record image : Type := mkImage {
  im_mode : string;
  im_width : nat;
  im_height : nat;
  im_pixels : list N
}.

Definition bands_of_mode (mode : string) : nat :=
  if (mode =? "RGB") || (mode =? "YCbCr") || (mode =? "LAB") || (mode =? "HSV") then 3
  else if (mode =? "RGBA") || (mode =? "CMYK") || (mode =? "RGBX") then 4
  else if (mode =? "LA") || (mode =? "PA") then 2
  else 1.

(** [transforms.ToTensor()] on an 8-bit image: a [C x H x W] tensor of the
    band values divided by 255 in single precision. *)
Definition f32_255 : spec_float := f32_of_N 255.

Definition ToTensor (im : image) : tensor :=
  let c := bands_of_mode (im_mode im) in
  let sh := [c; im_height im; im_width im] in
  mkTensor sh
    (map (fun idx =>
            match idx with
            | [ci; y; x] =>
                SFdiv 24 128
                  (f32_of_N (nth ((y * im_width im + x) * c + ci) (im_pixels im) 0%N))
                  f32_255
            | _ => S754_zero false
            end)
         (multi_indices sh)).

(** ** Python values *)

Inductive value : Type :=
| PyNone
| PyBool (b : bool)
| PyInt (z : Z)
| PyFloat (f : spec_float)
| PyStr (s : string)
| PyList (l : list value)
| PyTuple (l : list value)
| PyDict (d : list (string * value))
| PyTensor (t : tensor)
| PyImage (im : image)
| PyFile (fd : nat)
| PySVG (svg : list (list byte)).

(** A [dict] with string keys, in insertion order. *)
Definition dict (V : Type) : Type := list (string * V).

Fixpoint dict_get {V} (d : dict V) (k : string) : option V :=
  match d with
  | [] => None
  | (k', v) :: rest => if k' =? k then Some v else dict_get rest k
  end.

(** [d[k] = v]: an existing key keeps its place, a new one goes last. *)
Fixpoint dict_set {V} (d : dict V) (k : string) (v : V) : dict V :=
  match d with
  | [] => [(k, v)]
  | (k', v') :: rest =>
      if k' =? k then (k, v) :: rest else (k', v') :: dict_set rest k v
  end.

(** [del d[k]] *)
Definition dict_del {V} (d : dict V) (k : string) : dict V :=
  filter (fun kv => negb (fst kv =? k)) d.

Definition dict_keys {V} (d : dict V) : list string := map fst d.

Definition dict_mem {V} (d : dict V) (k : string) : bool :=
  match dict_get d k with
  | Some _ => true
  | None => false
  end.

(** [d[k]] as an expression: a missing key raises. *)
Definition dict_getitem {V} (d : dict V) (k : string) : outcome V :=
  match dict_get d k with
  | Some v => Ret v
  | None => Raise (KeyError k)
  end.

Definition kwargs_t : Type := dict value.

Definition is_str (v : value) : bool :=
  match v with PyStr _ => true | _ => false end.

Definition is_list (v : value) : bool :=
  match v with PyList _ => true | _ => false end.

Definition is_tensor (v : value) : bool :=
  match v with PyTensor _ => true | _ => false end.

(** ** Strings *)

(** [s.split(",")] *)
Fixpoint split_comma (s : string) : list string :=
  match s with
  | EmptyString => [EmptyString]
  | String c rest =>
      if Ascii.eqb c "," then EmptyString :: split_comma rest
      else match split_comma rest with
           | [] => [String c EmptyString]
           | first :: others => String c first :: others
           end
  end.

(** [s.startswith(p)] *)
Definition startswith (s p : string) : bool := String.prefix p s.

(** [s[:n]] *)
Definition str_take (n : nat) (s : string) : string := String.substring 0 n s.

(** [s.strip()] on ASCII text. *)
Definition is_space (c : ascii) : bool :=
  let n := nat_of_ascii c in
  ((9 <=? n) && (n <=? 13) || (28 <=? n) && (n <=? 32))%nat.

Fixpoint lstrip (s : string) : string :=
  match s with
  | String c rest => if is_space c then lstrip rest else s
  | EmptyString => EmptyString
  end.

Fixpoint rstrip (s : string) : string :=
  match s with
  | EmptyString => EmptyString
  | String c rest =>
      match rstrip rest with
      | EmptyString => if is_space c then EmptyString else String c EmptyString
      | r => String c r
      end
  end.

Definition strip (s : string) : string := rstrip (lstrip s).

(** [base64.b64encode(bs).decode()] *)
Definition b64_alphabet : string :=
  "ABCDEFGHIJKLMNOPQRSTUVWXYZabcdefghijklmnopqrstuvwxyz0123456789+/".

Definition b64_char (n : N) : ascii :=
  match String.get (N.to_nat n) b64_alphabet with
  | Some c => c
  | None => "="%char
  end.

Fixpoint b64encode (bs : list byte) : string :=
  match bs with
  | [] => EmptyString
  | [a] =>
      let x := Byte.to_N a in
      String (b64_char (x / 4))
        (String (b64_char ((x mod 4) * 16)) "==")
  | [a; b] =>
      let x := Byte.to_N a in
      let y := Byte.to_N b in
      String (b64_char (x / 4))
        (String (b64_char ((x mod 4) * 16 + y / 16))
           (String (b64_char ((y mod 16) * 4)) "="))
  | a :: b :: c :: rest =>
      let x := Byte.to_N a in
      let y := Byte.to_N b in
      let z := Byte.to_N c in
      String (b64_char (x / 4))
        (String (b64_char ((x mod 4) * 16 + y / 16))
           (String (b64_char ((y mod 16) * 4 + z / 64))
              (String (b64_char (z mod 64)) (b64encode rest))))
  end.

(** [s.endswith(p)] *)
Definition endswith (s p : string) : bool :=
  let n := String.length s in
  let m := String.length p in
  (m <=? n)%nat && (String.substring (n - m) m s =? p).

(** ** Python protocols on values *)

Definition value_eq_str (v : value) (s : string) : bool :=
  match v with
  | PyStr s' => s' =? s
  | _ => false
  end.

(** [o.get(k, default)] *)
Definition py_get (o : value) (k : string) (default : value) : outcome value :=
  match o with
  | PyDict d =>
      match dict_get d k with
      | Some v => Ret v
      | None => Ret default
      end
  | _ => Raise (AttributeError "get")
  end.

Fixpoint chars (s : string) : list value :=
  match s with
  | EmptyString => []
  | String c rest => PyStr (String c EmptyString) :: chars rest
  end.

Fixpoint chunks (n : nat) (size : nat) (xs : list spec_float) : list (list spec_float) :=
  match n with
  | O => []
  | S n' => firstn size xs :: chunks n' size (skipn size xs)
  end.

(** [list(o)]: iteration.  A byte-readable object is taken to offer [read]
    only. *)
Definition py_list (o : value) : outcome (list value) :=
  match o with
  | PyStr s => Ret (chars s)
  | PyList l => Ret l
  | PyTuple l => Ret l
  | PyDict d => Ret (map (fun kv => PyStr (fst kv)) d)
  | PyTensor t =>
      match shape t with
      | [] => Raise (TypeError "iteration over a 0-d tensor")
      | n :: tail =>
          Ret (map (fun c => PyTensor (mkTensor tail c)) (chunks n (numel tail) (data t)))
      end
  | _ => Raise (TypeError "object is not iterable")
  end.

(** [a, b = o] *)
Definition unpack2 (o : value) : outcome (value * value) :=
  match py_list o with
  | Ret [a; b] => Ret (a, b)
  | Ret _ => Raise (ValueError "wrong number of values to unpack (expected 2)")
  | Raise e => Raise e
  end.

(** [sep.join(parts)] for the empty separator: every part must be text. *)
Fixpoint join_values (parts : list value) : outcome string :=
  match parts with
  | [] => Ret EmptyString
  | PyStr s :: rest =>
      match join_values rest with
      | Ret r => Ret (s ++ r)%string
      | Raise e => Raise e
      end
  | _ :: _ => Raise (TypeError "sequence item: expected str instance")
  end.

(** [str(e)] *)
Definition exn_str (e : exn) : string :=
  match e with
  | KeyError k => ("'" ++ k ++ "'")%string
  | ValueError m | TypeError m | AttributeError m | RuntimeError m | IndexError m => m
  | OtherException _ m => m
  end.

(** ** Schemas as the external mapper presents them *)

(** A widget-type tuple: its first element and the rest. *)
Definition descriptor : Type := (value * list value)%type.

(** The result of [INPUT_TYPES()]: the key "required" and, when there is
    one, the key "optional". *)
Record input_types : Type := mkInputTypes {
  required : option (dict descriptor);
  optional : option (dict descriptor)
}.

(** The return spec: one type token, or named slots in declared order. *)
Inductive return_spec : Type :=
| ReturnOne (return_type : string)
| ReturnDict (slots : dict string).

Record response : Type := mkResponse {
  status_code : Z;
  reason : string;
  url : string;
  content : list byte
}.

(** The class made by [create_comfyui_node]: what its closure captures. *)
Record node_class : Type := mkNode {
  nc_schema : value;
  nc_replicate_model : string;
  nc_return_type : return_spec
}.

(** ** The host: the libraries and services the module calls

    Calls with an effect take the world and return the next one. *)
Class Host : Type := {
  World : Type;
  (** [time.time()] *)
  time_time : World -> spec_float * World;
  (** [requests.get(url, timeout=t)] *)
  requests_get : string -> Z -> World -> outcome response * World;
  (** [file_obj.read()] on a byte-readable object *)
  file_read : nat -> World -> outcome (list byte) * World;
  (** [replicate.run(model, input=kwargs)] *)
  replicate_run : string -> kwargs_t -> World -> outcome value * World;
  (** [os.listdir(path)] *)
  os_listdir : string -> World -> outcome (list string) * World;
  (** [json.load] of the file opened at a path *)
  json_load : string -> World -> outcome value * World;
  (** [os.path.dirname(os.path.abspath(__file__))] *)
  current_path : string;
  (** [os.path.join] *)
  os_path_join : string -> string -> string;
  (** [bool(t)] of a tensor *)
  tensor_bool : tensor -> outcome bool;
  (** [float(s)] of text; [None] is its [ValueError] *)
  float_of_str : string -> option spec_float;
  (** [Image.open(BytesIO(data))], decoded *)
  Image_open : list byte -> outcome image;
  (** [image.convert(mode)] *)
  Image_convert : image -> string -> outcome image;
  (** [transforms.ToPILImage()(t)] *)
  ToPILImage : tensor -> outcome image;
  (** the bytes [pil_image.save(buffer, format="PNG")] writes *)
  png_encode : image -> outcome (list byte);
  (** the bytes [sf.write(buffer, waveform.numpy().T, rate, format="wav")]
      writes *)
  wav_encode : tensor -> value -> outcome (list byte);
  (** [torchaudio.load(BytesIO(data))] *)
  torchaudio_load : list byte -> outcome (tensor * Z);
  (** [str(v)] as an f-string prints it, and [str(type(v))] *)
  py_str : value -> string;
  py_type_str : value -> string;
  (** [schema_to_node] *)
  name_and_version : value -> outcome (string * string);
  get_return_type : value -> outcome return_spec;
  schema_to_comfyui_input_types : value -> input_types;
  inputs_that_need_arrays : value -> list string
}.

(** [bool(v)] *)
Definition truthy `{Host} (v : value) : outcome bool :=
  match v with
  | PyNone => Ret false
  | PyBool b => Ret b
  | PyInt z => Ret (negb (z =? 0)%Z)
  | PyFloat f => Ret (negb (is_zero f))
  | PyStr s => Ret (negb (s =? ""))
  | PyList l | PyTuple l => Ret (match l with [] => false | _ => true end)
  | PyDict d => Ret (match d with [] => false | _ => true end)
  | PyTensor t => tensor_bool t
  | PyImage _ | PyFile _ | PySVG _ => Ret true
  end.

(** ** State and the monad of effects *)

Record state `{Host} : Type := mkState {
  stdout : list string;
  world : World;
  cached_node_class_mappings : option (dict node_class)
}.

Arguments mkState {_} _ _ _.

Definition M `{Host} (A : Type) : Type := state -> outcome A * state.

Definition ret `{Host} {A} (a : A) : M A := fun st => (Ret a, st).

Definition bind `{Host} {A B} (m : M A) (k : A -> M B) : M B :=
  fun st =>
    match m st with
    | (Ret a, st') => k a st'
    | (Raise e, st') => (Raise e, st')
    end.

Definition lift `{Host} {A} (o : outcome A) : M A := fun st => (o, st).

(** A call into the world. *)
Definition effect `{Host} {A} (f : World -> outcome A * World) : M A :=
  fun st =>
    let (r, w) := f (world st) in
    (r, mkState (stdout st) w (cached_node_class_mappings st)).

(** [print(line)] *)
Definition print `{Host} (line : string) : M unit :=
  fun st =>
    (Ret tt, mkState (stdout st ++ [line]) (world st) (cached_node_class_mappings st)).

(** [try: body except Exception as e: handler(e)] *)
Definition try_except `{Host} {A} (body : M A) (handler : exn -> M A) : M A :=
  fun st =>
    match body st with
    | (Raise e, st') => handler e st'
    | r => r
    end.

Declare Scope py_scope.
Delimit Scope py_scope with py.

Notation "x <- m ;; k" := (bind m (fun x => k))
  (at level 61, m at next level, right associativity) : py_scope.
Notation "m ;; k" := (bind m (fun _ => k))
  (at level 61, right associativity) : py_scope.
Notation "x <-? o ;; k" := (obind o (fun x => k))
  (at level 61, o at next level, right associativity) : py_scope.

Local Open Scope py_scope.

(** [for x in xs: acc = body(acc, x)] *)
Fixpoint for_each `{Host} {A S} (xs : list A) (acc : S) (body : S -> A -> M S) : M S :=
  match xs with
  | [] => ret acc
  | x :: rest => acc' <- body acc x ;; for_each rest acc' body
  end.

Fixpoint ofor_each {A S} (xs : list A) (acc : S) (body : S -> A -> outcome S) : outcome S :=
  match xs with
  | [] => Ret acc
  | x :: rest => acc' <-? body acc x ;; ofor_each rest acc' body
  end.

(** [response.raise_for_status()] *)
Definition str_of_Z (z : Z) : string := NilZero.string_of_int (Z.to_int z).

Definition raise_for_status (r : response) : outcome unit :=
  if ((400 <=? status_code r) && (status_code r <? 500))%Z then
    Raise (OtherException "HTTPError"
             (str_of_Z (status_code r) ++ " Client Error: " ++ reason r
                ++ " for url: " ++ url r)%string)
  else if ((500 <=? status_code r) && (status_code r <? 600))%Z then
    Raise (OtherException "HTTPError"
             (str_of_Z (status_code r) ++ " Server Error: " ++ reason r
                ++ " for url: " ++ url r)%string)
  else Ret tt.

(** ** The generated node class

    The section variables are what the closure of [create_comfyui_node]
    captures. *)
Section ReplicateToComfyUI.

Context `{Host}.
Variable schema : value.
Variable replicate_model : string.
Variable return_type : return_spec.

Definition IS_CHANGED (kwargs : kwargs_t) : M value :=
  force_rerun <- lift (dict_getitem kwargs "force_rerun") ;;
  flag <- lift (truthy force_rerun) ;;
  if flag
  then effect (fun w => let (t, w') := time_time w in (Ret (PyFloat t), w'))
  else ret (PyStr "").

Definition INPUT_TYPES : input_types := schema_to_comfyui_input_types schema.

Definition RETURN_TYPES : list string :=
  match return_type with
  | ReturnDict slots => map snd slots
  | ReturnOne t => [t]
  end.

Definition image_to_base64 (image : value) : outcome value :=
  pil_image <-? match image with
                | PyTensor t =>
                    t' <-? permute [0; 3; 1; 2] t ;;
                    im <-? ToPILImage (squeeze0 t') ;;
                    Ret (PyImage im)
                | _ => Ret image
                end ;;
  match pil_image with
  | PyImage im =>
      png <-? png_encode im ;;
      Ret (PyStr ("data:image/png;base64," ++ b64encode png))
  | _ => Raise (AttributeError "save")
  end.

(** Lines 96 to 102: the waveform is made two-dimensional. *)
Definition ensure_2d (waveform : tensor) : outcome tensor :=
  if (dim waveform =? 1)%nat then Ret (unsqueeze0 waveform)
  else if (2 <? dim waveform)%nat then
    let waveform := squeeze waveform in
    if (2 <? dim waveform)%nat then Raise (ValueError "Waveform must be 1D or 2D")
    else Ret waveform
  else Ret waveform.

(** Lines 86 to 94: the waveform and the sample rate of an audio input. *)
Definition waveform_and_rate (audio : value) : outcome (value * value) :=
  match audio with
  | PyDict d =>
      if dict_mem d "waveform" && dict_mem d "sample_rate" then
        waveform <-? dict_getitem d "waveform" ;;
        sample_rate <-? dict_getitem d "sample_rate" ;;
        Ret (waveform, sample_rate)
      else unpack2 audio
  | _ => unpack2 audio
  end.

Definition audio_to_base64 (audio : value) : outcome value :=
  pair <-? waveform_and_rate audio ;;
  match fst pair with
  | PyTensor waveform =>
      waveform <-? ensure_2d waveform ;;
      wav <-? wav_encode waveform (snd pair) ;;
      Ret (PyStr ("data:audio/wav;base64," ++ b64encode wav))
  | _ => Raise (AttributeError "dim")
  end.

(** [INPUT_TYPES().get("optional", {})] *)
Definition optional_inputs : dict descriptor :=
  match optional INPUT_TYPES with
  | Some o => o
  | None => []
  end.

(** Lines 62 to 65: the widget type of an input, looked up among the
    required inputs and then among the optional ones. *)
Definition input_type_of (key : string) : outcome value :=
  req <-? match required INPUT_TYPES with
          | Some r => Ret r
          | None => Raise (KeyError "required")
          end ;;
  let first := match dict_get req key with
               | Some d => fst d
               | None => PyNone
               end in
  found <-? truthy first ;;
  if found then Ret first
  else
    Ret (match dict_get optional_inputs key with
         | Some d => fst d
         | None => PyNone
         end).

Definition convert_input_images_to_base64 (kwargs : kwargs_t) : outcome kwargs_t :=
  ofor_each kwargs kwargs
    (fun kwargs kv =>
       let key := fst kv in
       let v := snd kv in
       match v with
       | PyNone => Ret kwargs
       | _ =>
           input_type <-? input_type_of key ;;
           if value_eq_str input_type "IMAGE" then
             b64 <-? image_to_base64 v ;;
             Ret (dict_set kwargs key b64)
           else if value_eq_str input_type "AUDIO" then
             b64 <-? audio_to_base64 v ;;
             Ret (dict_set kwargs key b64)
           else Ret kwargs
       end).

Definition number_or_text (item : string) : value :=
  match float_of_str item with
  | Some f => PyFloat f
  | None => PyStr item
  end.

Definition handle_array_inputs (kwargs : kwargs_t) : kwargs_t :=
  fold_left
    (fun kwargs input_name =>
       match dict_get kwargs input_name with
       | None => kwargs
       | Some v =>
           match v with
           | PyStr s =>
               if s =? "" then dict_set kwargs input_name (PyList [])
               else dict_set kwargs input_name
                      (PyList (map number_or_text (split_comma s)))
           | _ =>
               if negb (is_list v) then dict_set kwargs input_name (PyList [v])
               else kwargs
           end
       end)
    (inputs_that_need_arrays schema) kwargs.

Definition log_input (kwargs : kwargs_t) : M unit :=
  let truncated_kwargs :=
    map (fun kv =>
           (fst kv,
            match snd kv with
            | PyStr v =>
                if startswith v "data:image" || startswith v "data:audio"
                then PyStr (str_take 20 v ++ "...")
                else PyStr v
            | v => v
            end)) kwargs in
  print ("Running " ++ replicate_model ++ " with " ++ py_str (PyDict truncated_kwargs)).

(** [file_obj.read()] *)
Definition read (file_obj : value) : M (list byte) :=
  match file_obj with
  | PyFile fd => effect (file_read fd)
  | _ => lift (Raise (AttributeError "read"))
  end.

(** Lines 153 to 161: one response object becomes a [1 x H x W x C] tensor. *)
Definition image_tensor (image : image) : outcome tensor :=
  image <-? (if negb (im_mode image =? "RGB") then Image_convert image "RGB"
             else Ret image) ;;
  let tensor_image := ToTensor image in
  let tensor_image := unsqueeze0 tensor_image in
  permute [0; 2; 3; 1] tensor_image.

Definition handle_image_output (output : value) : M value :=
  match output with
  | PyNone => print "No image output received" ;; ret PyNone
  | _ =>
      let output_list := match output with
                         | PyList l => l
                         | _ => [output]
                         end in
      match output_list with
      | _ :: _ =>
          output_tensors <-
            for_each output_list []
              (fun output_tensors file_obj =>
                 image_data <- read file_obj ;;
                 image <- lift (Image_open image_data) ;;
                 tensor_image <- lift (image_tensor image) ;;
                 ret (output_tensors ++ [tensor_image])) ;;
          if (1 <? List.length output_tensors)%nat then
            batch <- lift (torch_cat output_tensors) ;;
            ret (PyTensor batch)
          else
            match output_tensors with
            | first :: _ => ret (PyTensor first)
            | [] => lift (Raise (IndexError "list index out of range"))
            end
      | [] => print "No output received from the model" ;; ret PyNone
      end
  end.

Definition handle_audio_output (output : value) : M value :=
  match output with
  | PyNone => print "No audio output received from the model" ;; ret PyNone
  | _ =>
      let output_list := match output with
                         | PyList l => l
                         | _ => [output]
                         end in
      audio_data <-
        for_each output_list []
          (fun audio_data audio_file =>
             nonempty <- lift (truthy audio_file) ;;
             if nonempty then
               audio_content <- read audio_file ;;
               loaded <- lift (torchaudio_load audio_content) ;;
               ret (audio_data ++
                      [PyDict [("waveform", PyTensor (unsqueeze0 (fst loaded)));
                               ("sample_rate", PyInt (snd loaded))]])
             else
               print "Empty audio file received" ;; ret audio_data) ;;
      match audio_data with
      | [only] => ret only
      | _ :: _ => ret (PyList audio_data)
      | [] => print "No valid audio files processed" ;; ret PyNone
      end
  end.

Definition is_url (item : value) : bool :=
  match item with
  | PyStr s => startswith s "http://" || startswith s "https://"
  | _ => false
  end.

Definition has_read (item : value) : bool :=
  match item with
  | PyFile _ => true
  | _ => false
  end.

(** Lines 211 to 233: one item of the loop of [handle_svg_output]. *)
Definition svg_item (svg_data : list (list byte)) (item : value) : M (list (list byte)) :=
  match item with
  | PyStr s =>
      if is_url item then
        try_except
          (response <- effect (requests_get s 10) ;;
           lift (raise_for_status response) ;;
           let svg_content := content response in
           ret (svg_data ++ [svg_content]))
          (fun e =>
             print ("Failed to download SVG from URL " ++ s ++ ": " ++ exn_str e) ;;
             ret svg_data)
      else
        print ("Unsupported SVG output format: " ++ py_type_str item) ;;
        ret svg_data
  | _ =>
      if has_read item then
        try_except
          (svg_content <- read item ;;
           ret (svg_data ++ [svg_content]))
          (fun e =>
             print ("Failed to read SVG data: " ++ exn_str e) ;;
             ret svg_data)
      else
        print ("Unsupported SVG output format: " ++ py_type_str item) ;;
        ret svg_data
  end.

Definition handle_svg_output (output : value) : M value :=
  match output with
  | PyNone => print "No SVG output received from the model" ;; ret PyNone
  | _ =>
      let output_list := match output with
                         | PyList l => l
                         | _ => [output]
                         end in
      svg_data <- for_each output_list [] svg_item ;;
      match svg_data with
      | _ :: _ => ret (PySVG svg_data)
      | [] => print "No valid SVG data processed" ;; ret PyNone
      end
  end.

Definition remove_falsey_optional_inputs (kwargs : kwargs_t) : outcome kwargs_t :=
  ofor_each (dict_keys kwargs) kwargs
    (fun kwargs key =>
       if dict_mem optional_inputs key then
         v <-? dict_getitem kwargs key ;;
         if is_tensor v then Ret kwargs
         else
           keep <-? truthy v ;;
           if negb keep then Ret (dict_del kwargs key) else Ret kwargs
       else Ret kwargs).

(** Lines 251 to 259: the arguments are prepared and the model is called. *)
Definition call_model (kwargs : kwargs_t) : M value :=
  let kwargs := handle_array_inputs kwargs in
  kwargs <- lift (remove_falsey_optional_inputs kwargs) ;;
  kwargs <- lift (convert_input_images_to_base64 kwargs) ;;
  log_input kwargs ;;
  let kwargs_without_force_rerun :=
    filter (fun kv => negb (fst kv =? "force_rerun")) kwargs in
  output <- effect (replicate_run replicate_model kwargs_without_force_rerun) ;;
  print ("Output: " ++ py_str output) ;;
  ret output.

Definition string_output (chunks : value) : M value :=
  parts <- lift (py_list chunks) ;;
  text <- lift (join_values parts) ;;
  ret (PyStr (strip text)).

(** Lines 263 to 279: one slot of a return spec with named slots. *)
Definition process_slot (output : value) (processed_outputs : list value)
    (slot : string * string) : M (list value) :=
  let prop_name := fst slot in
  let prop_type := snd slot in
  if prop_type =? "IMAGE" then
    o <- lift (py_get output prop_name PyNone) ;;
    r <- handle_image_output o ;;
    ret (processed_outputs ++ [r])
  else if prop_type =? "AUDIO" then
    o <- lift (py_get output prop_name PyNone) ;;
    r <- handle_audio_output o ;;
    ret (processed_outputs ++ [r])
  else if prop_type =? "SVG" then
    o <- lift (py_get output prop_name PyNone) ;;
    r <- handle_svg_output o ;;
    ret (processed_outputs ++ [r])
  else if prop_type =? "STRING" then
    o <- lift (py_get output prop_name (PyStr "")) ;;
    r <- string_output o ;;
    ret (processed_outputs ++ [r])
  else ret processed_outputs.

(** Lines 261 to 290. *)
Definition process_outputs (output : value) : M value :=
  processed_outputs <-
    match return_type with
    | ReturnDict slots => for_each slots [] (process_slot output)
    | ReturnOne t =>
        if t =? "IMAGE" then
          r <- handle_image_output output ;; ret [r]
        else if t =? "AUDIO" then
          r <- handle_audio_output output ;; ret [r]
        else if t =? "SVG" then
          r <- handle_svg_output output ;; ret [r]
        else
          r <- string_output output ;; ret [r]
    end ;;
  ret (PyTuple processed_outputs).

Definition run_replicate_model (kwargs : kwargs_t) : M value :=
  output <- call_model kwargs ;;
  process_outputs output.

End ReplicateToComfyUI.

(** ** The registry *)
Section Registry.

Context `{Host}.

Definition create_comfyui_node (schema : value) : outcome (string * node_class) :=
  names <-? name_and_version schema ;;
  return_type <-? get_return_type schema ;;
  let replicate_model := fst names in
  let node_name := snd names in
  Ret (node_name, mkNode schema replicate_model return_type).

(** Lines 300 to 306: one entry of the directory listing. *)
Definition load_schema_file (schemas_dir_path : string) (nodes : dict node_class)
    (schema_file : string) : M (dict node_class) :=
  if endswith schema_file ".json" then
    schema <- effect (json_load (os_path_join schemas_dir_path schema_file)) ;;
    node <- lift (create_comfyui_node schema) ;;
    ret (dict_set nodes (fst node) (snd node))
  else ret nodes.

Definition create_comfyui_nodes_from_schemas (schemas_dir : string) : M (dict node_class) :=
  let schemas_dir_path := os_path_join current_path schemas_dir in
  listing <- effect (os_listdir schemas_dir_path) ;;
  for_each listing [] (load_schema_file schemas_dir_path).

Definition get_node_class_mappings : M (dict node_class) :=
  fun st =>
    match cached_node_class_mappings st with
    | None =>
        match create_comfyui_nodes_from_schemas "schemas" st with
        | (Ret nodes, st') =>
            (Ret nodes, mkState (stdout st') (world st') (Some nodes))
        | (Raise e, st') => (Raise e, st')
        end
    | Some nodes => (Ret nodes, st)
    end.

End Registry.

(** ** A small host for examples

    A world with a coarse clock, a table of web resources, a list of
    byte-readable objects, a fixed model response and a directory of
    schemas; text is parsed as an ASCII decimal literal and images use a raw
    format (width, height, then RGB triples). *)
Module Example.

Definition digit_of (c : ascii) : option Z :=
  let n := nat_of_ascii c in
  if ((48 <=? n) && (n <=? 57))%nat then Some (Z.of_nat (n - 48)) else None.

(** Digits, each optionally preceded by one underscore, after a first digit:
    the value read, the number of digits and the rest of the text. *)
Fixpoint digitpart_rest (s : string) (acc : Z) (n : nat) : Z * nat * string :=
  match s with
  | String c rest =>
      match digit_of c with
      | Some d => digitpart_rest rest (10 * acc + d)%Z (S n)
      | None =>
          if Ascii.eqb c "_" then
            match rest with
            | String c' rest' =>
                match digit_of c' with
                | Some d => digitpart_rest rest' (10 * acc + d)%Z (S n)
                | None => (acc, n, s)
                end
            | EmptyString => (acc, n, s)
            end
          else (acc, n, s)
      end
  | EmptyString => (acc, n, s)
  end.

Definition digitpart (s : string) (acc : Z) : option (Z * nat * string) :=
  match s with
  | String c rest =>
      match digit_of c with
      | Some d => Some (digitpart_rest rest (10 * acc + d)%Z 1)
      | None => None
      end
  | EmptyString => None
  end.

Definition exponent (s : string) (m e : Z) : option (Z * Z) :=
  match s with
  | EmptyString => Some (m, e)
  | String c rest =>
      if Ascii.eqb c "e" || Ascii.eqb c "E" then
        let signed := match rest with
                      | String "-" r => (true, r)
                      | String "+" r => (false, r)
                      | _ => (false, rest)
                      end in
        match digitpart (snd signed) 0 with
        | Some (x, _, EmptyString) =>
            Some (m, if fst signed then (e - x)%Z else (e + x)%Z)
        | _ => None
        end
      else None
  end.

(** A decimal literal as mantissa and power of ten. *)
Definition decimal (s : string) : option (Z * Z) :=
  match digitpart s 0 with
  | Some (ip, _, rest) =>
      match rest with
      | String "." rest2 =>
          match digitpart rest2 ip with
          | Some (m, nfrac, rest3) => exponent rest3 m (- Z.of_nat nfrac)
          | None => exponent rest2 ip 0
          end
      | _ => exponent rest ip 0
      end
  | None =>
      match s with
      | String "." rest2 =>
          match digitpart rest2 0 with
          | Some (m, nfrac, rest3) => exponent rest3 m (- Z.of_nat nfrac)
          | None => None
          end
      | _ => None
      end
  end.

Definition lower (c : ascii) : ascii :=
  let n := nat_of_ascii c in
  if ((65 <=? n) && (n <=? 90))%nat then ascii_of_nat (n + 32) else c.

Fixpoint lowercase (s : string) : string :=
  match s with
  | EmptyString => EmptyString
  | String c rest => String (lower c) (lowercase rest)
  end.

(** The double nearest to [m * 10 ^ e], for [m] positive. *)
Definition round_decimal (negative : bool) (m : positive) (e : Z) : spec_float :=
  if (0 <=? e)%Z then
    binary_normalize 53 1024
      (if negative then Z.neg (m * Z.to_pos (10 ^ e)) else Z.pos (m * Z.to_pos (10 ^ e)))
      0 negative
  else
    SFdiv 53 1024 (S754_finite negative m 0)
      (S754_finite false (Z.to_pos (10 ^ (- e))) 0).

Definition parse_float (text : string) : option spec_float :=
  let s := strip text in
  let signed := match s with
                | String "-" r => (true, r)
                | String "+" r => (false, r)
                | _ => (false, s)
                end in
  let negative := fst signed in
  let body := snd signed in
  let word := lowercase body in
  if (word =? "inf") || (word =? "infinity") then Some (S754_infinity negative)
  else if word =? "nan" then Some S754_nan
  else
    match decimal body with
    | Some (Z.pos m, e) => Some (round_decimal negative m e)
    | Some (_, _) => Some (S754_zero negative)
    | None => None
    end.

Record world : Type := mkWorld {
  (** the wall clock in milliseconds; it is reported in whole seconds *)
  ticks : Z;
  web : dict response;
  blobs : list (list byte);
  model_output : value;
  directory : dict value;
  listdir_calls : nat
}.

Definition clock (w : world) : spec_float * world :=
  (f64_of_Z (ticks w / 1000),
   mkWorld (ticks w + 1) (web w) (blobs w) (model_output w) (directory w)
     (listdir_calls w)).

Definition fetch (address : string) (timeout : Z) (w : world)
  : outcome response * world :=
  match dict_get (web w) address with
  | Some r => (Ret r, w)
  | None => (Raise (OtherException "ConnectionError" "host unreachable"), w)
  end.

Definition read_blob (fd : nat) (w : world) : outcome (list byte) * world :=
  match nth_error (blobs w) fd with
  | Some bs => (Ret bs, w)
  | None => (Raise (OtherException "OSError" "read failed"), w)
  end.

Definition run_model (model : string) (input : kwargs_t) (w : world)
  : outcome value * world :=
  (Ret (model_output w), w).

Definition listdir (path : string) (w : world) : outcome (list string) * world :=
  (Ret (dict_keys (directory w)),
   mkWorld (ticks w) (web w) (blobs w) (model_output w) (directory w)
     (S (listdir_calls w))).

Definition path_join (a b : string) : string := (a ++ "/" ++ b)%string.

Definition load_json (path : string) (w : world) : outcome value * world :=
  match find (fun kv => endswith path ("/" ++ fst kv)) (directory w) with
  | Some kv => (Ret (snd kv), w)
  | None => (Raise (OtherException "FileNotFoundError" path), w)
  end.

Definition bool_of_tensor (t : tensor) : outcome bool :=
  match data t with
  | [x] => Ret (negb (is_zero x))
  | _ => Raise (RuntimeError "Boolean value of Tensor is ambiguous")
  end.

Definition open_raw (bs : list byte) : outcome image :=
  match bs with
  | w :: h :: px =>
      let width := N.to_nat (Byte.to_N w) in
      let height := N.to_nat (Byte.to_N h) in
      if (List.length px =? 3 * width * height)%nat
      then Ret (mkImage "RGB" width height (map Byte.to_N px))
      else Raise (OtherException "UnidentifiedImageError" "cannot identify image file")
  | _ => Raise (OtherException "UnidentifiedImageError" "cannot identify image file")
  end.

Definition convert_mode (im : image) (mode : string) : outcome image :=
  Ret (mkImage mode (im_width im) (im_height im) (im_pixels im)).

Definition to_image (t : tensor) : outcome image :=
  match shape t with
  | [3; h; w] => Ret (mkImage "RGB" w h [])
  | _ => Raise (ValueError "pic should be 2/3 dimensional")
  end.

Definition encode_png (im : image) : outcome (list byte) :=
  Ret [x89; x50; x4e; x47]%byte.

Definition encode_wav (waveform : tensor) (rate : value) : outcome (list byte) :=
  match shape waveform with
  | [_; _] => Ret [x52; x49; x46; x46]%byte
  | _ => Raise (OtherException "LibsndfileError" "format not recognised")
  end.

Definition load_audio (bs : list byte) : outcome (tensor * Z) :=
  Ret (mkTensor [1; List.length bs] (map (fun b => f32_of_N (Byte.to_N b)) bs), 44100%Z).

Definition show (v : value) : string :=
  match v with
  | PyStr s => s
  | PyNone => "None"
  | _ => "<object>"
  end.

Definition show_type (v : value) : string :=
  match v with
  | PyStr _ => "<class 'str'>"
  | PyInt _ => "<class 'int'>"
  | _ => "<class 'object'>"
  end.

Definition text_at (d : dict value) (k : string) : outcome string :=
  match dict_get d k with
  | Some (PyStr s) => Ret s
  | Some _ => Raise (TypeError "expected text")
  | None => Raise (KeyError k)
  end.

Definition names_of (schema : value) : outcome (string * string) :=
  match schema with
  | PyDict d =>
      owner <-? text_at d "owner" ;;
      name <-? text_at d "name" ;;
      version <-? text_at d "version" ;;
      Ret ((owner ++ "/" ++ name ++ ":" ++ version)%string,
           ("Replicate " ++ owner ++ "/" ++ name)%string)
  | _ => Raise (TypeError "schema is not an object")
  end.

Definition token_of (kv : string * value) : string * string :=
  (fst kv, match snd kv with PyStr t => t | _ => "STRING" end).

Definition return_type_of (schema : value) : outcome return_spec :=
  match schema with
  | PyDict d =>
      match dict_get d "output" with
      | Some (PyStr t) => Ret (ReturnOne t)
      | Some (PyDict slots) => Ret (ReturnDict (map token_of slots))
      | _ => Ret (ReturnOne "STRING")
      end
  | _ => Raise (TypeError "schema is not an object")
  end.

Definition descriptors (schema : value) (k : string) : option (dict descriptor) :=
  match schema with
  | PyDict d =>
      match dict_get d k with
      | Some (PyDict inputs) => Some (map (fun kv => (fst kv, (snd kv, []))) inputs)
      | _ => None
      end
  | _ => None
  end.

Definition input_types_of (schema : value) : input_types :=
  mkInputTypes
    (Some (match descriptors schema "required" with Some r => r | None => [] end))
    (descriptors schema "optional").

Definition array_inputs_of (schema : value) : list string :=
  match schema with
  | PyDict d =>
      match dict_get d "arrays" with
      | Some (PyDict inputs) => dict_keys inputs
      | _ => []
      end
  | _ => []
  end.

Definition host : Host := {|
  World := world;
  time_time := clock;
  requests_get := fetch;
  file_read := read_blob;
  replicate_run := run_model;
  os_listdir := listdir;
  json_load := load_json;
  current_path := "/custom_nodes/comfyui-replicate";
  os_path_join := path_join;
  tensor_bool := bool_of_tensor;
  float_of_str := parse_float;
  Image_open := open_raw;
  Image_convert := convert_mode;
  ToPILImage := to_image;
  png_encode := encode_png;
  wav_encode := encode_wav;
  torchaudio_load := load_audio;
  py_str := show;
  py_type_str := show_type;
  name_and_version := names_of;
  get_return_type := return_type_of;
  schema_to_comfyui_input_types := input_types_of;
  inputs_that_need_arrays := array_inputs_of
|}.

End Example.

(** * Vocabulary of the properties

    The notions the properties below are stated with. *)
Section Vocabulary.

Context `{Host}.
Variable schema : value.

Fixpoint join_comma (parts : list string) : string :=
  match parts with
  | [] => EmptyString
  | [p] => p
  | p :: rest => (p ++ String "," (join_comma rest))%string
  end.

Fixpoint has_comma (s : string) : bool :=
  match s with
  | EmptyString => false
  | String c rest => Ascii.eqb c "," || has_comma rest
  end.

(** What one pass of the loop of [handle_array_inputs] leaves at a key it
    finds. *)
Definition coerced (v : value) : value :=
  match v with
  | PyStr s =>
      if s =? "" then PyList []
      else PyList (map number_or_text (split_comma s))
  | PyList l => PyList l
  | _ => PyList [v]
  end.

Definition coerce_input (kwargs : kwargs_t) (input_name : string) : kwargs_t :=
  match dict_get kwargs input_name with
  | None => kwargs
  | Some v =>
      match v with
      | PyStr s =>
          if s =? "" then dict_set kwargs input_name (PyList [])
          else dict_set kwargs input_name
                 (PyList (map number_or_text (split_comma s)))
      | _ =>
          if negb (is_list v) then dict_set kwargs input_name (PyList [v])
          else kwargs
      end
  end.

(** [key in optional_inputs] *)
Definition declared_optional (key : string) : bool :=
  dict_mem (optional_inputs schema) key.

(** [not v] holds. *)
Definition falsey (v : value) : bool :=
  match truthy v with
  | Ret false => true
  | _ => false
  end.

Definition pruned_away (kwargs : kwargs_t) (key : string) : bool :=
  declared_optional key
  && match dict_get kwargs key with
     | Some v => negb (is_tensor v) && falsey v
     | None => false
     end.

Definition prune_key (kwargs : kwargs_t) (key : string) : outcome kwargs_t :=
  if dict_mem (optional_inputs schema) key then
    v <-? dict_getitem kwargs key ;;
    if is_tensor v then Ret kwargs
    else
      keep <-? truthy v ;;
      if negb keep then Ret (dict_del kwargs key) else Ret kwargs
  else Ret kwargs.

(** A computation leaves the registry cache alone. *)
Definition keeps_cache {A} (m : M A) : Prop :=
  forall st, cached_node_class_mappings (snd (m st)) = cached_node_class_mappings st.

(** The states a process passes through from [st0] on: it calls the
    accessor, runs nodes and probes them. *)
Inductive later (st0 : state) : state -> Prop :=
| later_now : later st0 st0
| later_accessor st :
    later st0 st -> later st0 (snd (get_node_class_mappings st))
| later_run st node_schema replicate_model return_type kwargs :
    later st0 st ->
    later st0 (snd (run_replicate_model node_schema replicate_model return_type kwargs st))
| later_probe st kwargs :
    later st0 st -> later st0 (snd (IS_CHANGED kwargs st)).

(** The schema files of a listing, read in order from a world: the name
    and the class each one gives. *)
Inductive loaded (dir : string) :
  World -> list string -> list (string * node_class) -> World -> Prop :=
| loaded_nil w : loaded dir w [] [] w
| loaded_other w file files entries w' :
    endswith file ".json" = false ->
    loaded dir w files entries w' ->
    loaded dir w (file :: files) entries w'
| loaded_schema w file files schema w1 name cls entries w' :
    endswith file ".json" = true ->
    json_load (os_path_join dir file) w = (Ret schema, w1) ->
    create_comfyui_node schema = Ret (name, cls) ->
    loaded dir w1 files entries w' ->
    loaded dir w (file :: files) ((name, cls) :: entries) w'.

Definition is_schema_file (file : string) : bool := endswith file ".json".

Definition store (nodes : dict node_class) (entry : string * node_class) : dict node_class :=
  dict_set nodes (fst entry) (snd entry).

Definition download_failed (address : string) (e : exn) : string :=
  "Failed to download SVG from URL " ++ address ++ ": " ++ exn_str e.

Definition read_failed (e : exn) : string :=
  "Failed to read SVG data: " ++ exn_str e.

(** What the items of a response give, one after the other from a world:
    the byte streams obtained, in order, and one diagnostic for each item
    that could not be fetched or read. *)
Inductive gathered :
  World -> list value -> list (list byte) -> list string -> World -> Prop :=
| gathered_nil w : gathered w [] [] [] w
| gathered_fetched w address resp w1 items entries diags w' :
    is_url (PyStr address) = true ->
    requests_get address 10 w = (Ret resp, w1) ->
    raise_for_status resp = Ret tt ->
    gathered w1 items entries diags w' ->
    gathered w (PyStr address :: items) (content resp :: entries) diags w'
| gathered_refused w address resp e w1 items entries diags w' :
    is_url (PyStr address) = true ->
    requests_get address 10 w = (Ret resp, w1) ->
    raise_for_status resp = Raise e ->
    gathered w1 items entries diags w' ->
    gathered w (PyStr address :: items) entries (download_failed address e :: diags) w'
| gathered_unreachable w address e w1 items entries diags w' :
    is_url (PyStr address) = true ->
    requests_get address 10 w = (Raise e, w1) ->
    gathered w1 items entries diags w' ->
    gathered w (PyStr address :: items) entries (download_failed address e :: diags) w'
| gathered_read w fd bytes w1 items entries diags w' :
    file_read fd w = (Ret bytes, w1) ->
    gathered w1 items entries diags w' ->
    gathered w (PyFile fd :: items) (bytes :: entries) diags w'
| gathered_unreadable w fd e w1 items entries diags w' :
    file_read fd w = (Raise e, w1) ->
    gathered w1 items entries diags w' ->
    gathered w (PyFile fd :: items) entries (read_failed e :: diags) w'.

Definition svg_source (item : value) : bool := is_url item || has_read item.

Definition nothing_valid (entries : list (list byte)) : list string :=
  match entries with
  | [] => ["No valid SVG data processed"]
  | _ :: _ => []
  end.

Definition svg_result (entries : list (list byte)) : value :=
  match entries with
  | [] => PyNone
  | _ :: _ => PySVG entries
  end.

(** The response objects read and decoded, one after the other from a
    world. *)
Inductive decoded : World -> list value -> list image -> World -> Prop :=
| decoded_nil w : decoded w [] [] w
| decoded_cons w fd bytes w1 im files ims w' :
    file_read fd w = (Ret bytes, w1) ->
    Image_open bytes = Ret im ->
    decoded w1 files ims w' ->
    decoded w (PyFile fd :: files) (im :: ims) w'.

Definition report (st : state) (line : string) : state :=
  mkState (stdout st ++ [line]) (world st) (cached_node_class_mappings st).

(** The type tokens the loop over named slots has a branch for. *)
Definition recognised (t : string) : bool :=
  (t =? "IMAGE") || (t =? "AUDIO") || (t =? "SVG") || (t =? "STRING").

(** The adapter of a slot's type applied to the slot of the response. *)
Definition decode_slot (output : value) (slot : string * string) : M value :=
  let prop_name := fst slot in
  let prop_type := snd slot in
  if prop_type =? "IMAGE" then
    o <- lift (py_get output prop_name PyNone) ;; handle_image_output o
  else if prop_type =? "AUDIO" then
    o <- lift (py_get output prop_name PyNone) ;; handle_audio_output o
  else if prop_type =? "SVG" then
    o <- lift (py_get output prop_name PyNone) ;; handle_svg_output o
  else
    o <- lift (py_get output prop_name (PyStr "")) ;; string_output o.

(** The slots decoded one after the other, in declared order. *)
Inductive decoded_slots (output : value) :
  state -> dict string -> list value -> state -> Prop :=
| decoded_slots_nil st : decoded_slots output st [] [] st
| decoded_slots_cons st slot v st1 slots results st' :
    decode_slot output slot st = (Ret v, st1) ->
    decoded_slots output st1 slots results st' ->
    decoded_slots output st (slot :: slots) (v :: results) st'.

Definition convert_item (kwargs : kwargs_t) (kv : string * value) : outcome kwargs_t :=
  let key := fst kv in
  let v := snd kv in
  match v with
  | PyNone => Ret kwargs
  | _ =>
      input_type <-? input_type_of schema key ;;
      if value_eq_str input_type "IMAGE" then
        b64 <-? image_to_base64 v ;;
        Ret (dict_set kwargs key b64)
      else if value_eq_str input_type "AUDIO" then
        b64 <-? audio_to_base64 v ;;
        Ret (dict_set kwargs key b64)
      else Ret kwargs
  end.

(** An input is not supplied, or holds a list. *)
Definition absent_or_list (kwargs : kwargs_t) (name : string) : Prop :=
  match dict_get kwargs name with
  | None => True
  | Some v => is_list v = true
  end.

(** An entry the pruning leaves in the call. *)
Definition kept (kwargs : kwargs_t) (kv : string * value) : bool :=
  negb (pruned_away kwargs (fst kv)).

(** [f] on each element in turn, up to the first that raises. *)
Fixpoint omap_list {A B} (f : A -> outcome B) (l : list A) : outcome (list B) :=
  match l with
  | [] => Ret []
  | x :: rest =>
      y <-? f x ;;
      ys <-? omap_list f rest ;;
      Ret (y :: ys)
  end.

(** What the media encoding puts in the place of an argument. *)
Definition convert_value (key : string) (v : value) : outcome value :=
  match v with
  | PyNone => Ret PyNone
  | _ =>
      input_type <-? input_type_of schema key ;;
      if value_eq_str input_type "IMAGE" then image_to_base64 v
      else if value_eq_str input_type "AUDIO" then audio_to_base64 v
      else Ret v
  end.

Definition convert_entry (kv : string * value) : outcome (string * value) :=
  r <-? convert_value (fst kv) (snd kv) ;;
  Ret (fst kv, r).

(** Lines 251 to 253: the arguments as they are after the coercion, the
    pruning and the media encoding. *)
Definition prepared_arguments (kwargs : kwargs_t) : outcome kwargs_t :=
  pruned <-? remove_falsey_optional_inputs schema (handle_array_inputs schema kwargs) ;;
  convert_input_images_to_base64 schema pruned.

(** The arguments that go to the remote call. *)
Definition sent_arguments (prepared : kwargs_t) : kwargs_t :=
  filter (fun kv => negb (fst kv =? "force_rerun")) prepared.

(** The line [log_input] prints. *)
Definition log_line (replicate_model : string) (kwargs : kwargs_t) : string :=
  "Running " ++ replicate_model ++ " with "
  ++ py_str
       (PyDict
          (map (fun kv =>
                  (fst kv,
                   match snd kv with
                   | PyStr v =>
                       if startswith v "data:image" || startswith v "data:audio"
                       then PyStr (str_take 20 v ++ "...")
                       else PyStr v
                   | v => v
                   end)) kwargs)).

(** The adapter of a single return type. *)
Definition single_adapter (t : string) (output : value) : M value :=
  if t =? "IMAGE" then handle_image_output output
  else if t =? "AUDIO" then handle_audio_output output
  else if t =? "SVG" then handle_svg_output output
  else string_output output.

(** A response object that does not give a frame, and the error it raises:
    it has no [read], it cannot be read, it does not decode, or its image
    does not convert. *)
Inductive undecodable : World -> value -> exn -> World -> Prop :=
| undecodable_no_read w item :
    has_read item = false ->
    undecodable w item (AttributeError "read") w
| undecodable_read w fd e w' :
    file_read fd w = (Raise e, w') ->
    undecodable w (PyFile fd) e w'
| undecodable_open w fd bytes e w' :
    file_read fd w = (Ret bytes, w') ->
    Image_open bytes = Raise e ->
    undecodable w (PyFile fd) e w'
| undecodable_convert w fd bytes im e w' :
    file_read fd w = (Ret bytes, w') ->
    Image_open bytes = Ret im ->
    image_tensor im = Raise e ->
    undecodable w (PyFile fd) e w'.

(** The entry [handle_audio_output] makes of a loaded clip. *)
Definition audio_entry (clip : tensor * Z) : value :=
  PyDict [("waveform", PyTensor (unsqueeze0 (fst clip)));
          ("sample_rate", PyInt (snd clip))].

(** The audio files of a response read and loaded, one after the other from
    a world; an item that is falsey is passed over with a diagnostic. *)
Inductive heard : World -> list value -> list (tensor * Z) -> list string -> World -> Prop :=
| heard_nil w : heard w [] [] [] w
| heard_file w fd bytes w1 clip items clips diags w' :
    file_read fd w = (Ret bytes, w1) ->
    torchaudio_load bytes = Ret clip ->
    heard w1 items clips diags w' ->
    heard w (PyFile fd :: items) (clip :: clips) diags w'
| heard_empty w item items clips diags w' :
    truthy item = Ret false ->
    heard w items clips diags w' ->
    heard w (item :: items) clips ("Empty audio file received" :: diags) w'.

(** An audio file that does not load, and the error it raises. *)
Inductive unheard : World -> value -> exn -> World -> Prop :=
| unheard_truth w item e :
    truthy item = Raise e ->
    unheard w item e w
| unheard_no_read w item :
    truthy item = Ret true ->
    has_read item = false ->
    unheard w item (AttributeError "read") w
| unheard_read w fd e w' :
    file_read fd w = (Raise e, w') ->
    unheard w (PyFile fd) e w'
| unheard_load w fd bytes e w' :
    file_read fd w = (Ret bytes, w') ->
    torchaudio_load bytes = Raise e ->
    unheard w (PyFile fd) e w'.

Definition audio_result (entries : list value) : value :=
  match entries with
  | [] => PyNone
  | [only] => only
  | _ :: _ => PyList entries
  end.

Definition nothing_heard (entries : list value) : list string :=
  match entries with
  | [] => ["No valid audio files processed"]
  | _ :: _ => []
  end.

Definition unsupported_line (item : value) : string :=
  "Unsupported SVG output format: " ++ py_type_str item.

(** A schema file that does not give a node, and the error it raises: it
    does not load, or the schema is not one the mapper accepts. *)
Inductive unloadable (dir : string) : World -> string -> exn -> World -> Prop :=
| unloadable_file w file e w' :
    endswith file ".json" = true ->
    json_load (os_path_join dir file) w = (Raise e, w') ->
    unloadable dir w file e w'
| unloadable_schema w file bad_schema e w' :
    endswith file ".json" = true ->
    json_load (os_path_join dir file) w = (Ret bad_schema, w') ->
    create_comfyui_node bad_schema = Raise e ->
    unloadable dir w file e w'.

(** The class the last entry of a name gives, if any. *)
Definition last_entry (entries : list (string * node_class)) (name : string)
  : option node_class :=
  dict_get (rev entries) name.

(** The row-major position of a multi-index in a shape. *)
Definition rank (sh idx : list nat) : nat := dot idx (strides sh).

(** [ToTensor]'s scaling of a band value. *)
Definition scaled (v : N) : spec_float := SFdiv 24 128 (f32_of_N v) f32_255.

(** Lines 133 to 138: what [log_input] shows for a value. *)
Definition truncated (v : value) : value :=
  match v with
  | PyStr v =>
      if startswith v "data:image" || startswith v "data:audio"
      then PyStr (str_take 20 v ++ "...")
      else PyStr v
  | v => v
  end.

End Vocabulary.

(** * Example data *)

Definition example_array_schema : value :=
  PyDict [("owner", PyStr "acme"); ("name", PyStr "mixer"); ("version", PyStr "v1");
          ("arrays", PyDict [("seeds", PyNone)])].

Definition example_optional_schema : value :=
  PyDict [("owner", PyStr "acme"); ("name", PyStr "painter"); ("version", PyStr "v2");
          ("required", PyDict [("prompt", PyStr "STRING")]);
          ("optional", PyDict [("seed", PyStr "INT"); ("mask", PyStr "IMAGE");
                               ("negative_prompt", PyStr "STRING")])].

Definition example_zero_tensor : tensor := mkTensor [1] [S754_zero false].

Definition example_optional_kwargs : kwargs_t :=
  [("prompt", PyStr ""); ("seed", PyInt 0); ("mask", PyTensor example_zero_tensor);
   ("negative_prompt", PyStr "blurry")].

(** A world that starts at a whole second of its clock, with nothing on the
    web, no objects, an empty response and an empty schema directory. *)
Definition example_world : Example.world :=
  Example.mkWorld 1730000000000 [] [] (PyDict []) [] 0.

Definition example_state (w : Example.world) : state (H := Example.host) :=
  mkState (H := Example.host) [] w None.

Definition example_seconds : spec_float := f64_of_Z 1730000000.

Definition example_painter_schema : value :=
  PyDict [("owner", PyStr "acme"); ("name", PyStr "painter"); ("version", PyStr "v2");
          ("output", PyStr "IMAGE")].

Definition example_singer_schema : value :=
  PyDict [("owner", PyStr "acme"); ("name", PyStr "singer"); ("version", PyStr "v7");
          ("output", PyStr "AUDIO")].

(** A directory with two schema files and a file that is not one. *)
Definition example_schema_world : Example.world :=
  Example.mkWorld 1730000000000 [] [] (PyDict [])
    [("painter.json", example_painter_schema); ("README.md", PyStr "notes");
     ("singer.json", example_singer_schema)] 0.

(** A directory where a schema file has been copied under a second name. *)
Definition example_copied_world : Example.world :=
  Example.mkWorld 1730000000000 [] [] (PyDict [])
    [("painter.json", example_painter_schema);
     ("painter-copy.json", example_painter_schema)] 0.

Definition example_logo : list byte := [x3c; x73; x76; x67; x2f; x3e]%byte.

Definition example_web_world : Example.world :=
  Example.mkWorld 1730000000000
    [("https://example.com/logo.svg",
      mkResponse 200 "OK" "https://example.com/logo.svg" example_logo)]
    [] (PyDict []) [] 0.

(** Raw pictures: one red pixel, one blue pixel, and two white pixels side
    by side. *)
Definition example_red : list byte := [x01; x01; xff; x00; x00]%byte.
Definition example_blue : list byte := [x01; x01; x00; x00; xff]%byte.
Definition example_wide : list byte := [x02; x01; xff; xff; xff; xff; xff; xff]%byte.

Definition example_image_world : Example.world :=
  Example.mkWorld 1730000000000 [] [example_red; example_blue; example_wide]
    (PyDict []) [] 0.

Definition example_caption_world : Example.world :=
  Example.mkWorld 1730000000000 [] []
    (PyDict [("caption", PyStr " a cat "); ("seed", PyInt 7)]) [] 0.

Definition example_prompt_kwargs : kwargs_t :=
  [("prompt", PyStr "a cat"); ("force_rerun", PyBool false)].

Definition example_mono : tensor :=
  mkTensor [4] [S754_zero false; f32_of_N 1; S754_zero false; f32_of_N 1].

Definition example_audio : value :=
  PyDict [("waveform", PyTensor example_mono); ("sample_rate", PyInt 44100)].

(** A schema with an optional array-typed input. *)
Definition example_seeds_schema : value :=
  PyDict [("owner", PyStr "acme"); ("name", PyStr "mixer"); ("version", PyStr "v1");
          ("required", PyDict [("prompt", PyStr "STRING")]);
          ("optional", PyDict [("seeds", PyStr "STRING")]);
          ("arrays", PyDict [("seeds", PyNone)])].

Definition example_seeds_kwargs : kwargs_t :=
  [("prompt", PyStr "a cat"); ("seeds", PyNone)].

(** A schema with an audio input. *)
Definition example_echo_schema : value :=
  PyDict [("owner", PyStr "acme"); ("name", PyStr "echo"); ("version", PyStr "v1");
          ("required", PyDict [("prompt", PyStr "STRING"); ("clip", PyStr "AUDIO")])].

Definition example_echo_kwargs : kwargs_t :=
  [("prompt", PyStr "louder"); ("clip", example_audio)].

(** The example host with a mapper whose descriptor has no key
    "required". *)
Definition example_bare_host : Host := {|
  World := Example.world;
  time_time := Example.clock;
  requests_get := Example.fetch;
  file_read := Example.read_blob;
  replicate_run := Example.run_model;
  os_listdir := Example.listdir;
  json_load := Example.load_json;
  current_path := "/custom_nodes/comfyui-replicate";
  os_path_join := Example.path_join;
  tensor_bool := Example.bool_of_tensor;
  float_of_str := Example.parse_float;
  Image_open := Example.open_raw;
  Image_convert := Example.convert_mode;
  ToPILImage := Example.to_image;
  png_encode := Example.encode_png;
  wav_encode := Example.encode_wav;
  torchaudio_load := Example.load_audio;
  py_str := Example.show;
  py_type_str := Example.show_type;
  name_and_version := Example.names_of;
  get_return_type := Example.return_type_of;
  schema_to_comfyui_input_types := fun _ => mkInputTypes None None;
  inputs_that_need_arrays := Example.array_inputs_of
|}.

Definition example_number_world : Example.world :=
  Example.mkWorld 1730000000000 [] [] (PyStr " 7 ") [] 0.

(** Two short audio files. *)
Definition example_audio_world : Example.world :=
  Example.mkWorld 1730000000000 [] [[x01; x02]%byte; [x03]%byte] (PyDict []) [] 0.

(** A directory whose second schema file is not a schema. *)
Definition example_broken_world : Example.world :=
  Example.mkWorld 1730000000000 [] [] (PyDict [])
    [("painter.json", example_painter_schema); ("broken.json", PyStr "oops");
     ("singer.json", example_singer_schema)] 0.

(** A picture of two pixels side by side, red and blue. *)
Definition example_two_pixels : image :=
  mkImage "RGB" 2 1 [255; 0; 0; 0; 0; 255]%N.

Definition example_painter_v3_schema : value :=
  PyDict [("owner", PyStr "acme"); ("name", PyStr "painter"); ("version", PyStr "v3");
          ("output", PyStr "IMAGE")].

(** A directory where two schema files describe two versions of one
    model. *)
Definition example_versions_world : Example.world :=
  Example.mkWorld 1730000000000 [] [] (PyDict [])
    [("painter.json", example_painter_schema);
     ("painter-v3.json", example_painter_v3_schema)] 0.

Definition example_two_pixels_frame : tensor :=
  mkTensor [1; 1; 2; 3] (map scaled [255; 0; 0; 0; 0; 255]%N).

(** * Properties *)

(** ** Dictionaries *)

Lemma dict_get_set_same {V} (d : dict V) (k : string) (v : V) :
  dict_get (dict_set d k v) k = Some v.
Proof.
  induction d as [|[k' v'] d IH]; simpl.
  - now rewrite String.eqb_refl.
  - destruct (k' =? k) eqn:E; simpl.
    + now rewrite String.eqb_refl.
    + now rewrite E.
Qed.

Lemma dict_get_set_other {V} (d : dict V) (k k' : string) (v : V) :
  k <> k' -> dict_get (dict_set d k v) k' = dict_get d k'.
Proof.
  intros Hne.
  induction d as [|[k0 v0] d IH]; simpl.
  - destruct (String.eqb_spec k k'); [contradiction | reflexivity].
  - destruct (String.eqb_spec k0 k) as [->|Hk]; simpl.
    + destruct (String.eqb_spec k k'); [contradiction | reflexivity].
    + destruct (k0 =? k'); [reflexivity | exact IH].
Qed.

Lemma dict_get_del_same {V} (d : dict V) (k : string) :
  dict_get (dict_del d k) k = None.
Proof.
  induction d as [|[k0 v0] d IH]; simpl; [reflexivity|].
  destruct (String.eqb_spec k0 k) as [->|Hk]; simpl; [exact IH|].
  destruct (String.eqb_spec k0 k); [contradiction | exact IH].
Qed.

Lemma dict_get_del_other {V} (d : dict V) (k k' : string) :
  k <> k' -> dict_get (dict_del d k) k' = dict_get d k'.
Proof.
  intros Hne.
  induction d as [|[k0 v0] d IH]; simpl; [reflexivity|].
  destruct (String.eqb_spec k0 k) as [->|Hk]; simpl.
  - destruct (String.eqb_spec k k'); [contradiction | exact IH].
  - destruct (k0 =? k'); [reflexivity | exact IH].
Qed.

Lemma dict_get_in_keys {V} (d : dict V) (k : string) :
  In k (dict_keys d) <-> dict_get d k <> None.
Proof.
  induction d as [|[k0 v0] d IH]; simpl.
  - split; [tauto | congruence].
  - destruct (String.eqb_spec k0 k) as [->|Hk].
    + split; [congruence | auto].
    + rewrite <- IH. split; [intros [?|?]; [contradiction | assumption] | auto].
Qed.

(** The number of entries grows by one exactly when the key is new. *)
Lemma dict_set_length {V} (d : dict V) (k : string) (v : V) :
  List.length (dict_set d k v) =
  if dict_mem d k then List.length d else S (List.length d).
Proof.
  unfold dict_mem.
  induction d as [|[k0 v0] d IH]; simpl; [reflexivity|].
  destruct (k0 =? k); simpl; [reflexivity|].
  rewrite IH. now destruct (dict_get d k).
Qed.

Lemma dict_set_keys_nodup {V} (d : dict V) (k : string) (v : V) :
  NoDup (dict_keys d) -> NoDup (dict_keys (dict_set d k v)).
Proof.
  unfold dict_keys.
  induction d as [|[k0 v0] d IH]; simpl; intros Hnd.
  - constructor; [intros [] | constructor].
  - inversion Hnd as [|? ? Hnotin Hnd']; subst.
    destruct (String.eqb_spec k0 k) as [->|Hk]; simpl.
    + now constructor.
    + constructor; [|now apply IH].
      intros Hin. apply (dict_get_in_keys (dict_set d k v) k0) in Hin.
      rewrite dict_get_set_other in Hin by congruence.
      apply Hnotin. now apply (dict_get_in_keys d k0).
Qed.

(** ** Splitting on commas *)

Lemma split_comma_not_nil (s : string) : split_comma s <> [].
Proof.
  induction s as [|c s IH]; simpl; [discriminate|].
  destruct (Ascii.eqb c ","); [discriminate|].
  destruct (split_comma s); discriminate.
Qed.

(** The pieces contain no comma, and joined by commas they give the text
    back: [split_comma] is [s.split(",")]. *)
Lemma split_comma_pieces (s : string) :
  Forall (fun p => has_comma p = false) (split_comma s).
Proof.
  induction s as [|c s IH]; simpl.
  - repeat constructor.
  - destruct (Ascii.eqb c ",") eqn:E.
    + constructor; [reflexivity | exact IH].
    + destruct (split_comma s) as [|p ps].
      * repeat constructor. simpl. now rewrite E.
      * inversion IH; subst. constructor; [|assumption].
        simpl. now rewrite E.
Qed.

Lemma split_comma_join (s : string) : join_comma (split_comma s) = s.
Proof.
  induction s as [|c s IH]; simpl; [reflexivity|].
  destruct (Ascii.eqb_spec c ",") as [->|Hc].
  - pose proof (split_comma_not_nil s) as Hnil.
    destruct (split_comma s) as [|p ps]; [contradiction|].
    cbn [join_comma]. simpl. now rewrite <- IH.
  - pose proof (split_comma_not_nil s) as Hnil.
    destruct (split_comma s) as [|p ps]; [contradiction|].
    rewrite <- IH. destruct ps; reflexivity.
Qed.

(** ** Array coercion *)
Section ArrayCoercion.

Context `{Host}.
Variable schema : value.

Lemma coerced_idempotent (v : value) : coerced (coerced v) = coerced v.
Proof.
  destruct v; simpl; try reflexivity.
  destruct (s =? ""); reflexivity.
Qed.

Lemma coerce_input_get (kwargs : kwargs_t) (input_name key : string) :
  dict_get (coerce_input kwargs input_name) key =
  if input_name =? key then option_map coerced (dict_get kwargs key)
  else dict_get kwargs key.
Proof.
  unfold coerce_input.
  destruct (String.eqb_spec input_name key) as [->|Hne].
  - destruct (dict_get kwargs key) as [v|] eqn:Hget; simpl.
    + destruct v; simpl; rewrite ?dict_get_set_same; try reflexivity.
      * destruct (s =? ""); now rewrite dict_get_set_same.
      * assumption.
    + assumption.
  - destruct (dict_get kwargs input_name) as [v|]; [|reflexivity].
    destruct v; simpl; rewrite ?dict_get_set_other by assumption; try reflexivity.
    destruct (s =? ""); now rewrite dict_get_set_other by assumption.
Qed.

Lemma coerce_loop_get (names : list string) (kwargs : kwargs_t) (key : string) :
  dict_get (fold_left coerce_input names kwargs) key =
  if existsb (fun n => n =? key) names
  then option_map coerced (dict_get kwargs key)
  else dict_get kwargs key.
Proof.
  revert kwargs.
  induction names as [|n names IH]; intros kwargs; simpl; [reflexivity|].
  rewrite IH, coerce_input_get.
  destruct (n =? key); simpl.
  - destruct (dict_get kwargs key) as [v|]; simpl.
    + rewrite coerced_idempotent. now destruct (existsb _ names).
    + now destruct (existsb _ names).
  - reflexivity.
Qed.

Lemma handle_array_inputs_get (kwargs : kwargs_t) (key : string) :
  dict_get (handle_array_inputs schema kwargs) key =
  if existsb (fun n => n =? key) (inputs_that_need_arrays schema)
  then option_map coerced (dict_get kwargs key)
  else dict_get kwargs key.
Proof. exact (coerce_loop_get _ kwargs key). Qed.

(** Inputs the schema does not mark as arrays keep their values. *)
Lemma handle_array_inputs_other (kwargs : kwargs_t) (key : string) :
  ~ In key (inputs_that_need_arrays schema) ->
  dict_get (handle_array_inputs schema kwargs) key = dict_get kwargs key.
Proof.
  intros Hnot. rewrite handle_array_inputs_get.
  destruct (existsb _ _) eqn:E; [|reflexivity].
  apply existsb_exists in E as (n & Hin & Hn).
  apply String.eqb_eq in Hn. subst. contradiction.
Qed.

(** C1.  For an input the schema marks as array-typed and that the call
    supplies, [handle_array_inputs] leaves at its key: the empty list for the
    empty text; for any other text the list of its comma-separated pieces,
    each replaced by the number it parses to and kept as text when it does
    not parse (so "1,2,foo" gives [1.0, 2.0, "foo"]); the one-element list of
    the value when it is neither text nor a list; and the list itself when it
    is a list. *)
Theorem handle_array_inputs_coerces (kwargs : kwargs_t) (input_name : string) (v : value) :
  In input_name (inputs_that_need_arrays schema) ->
  dict_get kwargs input_name = Some v ->
  let after := dict_get (handle_array_inputs schema kwargs) input_name in
  (v = PyStr "" -> after = Some (PyList []))
  /\ (forall s, v = PyStr s -> s <> "" ->
      exists items,
        after = Some (PyList items)
        /\ List.length items = List.length (split_comma s)
        /\ forall i item, nth_error (split_comma s) i = Some item ->
             nth_error items i =
             Some (match float_of_str item with
                   | Some f => PyFloat f
                   | None => PyStr item
                   end))
  /\ (float_of_str "1" = Some (f64_of_Z 1) ->
      float_of_str "2" = Some (f64_of_Z 2) ->
      float_of_str "foo" = None ->
      v = PyStr "1,2,foo" ->
      after = Some (PyList [PyFloat (f64_of_Z 1); PyFloat (f64_of_Z 2); PyStr "foo"]))
  /\ (is_str v = false -> is_list v = false -> after = Some (PyList [v]))
  /\ (forall l, v = PyList l -> after = Some (PyList l)).
Proof.
  intros Hin Hget after.
  assert (Hafter : after = Some (coerced v)).
  { unfold after. rewrite handle_array_inputs_get, Hget.
    replace (existsb _ _) with true; [reflexivity|].
    symmetry. apply existsb_exists. exists input_name.
    split; [assumption | apply String.eqb_refl]. }
  rewrite Hafter. repeat split.
  - intros ->. reflexivity.
  - intros s -> Hs. simpl.
    destruct (String.eqb_spec s ""); [contradiction|].
    exists (map number_or_text (split_comma s)).
    split; [reflexivity|]. split; [apply length_map|].
    intros i item Hi. rewrite nth_error_map, Hi. reflexivity.
  - intros H1 H2 Hfoo ->. simpl. unfold number_or_text.
    now rewrite H1, H2, Hfoo.
  - intros Hs Hl. destruct v; simpl in *; congruence.
  - intros l ->. reflexivity.
Qed.

End ArrayCoercion.

Lemma handle_array_inputs_coerces_witness :
  dict_get
    (handle_array_inputs (H := Example.host) example_array_schema
       [("prompt", PyStr "a cat"); ("seeds", PyStr "1,2,foo")])
    "seeds"
  = Some (PyList [PyFloat (f64_of_Z 1); PyFloat (f64_of_Z 2); PyStr "foo"]).
Proof.
  assert (Hin : In "seeds" (inputs_that_need_arrays (Host := Example.host)
                              example_array_schema)) by (simpl; auto).
  destruct (@handle_array_inputs_coerces Example.host example_array_schema
              [("prompt", PyStr "a cat"); ("seeds", PyStr "1,2,foo")]
              "seeds" (PyStr "1,2,foo") Hin eq_refl) as (_ & _ & Hexample & _).
  apply Hexample; reflexivity.
Defined.

(** ** Optional pruning *)
Section OptionalPruning.

Context `{Host}.
Variable schema : value.

(** Only the truth value of a tensor can raise. *)
Lemma truthy_total (v : value) :
  is_tensor v = false -> exists b, truthy v = Ret b.
Proof.
  destruct v; simpl; intros Ht; try discriminate; eauto.
Qed.

Lemma prune_key_present (kwargs : kwargs_t) (key : string) (v : value) :
  dict_get kwargs key = Some v ->
  prune_key schema kwargs key =
  Ret (if pruned_away schema kwargs key then dict_del kwargs key else kwargs).
Proof.
  intros Hget. unfold prune_key, pruned_away, declared_optional, dict_getitem, falsey.
  rewrite Hget.
  destruct (dict_mem (optional_inputs schema) key); simpl; [|reflexivity].
  destruct (is_tensor v) eqn:Ht; simpl; [reflexivity|].
  destruct (truthy_total v Ht) as [b ->]. simpl. now destruct b.
Qed.

Lemma pruned_away_del (kwargs : kwargs_t) (k key : string) :
  k <> key -> pruned_away schema (dict_del kwargs k) key = pruned_away schema kwargs key.
Proof.
  intros Hne. unfold pruned_away. now rewrite dict_get_del_other.
Qed.

Lemma prune_loop (keys : list string) :
  forall kwargs : kwargs_t,
    NoDup keys ->
    (forall k, In k keys -> dict_get kwargs k <> None) ->
    exists pruned,
      ofor_each keys kwargs (prune_key schema) = Ret pruned
      /\ forall key,
           dict_get pruned key =
           if existsb (fun k => k =? key) keys && pruned_away schema kwargs key
           then None else dict_get kwargs key.
Proof.
  induction keys as [|k keys IH]; intros kwargs Hnd Hall; simpl.
  - exists kwargs. split; [reflexivity | intros; reflexivity].
  - inversion Hnd as [|? ? Hnotin Hnd']; subst.
    destruct (dict_get kwargs k) as [v|] eqn:Hk;
      [|exfalso; apply (Hall k); [now left | assumption]].
    rewrite (prune_key_present kwargs k Hk). simpl.
    set (next := if pruned_away schema kwargs k then dict_del kwargs k else kwargs).
    assert (Hother : forall key, k <> key -> dict_get next key = dict_get kwargs key).
    { intros key Hne. unfold next.
      destruct (pruned_away schema kwargs k); [now apply dict_get_del_other | reflexivity]. }
    assert (Haway : forall key, k <> key -> pruned_away schema next key = pruned_away schema kwargs key).
    { intros key Hne. unfold next.
      destruct (pruned_away schema kwargs k); [now apply pruned_away_del | reflexivity]. }
    destruct (IH next Hnd') as (pruned & Hrun & Hpruned).
    { intros k' Hin. rewrite Hother; [apply Hall; now right|].
      intros ->. contradiction. }
    exists pruned. split; [exact Hrun|].
    intros key. rewrite Hpruned.
    destruct (String.eqb_spec k key) as [->|Hne]; simpl.
    + replace (existsb (fun k => k =? key) keys) with false.
      * simpl. unfold next.
        destruct (pruned_away schema kwargs key); [apply dict_get_del_same | reflexivity].
      * symmetry. apply not_true_is_false. intros E.
        apply existsb_exists in E as (k' & Hin & Hk').
        apply String.eqb_eq in Hk'. subst. contradiction.
    + now rewrite Haway, Hother.
Qed.

Lemma remove_falsey_optional_inputs_get (kwargs : kwargs_t) :
  NoDup (dict_keys kwargs) ->
  exists pruned,
    remove_falsey_optional_inputs schema kwargs = Ret pruned
    /\ forall key,
         dict_get pruned key =
         if pruned_away schema kwargs key then None else dict_get kwargs key.
Proof.
  intros Hnd.
  destruct (@prune_loop (dict_keys kwargs) kwargs Hnd) as (pruned & Hrun & Hget).
  { intros k Hin. now apply dict_get_in_keys. }
  exists pruned. split; [exact Hrun|].
  intros key. rewrite Hget.
  destruct (existsb (fun k => k =? key) (dict_keys kwargs)) eqn:Hmem;
    [reflexivity|].
  simpl. destruct (dict_get kwargs key) as [v|] eqn:Hv.
  - assert (Hin : existsb (fun k => k =? key) (dict_keys kwargs) = true).
    { apply existsb_exists. exists key. split; [|apply String.eqb_refl].
      apply dict_get_in_keys. congruence. }
    congruence.
  - now destruct (pruned_away schema kwargs key).
Qed.

(** C2.  On an argument mapping, [remove_falsey_optional_inputs] returns
    and removes exactly the keys that are declared optional and whose value
    is not a tensor and is falsey; every other key keeps its value.  A key
    whose value is a tensor is never removed, whatever the truth value of
    the tensor, and an optional input whose value is the empty text, zero,
    the empty list or [None] is removed. *)
Theorem remove_falsey_optional_inputs_prunes (kwargs : kwargs_t) :
  NoDup (dict_keys kwargs) ->
  exists pruned,
    remove_falsey_optional_inputs schema kwargs = Ret pruned
    /\ (forall key,
          dict_get pruned key = None <->
          dict_get kwargs key = None
          \/ exists v, dict_get kwargs key = Some v
                       /\ declared_optional schema key = true
                       /\ is_tensor v = false
                       /\ truthy v = Ret false)
    /\ (forall key v, dict_get pruned key = Some v -> dict_get kwargs key = Some v)
    /\ (forall key t, dict_get kwargs key = Some (PyTensor t) ->
                      dict_get pruned key = Some (PyTensor t))
    /\ (forall key v, declared_optional schema key = true ->
                      dict_get kwargs key = Some v ->
                      In v [PyStr ""; PyInt 0; PyList []; PyNone] ->
                      dict_get pruned key = None).
Proof.
  intros Hnd.
  destruct (@remove_falsey_optional_inputs_get kwargs Hnd) as (pruned & Hrun & Hget).
  exists pruned. split; [exact Hrun|].
  repeat split.
  - intros Hnone. rewrite Hget in Hnone.
    destruct (dict_get kwargs key) as [v|] eqn:Hv; [|now left].
    right. exists v.
    unfold pruned_away, falsey in Hnone. rewrite Hv in Hnone.
    destruct (declared_optional schema key); simpl in Hnone; [|discriminate].
    destruct (is_tensor v); simpl in Hnone; [discriminate|].
    destruct (truthy v) as [[|]|]; try discriminate. auto.
  - intros [Hnone | (v & Hv & Hopt & Ht & Hf)]; rewrite Hget.
    + rewrite Hnone. now destruct (pruned_away schema kwargs key).
    + unfold pruned_away, falsey.
      now rewrite Hv, Hopt, Ht, Hf.
  - intros key v. rewrite Hget. destruct (pruned_away schema kwargs key); congruence.
  - intros key t Ht. rewrite Hget. unfold pruned_away. rewrite Ht. simpl.
    now rewrite !andb_false_r.
  - intros key v Hopt Hv Hin. rewrite Hget.
    unfold pruned_away, falsey. rewrite Hv, Hopt.
    simpl in Hin. destruct Hin as [<-|[<-|[<-|[<-|[]]]]]; reflexivity.
Qed.

End OptionalPruning.

Lemma remove_falsey_optional_inputs_prunes_witness :
  exists pruned,
    remove_falsey_optional_inputs (H := Example.host) example_optional_schema
      example_optional_kwargs = Ret pruned
    /\ dict_get pruned "seed" = None
    /\ dict_get pruned "mask" = Some (PyTensor example_zero_tensor).
Proof.
  assert (Hnd : NoDup (dict_keys example_optional_kwargs)).
  { repeat constructor; simpl; intuition discriminate. }
  destruct (@remove_falsey_optional_inputs_prunes Example.host example_optional_schema
              example_optional_kwargs Hnd)
    as (pruned & Hrun & _ & _ & Htensor & Hfalsey).
  exists pruned. split; [exact Hrun|]. split.
  - apply (Hfalsey "seed" (PyInt 0)); [reflexivity | reflexivity | simpl; auto].
  - apply Htensor. reflexivity.
Defined.

(** ** The monad *)
Section MonadFacts.

Context `{Host}.

Lemma bind_Ret {A B} (m : M A) (k : A -> M B) (st st' : state) (a : A) :
  m st = (Ret a, st') -> bind m k st = k a st'.
Proof. unfold bind. now intros ->. Qed.

Lemma bind_Raise {A B} (m : M A) (k : A -> M B) (st st' : state) (e : exn) :
  m st = (Raise e, st') -> bind m k st = (Raise e, st').
Proof. unfold bind. now intros ->. Qed.

Lemma effect_run {A} (f : World -> outcome A * World) (st : state)
    (r : outcome A) (w : World) :
  f (world st) = (r, w) ->
  effect f st = (r, mkState (stdout st) w (cached_node_class_mappings st)).
Proof. unfold effect. now intros ->. Qed.

Lemma state_eta (st : state) :
  mkState (stdout st) (world st) (cached_node_class_mappings st) = st.
Proof. now destruct st. Qed.

Lemma keeps_cache_ret {A} (a : A) : keeps_cache (ret a).
Proof. intros st. reflexivity. Qed.

Lemma keeps_cache_lift {A} (o : outcome A) : keeps_cache (lift o).
Proof. intros st. reflexivity. Qed.

Lemma keeps_cache_print (line : string) : keeps_cache (print line).
Proof. intros st. reflexivity. Qed.

Lemma keeps_cache_effect {A} (f : World -> outcome A * World) : keeps_cache (effect f).
Proof. intros st. unfold effect. now destruct (f (world st)). Qed.

Lemma keeps_cache_bind {A B} (m : M A) (k : A -> M B) :
  keeps_cache m -> (forall a, keeps_cache (k a)) -> keeps_cache (bind m k).
Proof.
  intros Hm Hk st. unfold bind. specialize (Hm st).
  destruct (m st) as [[a|e] st']; simpl in *; [|exact Hm].
  now rewrite Hk.
Qed.

Lemma keeps_cache_try {A} (body : M A) (handler : exn -> M A) :
  keeps_cache body -> (forall e, keeps_cache (handler e)) ->
  keeps_cache (try_except body handler).
Proof.
  intros Hb Hh st. unfold try_except. specialize (Hb st).
  destruct (body st) as [[a|e] st']; simpl in *; [exact Hb|].
  now rewrite Hh.
Qed.

Lemma keeps_cache_for_each {A S} (xs : list A) (body : S -> A -> M S) :
  (forall acc x, keeps_cache (body acc x)) ->
  forall acc, keeps_cache (for_each xs acc body).
Proof.
  intros Hbody. induction xs as [|x xs IH]; intros acc; simpl.
  - apply keeps_cache_ret.
  - apply keeps_cache_bind; [apply Hbody | intros; apply IH].
Qed.

End MonadFacts.

(** Computations built from the operations of the monad leave the cache
    alone: the tactic goes through their structure. *)
Ltac keeps_cache_step :=
  match goal with
  | |- forall _, _ => intro
  | |- keeps_cache (ret _) => apply keeps_cache_ret
  | |- keeps_cache (lift _) => apply keeps_cache_lift
  | |- keeps_cache (print _) => apply keeps_cache_print
  | |- keeps_cache (effect _) => apply keeps_cache_effect
  | |- keeps_cache (bind _ _) => apply keeps_cache_bind
  | |- keeps_cache (try_except _ _) => apply keeps_cache_try
  | |- keeps_cache (for_each _ _ _) => apply keeps_cache_for_each
  | |- keeps_cache (let _ := _ in _) => cbv zeta
  | |- keeps_cache (match ?x with _ => _ end) => destruct x
  end.

Ltac keeps_cache_tac := repeat keeps_cache_step.

Section MethodsKeepCache.

Context `{Host}.

Lemma read_keeps_cache (file_obj : value) : keeps_cache (read file_obj).
Proof. unfold read. keeps_cache_tac. Qed.

Lemma handle_image_output_keeps_cache (output : value) :
  keeps_cache (handle_image_output output).
Proof. unfold handle_image_output. keeps_cache_tac; apply read_keeps_cache. Qed.

Lemma handle_audio_output_keeps_cache (output : value) :
  keeps_cache (handle_audio_output output).
Proof. unfold handle_audio_output. keeps_cache_tac; apply read_keeps_cache. Qed.

Lemma handle_svg_output_keeps_cache (output : value) :
  keeps_cache (handle_svg_output output).
Proof.
  unfold handle_svg_output, svg_item. keeps_cache_tac; apply read_keeps_cache.
Qed.

Lemma string_output_keeps_cache (chunks : value) : keeps_cache (string_output chunks).
Proof. unfold string_output. keeps_cache_tac. Qed.

Lemma run_replicate_model_keeps_cache (schema : value) (replicate_model : string)
    (return_type : return_spec) (kwargs : kwargs_t) :
  keeps_cache (run_replicate_model schema replicate_model return_type kwargs).
Proof.
  unfold run_replicate_model, call_model, log_input, process_outputs, process_slot.
  keeps_cache_tac;
    first [ apply handle_image_output_keeps_cache
          | apply handle_audio_output_keeps_cache
          | apply handle_svg_output_keeps_cache
          | apply string_output_keeps_cache ].
Qed.

Lemma IS_CHANGED_keeps_cache (kwargs : kwargs_t) : keeps_cache (IS_CHANGED kwargs).
Proof. unfold IS_CHANGED. keeps_cache_tac. Qed.

End MethodsKeepCache.

(** ** The changed-probe *)
Section ChangedProbe.

Context `{Host}.

Lemma IS_CHANGED_set (kwargs : kwargs_t) (flag : value) (st : state) :
  dict_get kwargs "force_rerun" = Some flag ->
  truthy flag = Ret true ->
  IS_CHANGED kwargs st =
  (Ret (PyFloat (fst (time_time (world st)))),
   mkState (stdout st) (snd (time_time (world st))) (cached_node_class_mappings st)).
Proof.
  intros Hflag Hset. unfold IS_CHANGED, dict_getitem, bind, lift, effect.
  rewrite Hflag, Hset. now destruct (time_time (world st)).
Qed.

Lemma IS_CHANGED_unset (kwargs : kwargs_t) (flag : value) (st : state) :
  dict_get kwargs "force_rerun" = Some flag ->
  truthy flag = Ret false ->
  IS_CHANGED kwargs st = (Ret (PyStr ""), st).
Proof.
  intros Hflag Hunset. unfold IS_CHANGED, dict_getitem, bind, lift.
  now rewrite Hflag, Hunset.
Qed.

(** C7, as the code has it.  With the flag set, each call of the probe
    returns the reading of the clock at that call: a number, never the empty
    text, and the values of two successive calls differ whenever the clock
    moved between the two readings.  With the flag unset the probe returns
    the empty text on every call and changes nothing. *)
Theorem IS_CHANGED_probe (kwargs : kwargs_t) (flag : value) (st : state) :
  dict_get kwargs "force_rerun" = Some flag ->
  (truthy flag = Ret true ->
   exists t1 t2 st1 st2,
     IS_CHANGED kwargs st = (Ret (PyFloat t1), st1)
     /\ IS_CHANGED kwargs st1 = (Ret (PyFloat t2), st2)
     /\ t1 = fst (time_time (world st))
     /\ t2 = fst (time_time (world st1))
     /\ world st1 = snd (time_time (world st))
     /\ PyFloat t1 <> PyStr "" /\ PyFloat t2 <> PyStr ""
     /\ (t1 <> t2 -> PyFloat t1 <> PyFloat t2))
  /\ (truthy flag = Ret false ->
      forall st', IS_CHANGED kwargs st' = (Ret (PyStr ""), st')).
Proof.
  intros Hflag. split.
  - intros Hset.
    eexists _, _, _, _.
    split; [apply (IS_CHANGED_set kwargs st Hflag Hset)|].
    split; [apply (IS_CHANGED_set kwargs _ Hflag Hset)|].
    repeat split; try discriminate.
    intros Hne Heq. apply Hne. now injection Heq.
  - intros Hunset st'. now apply IS_CHANGED_unset with flag.
Qed.

(** C10.  A call whose arguments lack the key "force_rerun" raises the
    key-lookup error; it does not return the empty text. *)
Theorem IS_CHANGED_missing_flag (kwargs : kwargs_t) (st : state) :
  dict_get kwargs "force_rerun" = None ->
  IS_CHANGED kwargs st = (Raise (KeyError "force_rerun"), st).
Proof.
  intros Hmissing. unfold IS_CHANGED, dict_getitem, bind, lift.
  now rewrite Hmissing.
Qed.

End ChangedProbe.

(** Two calls within one second of a clock that reports whole seconds
    return the same value although the flag is set. *)
Lemma IS_CHANGED_same_reading :
  let kwargs := [("force_rerun", PyBool true)] in
  let first := IS_CHANGED (H := Example.host) kwargs (example_state example_world) in
  let second := IS_CHANGED (H := Example.host) kwargs (snd first) in
  fst first = Ret (PyFloat example_seconds)
  /\ fst second = Ret (PyFloat example_seconds).
Proof. vm_compute. split; reflexivity. Qed.

Lemma IS_CHANGED_probe_witness :
  let kwargs := [("force_rerun", PyBool true)] in
  let st := example_state
              (Example.mkWorld 1730000000999 [] [] (PyDict []) [] 0) in
  exists t1 t2 st1 st2,
    IS_CHANGED (H := Example.host) kwargs st = (Ret (PyFloat t1), st1)
    /\ IS_CHANGED (H := Example.host) kwargs st1 = (Ret (PyFloat t2), st2)
    /\ PyFloat t1 <> PyFloat t2.
Proof.
  intros kwargs st.
  destruct (@IS_CHANGED_probe Example.host kwargs (PyBool true) st eq_refl)
    as [Hset _].
  destruct (Hset eq_refl) as (t1 & t2 & st1 & st2 & H1 & H2 & Ht1 & Ht2 & Hw & _ & _ & Hdiff).
  exists t1, t2, st1, st2. repeat split; try assumption.
  apply Hdiff. rewrite Ht1, Ht2, Hw. vm_compute. discriminate.
Defined.

Lemma IS_CHANGED_missing_flag_witness :
  IS_CHANGED (H := Example.host) [("prompt", PyStr "a cat")] (example_state example_world)
  = (Raise (KeyError "force_rerun"), example_state example_world).
Proof.
  apply (@IS_CHANGED_missing_flag Example.host). reflexivity.
Defined.

(** ** The registry *)
Section RegistryFacts.

Context `{Host}.

Lemma loaded_count (dir : string) w files entries w' :
  loaded dir w files entries w' ->
  List.length entries = List.length (filter is_schema_file files).
Proof.
  unfold is_schema_file.
  induction 1 as [| ? ? ? ? ? Hext _ IH | ? ? ? ? ? ? ? ? ? Hext _ _ _ IH]; simpl.
  - reflexivity.
  - now rewrite Hext.
  - rewrite Hext. simpl. now rewrite IH.
Qed.

Lemma load_loop (dir : string) w files entries w' :
  loaded dir w files entries w' ->
  forall nodes out cache,
    for_each files nodes (load_schema_file dir) (mkState out w cache)
    = (Ret (fold_left store entries nodes), mkState out w' cache).
Proof.
  induction 1 as [| ? ? ? ? ? Hext _ IH
                  | ? ? ? ? ? ? ? ? ? Hext Hload Hnode _ IH];
    intros nodes out cache; simpl.
  - reflexivity.
  - unfold bind, load_schema_file at 1. rewrite Hext. simpl. apply IH.
  - unfold bind at 1, load_schema_file at 1. rewrite Hext.
    unfold bind, effect, lift. simpl. rewrite Hload, Hnode. simpl. apply IH.
Qed.

(** Storing entries with distinct names that are all new keeps them as they
    are, after what was there. *)
Lemma store_distinct (entries : list (string * node_class)) :
  forall nodes,
    NoDup (map fst entries) ->
    (forall name, In name (map fst entries) -> dict_get nodes name = None) ->
    fold_left store entries nodes = nodes ++ entries.
Proof.
  induction entries as [|[name cls] entries IH]; intros nodes Hnd Hnew; simpl.
  - now rewrite app_nil_r.
  - inversion Hnd as [|? ? Hnotin Hnd']; subst.
    assert (Hset : store nodes (name, cls) = nodes ++ [(name, cls)]).
    { unfold store. simpl.
      assert (Hn : dict_get nodes name = None) by (apply Hnew; now left).
      clear - Hn. induction nodes as [|[k v] nodes IHn]; simpl in *; [reflexivity|].
      destruct (k =? name); [discriminate|]. now rewrite IHn. }
    rewrite IH; [|assumption|].
    + rewrite Hset, <- app_assoc. reflexivity.
    + intros n Hin. rewrite Hset.
      assert (Hn : dict_get nodes n = None) by (apply Hnew; now right).
      assert (Hne : name <> n) by (intros ->; contradiction).
      clear - Hn Hne. induction nodes as [|[k v] nodes IHn]; simpl in *.
      * destruct (String.eqb_spec name n); [contradiction | reflexivity].
      * destruct (k =? n); [discriminate | now apply IHn].
Qed.

(** C8, as the code has it.  When the directory lists and every schema
    file in it loads and gives a node, and the names the schemas give are
    pairwise distinct, [create_comfyui_nodes_from_schemas] returns the
    mapping that has exactly one entry per schema file, keyed by the name
    that schema gives and holding its class; the files that do not end in
    ".json" play no part. *)
Theorem create_comfyui_nodes_from_schemas_one_per_file
    (schemas_dir : string) (st : state) (listing : list string)
    (entries : list (string * node_class)) (w1 w2 : World) :
  let dir := os_path_join current_path schemas_dir in
  os_listdir dir (world st) = (Ret listing, w1) ->
  loaded dir w1 listing entries w2 ->
  NoDup (map fst entries) ->
  create_comfyui_nodes_from_schemas schemas_dir st
  = (Ret entries, mkState (stdout st) w2 (cached_node_class_mappings st))
  /\ List.length entries = List.length (filter is_schema_file listing)
  /\ (forall name cls, In (name, cls) entries -> dict_get entries name = Some cls)
  /\ (forall name cls, dict_get entries name = Some cls -> In (name, cls) entries).
Proof.
  intros dir Hlist Hloaded Hnd.
  split; [|split; [|split]].
  - unfold create_comfyui_nodes_from_schemas. fold dir.
    erewrite bind_Ret; [|apply effect_run; exact Hlist].
    rewrite (load_loop Hloaded).
    rewrite store_distinct; [reflexivity | assumption | reflexivity].
  - exact (loaded_count Hloaded).
  - clear Hloaded. induction entries as [|[n c] entries' IH]; intros name cls Hin;
      [destruct Hin|].
    inversion Hnd as [|? ? Hnotin Hnd']; subst. simpl.
    destruct Hin as [Heq | Hin].
    + injection Heq as -> ->. now rewrite String.eqb_refl.
    + destruct (String.eqb_spec n name) as [->|Hne].
      * exfalso. apply Hnotin. now apply (in_map fst) in Hin.
      * now apply IH.
  - clear. induction entries as [|[n c] entries' IH]; intros name cls; simpl;
      [discriminate|].
    destruct (String.eqb_spec n name) as [->|Hne].
    + intros [= ->]. now left.
    + intros Hget. right. now apply IH.
Qed.

(** Whatever the names, the mapping is what storing the entries one after
    the other leaves: a later schema file replaces an earlier one of the
    same name. *)
Lemma create_comfyui_nodes_from_schemas_stores
    (schemas_dir : string) (st : state) (listing : list string)
    (entries : list (string * node_class)) (w1 w2 : World) :
  let dir := os_path_join current_path schemas_dir in
  os_listdir dir (world st) = (Ret listing, w1) ->
  loaded dir w1 listing entries w2 ->
  create_comfyui_nodes_from_schemas schemas_dir st
  = (Ret (fold_left store entries []),
     mkState (stdout st) w2 (cached_node_class_mappings st)).
Proof.
  intros dir Hlist Hloaded.
  unfold create_comfyui_nodes_from_schemas. fold dir.
  erewrite bind_Ret; [|apply effect_run; exact Hlist].
  now rewrite (load_loop Hloaded).
Qed.

(** The cache, once filled, stays as it is through everything the process
    does later. *)
Lemma later_cache (st0 st : state) (nodes : dict node_class) :
  cached_node_class_mappings st0 = Some nodes ->
  later st0 st ->
  cached_node_class_mappings st = Some nodes.
Proof.
  intros Hfilled. induction 1 as [| st _ IH | st sc md rt kw _ IH | st kw _ IH].
  - exact Hfilled.
  - unfold get_node_class_mappings. now rewrite IH.
  - now rewrite run_replicate_model_keeps_cache.
  - now rewrite IS_CHANGED_keeps_cache.
Qed.

(** C9.  A first call of [get_node_class_mappings], made with the cache
    empty, builds the mapping with [create_comfyui_nodes_from_schemas] and
    keeps it.  Every call after it, whatever accessor calls, node runs and
    probes the process made in between, returns that same mapping and
    changes nothing: it makes no call to the host, so the build is not run
    again. *)
Theorem get_node_class_mappings_builds_once
    (st st1 : state) (nodes : dict node_class) :
  cached_node_class_mappings st = None ->
  get_node_class_mappings st = (Ret nodes, st1) ->
  (exists built,
      create_comfyui_nodes_from_schemas "schemas" st = (Ret nodes, built)
      /\ st1 = mkState (stdout built) (world built) (Some nodes))
  /\ get_node_class_mappings st1 = (Ret nodes, st1)
  /\ (forall st', later st1 st' ->
        get_node_class_mappings st' = (Ret nodes, st'))
  /\ (forall n, Nat.iter n (fun s => snd (get_node_class_mappings s)) st1 = st1).
Proof.
  intros Hempty Hcall. unfold get_node_class_mappings in Hcall.
  rewrite Hempty in Hcall.
  destruct (create_comfyui_nodes_from_schemas "schemas" st)
    as [[built_nodes|e] built] eqn:Hbuild; [|discriminate].
  injection Hcall as <- <-.
  assert (Hcached : forall st',
             cached_node_class_mappings st' = Some built_nodes ->
             get_node_class_mappings st' = (Ret built_nodes, st')).
  { intros st' Hc. unfold get_node_class_mappings. now rewrite Hc. }
  split; [exists built; split; reflexivity|].
  split; [now apply Hcached|].
  split.
  - intros st' Hlater. apply Hcached.
    now apply later_cache with (2 := Hlater).
  - induction n as [|n IH]; simpl; [reflexivity|].
    rewrite IH, Hcached; reflexivity.
Qed.

End RegistryFacts.

(** Two schema files that give the same name leave one entry. *)
Lemma create_comfyui_nodes_from_schemas_same_name :
  exists nodes st',
    create_comfyui_nodes_from_schemas (H := Example.host) "schemas"
      (example_state example_copied_world) = (Ret nodes, st')
    /\ List.length nodes = 1
    /\ List.length (filter is_schema_file
                      (dict_keys (Example.directory example_copied_world))) = 2.
Proof. eexists _, _. split; [reflexivity | split; reflexivity]. Qed.

Lemma create_comfyui_nodes_from_schemas_one_per_file_witness :
  exists nodes st',
    create_comfyui_nodes_from_schemas (H := Example.host) "schemas"
      (example_state example_schema_world) = (Ret nodes, st')
    /\ List.length nodes = 2
    /\ dict_get nodes "Replicate acme/singer"
       = Some (mkNode example_singer_schema "acme/singer:v7" (ReturnOne "AUDIO")).
Proof.
  set (w1 := Example.mkWorld 1730000000000 [] [] (PyDict [])
               (Example.directory example_schema_world) 1).
  set (entries :=
         [("Replicate acme/painter",
           mkNode example_painter_schema "acme/painter:v2" (ReturnOne "IMAGE"));
          ("Replicate acme/singer",
           mkNode example_singer_schema "acme/singer:v7" (ReturnOne "AUDIO"))]).
  assert (Hloaded : loaded (H := Example.host)
                      (os_path_join (Host := Example.host)
                         (current_path (Host := Example.host)) "schemas")
                      w1 (dict_keys (Example.directory example_schema_world))
                      entries w1).
  { eapply loaded_schema; [reflexivity | reflexivity | reflexivity |].
    eapply loaded_other; [reflexivity |].
    eapply loaded_schema; [reflexivity | reflexivity | reflexivity |].
    apply loaded_nil. }
  assert (Hnd : NoDup (map fst entries)).
  { repeat constructor; simpl; intuition discriminate. }
  destruct (@create_comfyui_nodes_from_schemas_one_per_file Example.host "schemas"
              (example_state example_schema_world) _ entries w1 w1 eq_refl Hloaded Hnd)
    as (Hrun & Hcount & Hin & _).
  eexists _, _. split; [exact Hrun|]. split; [exact Hcount|].
  apply Hin. simpl. auto.
Defined.

Lemma get_node_class_mappings_builds_once_witness :
  exists nodes st1,
    get_node_class_mappings (H := Example.host) (example_state example_schema_world)
    = (Ret nodes, st1)
    /\ get_node_class_mappings (H := Example.host) st1 = (Ret nodes, st1).
Proof.
  assert (Hfirst : exists nodes,
             fst (get_node_class_mappings (H := Example.host)
                    (example_state example_schema_world)) = Ret nodes)
    by (eexists; reflexivity).
  destruct Hfirst as [nodes Hfirst].
  destruct (get_node_class_mappings (H := Example.host)
              (example_state example_schema_world)) as [r st1] eqn:Hcall.
  simpl in Hfirst. subst r.
  exists nodes, st1. split; [reflexivity|].
  destruct (@get_node_class_mappings_builds_once Example.host
              (example_state example_schema_world) st1 nodes eq_refl Hcall)
    as (_ & Hagain & _).
  exact Hagain.
Defined.

(** The directory is listed once, however often the accessor is called. *)
Example get_node_class_mappings_lists_once :
  let st1 := snd (get_node_class_mappings (H := Example.host)
                    (example_state example_schema_world)) in
  let st3 := Nat.iter 2 (fun s => snd (get_node_class_mappings (H := Example.host) s)) st1 in
  Example.listdir_calls (world (H := Example.host) st1) = 1
  /\ Example.listdir_calls (world (H := Example.host) st3) = 1.
Proof. vm_compute. split; reflexivity. Qed.

(** ** Vector-graphic output *)
Section SvgOutput.

Context `{Host}.

(** Every item gives an entry or a diagnostic, never both. *)
Lemma gathered_count w items entries diags w' :
  gathered w items entries diags w' ->
  List.length entries + List.length diags = List.length items.
Proof.
  induction 1; simpl; lia.
Qed.

Lemma gathered_total (items : list value) :
  Forall (fun item => svg_source item = true) items ->
  forall w, exists entries diags w', gathered w items entries diags w'.
Proof.
  induction 1 as [|item items Hsrc _ IH]; intros w.
  - exists [], [], w. constructor.
  - unfold svg_source in Hsrc.
    destruct item; simpl in Hsrc; try discriminate.
    + destruct (requests_get s 10 w) as [[resp|e] w1] eqn:Hget.
      * destruct (IH w1) as (entries & diags & w' & Hrest).
        destruct (raise_for_status resp) as [[]|e] eqn:Hstatus.
        -- exists (content resp :: entries), diags, w'.
           eapply gathered_fetched; eauto. simpl. now rewrite orb_false_r in Hsrc.
        -- exists entries, (download_failed s e :: diags), w'.
           eapply gathered_refused; eauto. simpl. now rewrite orb_false_r in Hsrc.
      * destruct (IH w1) as (entries & diags & w' & Hrest).
        exists entries, (download_failed s e :: diags), w'.
        eapply gathered_unreachable; eauto. simpl. now rewrite orb_false_r in Hsrc.
    + destruct (file_read fd w) as [[bytes|e] w1] eqn:Hread;
        destruct (IH w1) as (entries & diags & w' & Hrest).
      * exists (bytes :: entries), diags, w'. eapply gathered_read; eauto.
      * exists entries, (read_failed e :: diags), w'.
        eapply gathered_unreadable; eauto.
Qed.

Lemma svg_loop w items entries diags w' :
  gathered w items entries diags w' ->
  forall svg_data out cache,
    for_each items svg_data svg_item (mkState out w cache)
    = (Ret (svg_data ++ entries), mkState (out ++ diags) w' cache).
Proof.
  induction 1 as [ w
                 | w address resp w1 items entries diags w' Hurl Hget Hstatus _ IH
                 | w address resp e w1 items entries diags w' Hurl Hget Hstatus _ IH
                 | w address e w1 items entries diags w' Hurl Hget _ IH
                 | w fd bytes w1 items entries diags w' Hread _ IH
                 | w fd e w1 items entries diags w' Hread _ IH ];
    intros svg_data out cache.
  - simpl. now rewrite !app_nil_r.
  - cbn [for_each]. unfold bind at 1. unfold svg_item. rewrite Hurl.
    unfold try_except, bind, effect, lift, ret. cbn [world stdout cached_node_class_mappings].
    rewrite Hget, Hstatus. rewrite IH. now rewrite <- app_assoc.
  - cbn [for_each]. unfold bind at 1. unfold svg_item. rewrite Hurl.
    unfold try_except, bind, effect, lift, ret, print.
    cbn [world stdout cached_node_class_mappings].
    rewrite Hget, Hstatus. cbn [world stdout cached_node_class_mappings].
    rewrite IH. now rewrite <- app_assoc.
  - cbn [for_each]. unfold bind at 1. unfold svg_item. rewrite Hurl.
    unfold try_except, bind, effect, lift, ret, print.
    cbn [world stdout cached_node_class_mappings].
    rewrite Hget. cbn [world stdout cached_node_class_mappings].
    rewrite IH. now rewrite <- app_assoc.
  - cbn [for_each]. unfold bind at 1. unfold svg_item. cbn [has_read].
    unfold try_except, bind, read, effect, ret.
    cbn [world stdout cached_node_class_mappings].
    rewrite Hread. rewrite IH. now rewrite <- app_assoc.
  - cbn [for_each]. unfold bind at 1. unfold svg_item. cbn [has_read].
    unfold try_except, bind, read, effect, ret, print.
    cbn [world stdout cached_node_class_mappings].
    rewrite Hread. cbn [world stdout cached_node_class_mappings].
    rewrite IH. now rewrite <- app_assoc.
Qed.

Lemma handle_svg_output_gathered (st : state) items entries diags w' :
  gathered (world st) items entries diags w' ->
  handle_svg_output (PyList items) st
  = (Ret (svg_result entries),
     mkState (stdout st ++ diags ++ nothing_valid entries) w'
       (cached_node_class_mappings st)).
Proof.
  intros Hg. unfold handle_svg_output.
  erewrite bind_Ret;
    [|rewrite <- (state_eta st) at 1; apply (svg_loop Hg)].
  cbn [app]. destruct entries; unfold bind, print, ret; simpl.
  - now rewrite app_assoc.
  - now rewrite app_nil_r.
Qed.

(** C5.  On a list of items that are web addresses or byte-readable
    objects, [handle_svg_output] returns and does not raise.  The container
    it returns holds, in order, one entry for each item that was fetched or
    read; each item that failed to fetch or to read adds one diagnostic
    instead of an entry; when no item succeeds the result is [None].  A
    list of one address that is served and one that cannot be reached, in
    either order, gives a container with exactly the one entry. *)
Theorem handle_svg_output_skips_failures (items : list value) (st : state) :
  Forall (fun item => svg_source item = true) items ->
  (exists entries diags w',
      gathered (world st) items entries diags w'
      /\ List.length entries + List.length diags = List.length items
      /\ handle_svg_output (PyList items) st
         = (Ret (match entries with [] => PyNone | _ :: _ => PySVG entries end),
            mkState (stdout st ++ diags ++ nothing_valid entries) w'
              (cached_node_class_mappings st)))
  /\ (forall good bad resp e w1 w2,
        is_url (PyStr good) = true -> is_url (PyStr bad) = true ->
        requests_get good 10 (world st) = (Ret resp, w1) ->
        raise_for_status resp = Ret tt ->
        requests_get bad 10 w1 = (Raise e, w2) ->
        handle_svg_output (PyList [PyStr good; PyStr bad]) st
        = (Ret (PySVG [content resp]),
           mkState (stdout st ++ [download_failed bad e]) w2
             (cached_node_class_mappings st)))
  /\ (forall good bad resp e w1 w2,
        is_url (PyStr good) = true -> is_url (PyStr bad) = true ->
        requests_get bad 10 (world st) = (Raise e, w1) ->
        requests_get good 10 w1 = (Ret resp, w2) ->
        raise_for_status resp = Ret tt ->
        handle_svg_output (PyList [PyStr bad; PyStr good]) st
        = (Ret (PySVG [content resp]),
           mkState (stdout st ++ [download_failed bad e]) w2
             (cached_node_class_mappings st))).
Proof.
  intros Hitems. split; [|split].
  - destruct (gathered_total Hitems (world st)) as (entries & diags & w' & Hg).
    exists entries, diags, w'. split; [exact Hg|].
    split; [exact (gathered_count Hg)|].
    now apply handle_svg_output_gathered.
  - intros good bad resp e w1 w2 Hgood Hbad Hget Hok Hfail.
    rewrite (@handle_svg_output_gathered st [PyStr good; PyStr bad]
               [content resp] [download_failed bad e] w2); [reflexivity|].
    eapply gathered_fetched; eauto.
    eapply gathered_unreachable; eauto. constructor.
  - intros good bad resp e w1 w2 Hgood Hbad Hfail Hget Hok.
    rewrite (@handle_svg_output_gathered st [PyStr bad; PyStr good]
               [content resp] [download_failed bad e] w2); [reflexivity|].
    eapply gathered_unreachable; eauto.
    eapply gathered_fetched; eauto. constructor.
Qed.

End SvgOutput.

Lemma handle_svg_output_skips_failures_witness :
  handle_svg_output (H := Example.host)
    (PyList [PyStr "https://example.com/logo.svg"; PyStr "https://nowhere.invalid/x.svg"])
    (example_state example_web_world)
  = (Ret (PySVG [example_logo]),
     mkState (H := Example.host)
       ["Failed to download SVG from URL https://nowhere.invalid/x.svg: host unreachable"]
       example_web_world None).
Proof.
  assert (Hitems : Forall (fun item => svg_source item = true)
                     [PyStr "https://example.com/logo.svg";
                      PyStr "https://nowhere.invalid/x.svg"]).
  { repeat constructor. }
  destruct (@handle_svg_output_skips_failures Example.host _
              (example_state example_web_world) Hitems) as (_ & Hpair & _).
  apply (Hpair "https://example.com/logo.svg" "https://nowhere.invalid/x.svg"
           (mkResponse 200 "OK" "https://example.com/logo.svg" example_logo)
           (OtherException "ConnectionError" "host unreachable")
           example_web_world example_web_world); reflexivity.
Defined.

(** ** Image output *)

Lemma flat_map_length_const {A B} (f : A -> list B) (n : nat) (xs : list A) :
  (forall x, List.length (f x) = n) ->
  List.length (flat_map f xs) = List.length xs * n.
Proof.
  intros Hf. induction xs as [|x xs IH]; simpl; [reflexivity|].
  now rewrite length_app, Hf, IH.
Qed.

Lemma multi_indices_length (sh : list nat) :
  List.length (multi_indices sh) = numel sh.
Proof.
  induction sh as [|n sh IH]; simpl; [reflexivity|].
  rewrite (flat_map_length_const _ (n := numel sh)).
  - now rewrite length_seq.
  - intros i. now rewrite length_map.
Qed.

(** The entries of a batch are what was concatenated, in order. *)
Lemma concat_chunk {A} (size : nat) (xss : list (list A)) (i : nat) (xs : list A) :
  (forall ys, In ys xss -> List.length ys = size) ->
  nth_error xss i = Some xs ->
  firstn size (skipn (i * size) (List.concat xss)) = xs.
Proof.
  revert i. induction xss as [|ys xss IH]; intros i Hsize Hi.
  - destruct i; discriminate.
  - destruct i as [|i]; simpl in *.
    + injection Hi as ->.
      rewrite firstn_app, (Hsize xs (or_introl eq_refl)), Nat.sub_diag.
      simpl. rewrite app_nil_r. apply firstn_all2.
      rewrite (Hsize xs (or_introl eq_refl)). lia.
    + rewrite skipn_app.
      assert (Hlen : List.length ys = size) by (apply Hsize; now left).
      rewrite skipn_all2 by lia.
      replace (size + i * size - List.length ys) with (i * size) by lia.
      simpl. apply IH; [intros; apply Hsize; now right | assumption].
Qed.

Lemma permute_shape (dims : list nat) (t t' : tensor) :
  permute dims t = Ret t' ->
  shape t' = map (fun d => nth d (shape t) 0) dims
  /\ List.length (data t') = numel (shape t').
Proof.
  unfold permute.
  destruct (_ && _); [|discriminate].
  intros [= <-]. cbn [shape data]. split; [reflexivity|].
  now rewrite length_map, multi_indices_length.
Qed.

Section ImageOutput.

Context `{Host}.

Lemma decoded_length w files ims w' :
  decoded w files ims w' -> List.length ims = List.length files.
Proof. induction 1; simpl; congruence. Qed.

(** A frame is a batch of one: [1 x H x W x C], with all its values. *)
Lemma image_tensor_shape (im : image) (t : tensor) :
  image_tensor im = Ret t ->
  exists h w c, shape t = [1; h; w; c] /\ List.length (data t) = numel [h; w; c].
Proof.
  unfold image_tensor, obind.
  destruct (if negb (im_mode im =? "RGB") then Image_convert im "RGB" else Ret im)
    as [rgb|e]; [|discriminate].
  intros Hperm. apply permute_shape in Hperm as [Hshape Hdata].
  exists (im_height rgb), (im_width rgb), (bands_of_mode (im_mode rgb)).
  rewrite Hdata, Hshape. split; [reflexivity|].
  cbn [map nth shape unsqueeze0 ToTensor numel fold_right]. lia.
Qed.

Lemma image_loop w files ims w' :
  decoded w files ims w' ->
  forall frames, Forall2 (fun im t => image_tensor im = Ret t) ims frames ->
  forall output_tensors out cache,
    for_each files output_tensors
      (fun output_tensors file_obj =>
         image_data <- read file_obj ;;
         image <- lift (Image_open image_data) ;;
         tensor_image <- lift (image_tensor image) ;;
         ret (output_tensors ++ [tensor_image]))
      (mkState out w cache)
    = (Ret (output_tensors ++ frames), mkState out w' cache).
Proof.
  induction 1 as [w | w fd bytes w1 im files ims w' Hread Hopen _ IH];
    intros frames Hframes output_tensors out cache.
  - inversion Hframes; subst. simpl. now rewrite app_nil_r.
  - inversion Hframes as [|? t ? frames' Ht Hrest]; subst.
    cbn [for_each]. unfold bind at 1.
    unfold bind, read, effect, lift, ret. cbn [world stdout cached_node_class_mappings].
    rewrite Hread, Hopen, Ht. rewrite (IH frames' Hrest). now rewrite <- app_assoc.
Qed.

Lemma torch_cat_frames (frames : list tensor) (tail : list nat) :
  frames <> [] ->
  (forall t, In t frames -> exists n, shape t = S n :: tail) ->
  torch_cat frames
  = Ret (mkTensor (fold_right (fun t acc => hd 0 (shape t) + acc) 0 frames :: tail)
           (flat_map data frames)).
Proof.
  intros Hne Hshape.
  assert (Hfilter : filter (fun t => negb (is_legacy_empty t)) frames = frames).
  { clear Hne. induction frames as [|t frames IH]; simpl; [reflexivity|].
    destruct (Hshape t (or_introl eq_refl)) as [n Ht].
    unfold is_legacy_empty at 1. rewrite Ht. simpl.
    rewrite IH; [reflexivity | intros; apply Hshape; now right]. }
  unfold torch_cat. destruct frames as [|t0 rest]; [contradiction|].
  rewrite Hfilter.
  destruct (Hshape t0 (or_introl eq_refl)) as [n0 H0]. rewrite H0.
  replace (forallb _ rest) with true; [reflexivity|].
  symmetry. apply forallb_forall. intros t Hin.
  destruct (Hshape t (or_intror Hin)) as [n Ht]. rewrite Ht.
  unfold list_nat_eqb. now destruct (list_eq_dec Nat.eq_dec tail tail).
Qed.

Lemma heads_of_frames (frames : list tensor) (tail : list nat) :
  (forall t, In t frames -> shape t = 1 :: tail) ->
  fold_right (fun t acc => hd 0 (shape t) + acc) 0 frames = List.length frames.
Proof.
  induction frames as [|t frames IH]; intros Hshape; simpl; [reflexivity|].
  rewrite (Hshape t (or_introl eq_refl)). simpl.
  rewrite IH; [reflexivity | intros; apply Hshape; now right].
Qed.

(** C4, as the code has it.  A response list of N images that are read
    and decoded, whose frames all have the same height, width and channels,
    gives one tensor of batch size N whose i-th entry is the frame of the
    i-th image, and prints nothing.  A response that is [None] or the empty
    list gives [None] after one diagnostic line, without raising. *)
Theorem handle_image_output_batches (st : state) :
  (forall files ims frames tail w',
      files <> [] ->
      decoded (world st) files ims w' ->
      Forall2 (fun im t => image_tensor im = Ret t) ims frames ->
      (forall t, In t frames -> List.tl (shape t) = tail) ->
      exists batch,
        handle_image_output (PyList files) st
        = (Ret (PyTensor batch),
           mkState (stdout st) w' (cached_node_class_mappings st))
        /\ shape batch = List.length files :: tail
        /\ forall i t, nth_error frames i = Some t -> narrow0 i batch = t)
  /\ handle_image_output PyNone st
     = (Ret PyNone, report st "No image output received")
  /\ handle_image_output (PyList []) st
     = (Ret PyNone, report st "No output received from the model").
Proof.
  split; [|split; reflexivity].
  intros files ims frames tail w' Hne Hdec Hframes Hsame.
  assert (Hshape : forall t, In t frames ->
                     shape t = 1 :: tail /\ List.length (data t) = numel tail).
  { intros t Hin.
    assert (Him : exists im, image_tensor im = Ret t).
    { clear - Hin Hframes.
      induction Hframes as [|im t' ims frames Ht _ IH]; [destruct Hin|].
      destruct Hin as [<-|Hin]; [now exists im | now apply IH]. }
    destruct Him as [im Him].
    destruct (image_tensor_shape im Him) as (h & w & c & Hs & Hl).
    specialize (Hsame t Hin). rewrite Hs in Hsame. simpl in Hsame. subst tail.
    now split. }
  assert (Hlen : List.length frames = List.length files).
  { rewrite <- (decoded_length Hdec). symmetry. exact (Forall2_length Hframes). }
  assert (Hrun :
            for_each files []
              (fun output_tensors file_obj =>
                 image_data <- read file_obj ;;
                 image <- lift (Image_open image_data) ;;
                 tensor_image <- lift (image_tensor image) ;;
                 ret (output_tensors ++ [tensor_image])) st
            = (Ret frames, mkState (stdout st) w' (cached_node_class_mappings st))).
  { rewrite <- (state_eta st) at 1. now rewrite (image_loop Hdec Hframes). }
  assert (Hsel : forall size (ts : list tensor) i t,
             (forall t', In t' ts -> List.length (data t') = size) ->
             nth_error ts i = Some t ->
             firstn size (skipn (i * size) (flat_map data ts)) = data t).
  { intros size ts i t Hsz Hi. rewrite flat_map_concat_map.
    apply concat_chunk.
    - intros ys Hys. apply in_map_iff in Hys as (t' & <- & Hin'). now apply Hsz.
    - now rewrite nth_error_map, Hi. }
  unfold handle_image_output.
  destruct files as [|file files']; [contradiction|].
  erewrite bind_Ret; [|exact Hrun].
  destruct (1 <? List.length frames)%nat eqn:Hmany.
  - assert (Hcat := @torch_cat_frames frames tail).
    rewrite Hcat.
    + rewrite (heads_of_frames frames (tail := tail)) by (intros; now apply Hshape).
      unfold bind, lift, ret. eexists. split; [reflexivity|].
      cbn [shape]. split; [now rewrite Hlen|].
      intros i t Hi. unfold narrow0. cbn [shape data].
      assert (Hin : In t frames) by (eapply nth_error_In; eassumption).
      destruct (Hshape t Hin) as [Hs Hl].
      rewrite (Hsel (numel tail) frames i t); [|intros; now apply Hshape|assumption].
      destruct t as [sh dt]. simpl in *. now subst.
    + intros ->. simpl in Hlen. discriminate.
    + intros t Hin. exists 0. now apply Hshape.
  - destruct frames as [|first others]; [simpl in Hlen; discriminate|].
    destruct others as [|second others]; [|simpl in Hmany; discriminate].
    unfold ret. exists first. split; [reflexivity|].
    destruct (Hshape first (or_introl eq_refl)) as [Hs Hl].
    split; [rewrite Hs, <- Hlen; reflexivity|].
    intros i t Hi. destruct i as [|i]; [|destruct i; discriminate].
    injection Hi as <-. unfold narrow0. rewrite Hs. simpl.
    rewrite firstn_all2 by lia.
    destruct first as [sh dt]. simpl in *. now subst.
Qed.

End ImageOutput.

(** Two pictures that each decode on their own do not make a batch when
    their sizes differ: the call raises. *)
Lemma handle_image_output_sizes_differ :
  let st := example_state example_image_world in
  (exists t, fst (handle_image_output (H := Example.host) (PyList [PyFile 0]) st)
             = Ret (PyTensor t))
  /\ (exists t, fst (handle_image_output (H := Example.host) (PyList [PyFile 2]) st)
                = Ret (PyTensor t))
  /\ handle_image_output (H := Example.host) (PyList [PyFile 0; PyFile 2]) st
     = (Raise (RuntimeError "Sizes of tensors must match except in dimension 0"), st).
Proof.
  intros st. split; [|split].
  - eexists. reflexivity.
  - eexists. reflexivity.
  - reflexivity.
Qed.

Lemma handle_image_output_batches_witness :
  exists batch,
    handle_image_output (H := Example.host) (PyList [PyFile 0; PyFile 1])
      (example_state example_image_world)
    = (Ret (PyTensor batch), example_state example_image_world)
    /\ shape batch = [2; 1; 1; 3].
Proof.
  destruct (@handle_image_output_batches Example.host
              (example_state example_image_world)) as [Hbatch _].
  assert (Hdecoded : decoded (H := Example.host) example_image_world
                       [PyFile 0; PyFile 1]
                       [mkImage "RGB" 1 1 [255; 0; 0]%N; mkImage "RGB" 1 1 [0; 0; 255]%N]
                       example_image_world).
  { eapply decoded_cons; [reflexivity | reflexivity |].
    eapply decoded_cons; [reflexivity | reflexivity |].
    apply decoded_nil. }
  destruct (Hbatch [PyFile 0; PyFile 1]
              [mkImage "RGB" 1 1 [255; 0; 0]%N; mkImage "RGB" 1 1 [0; 0; 255]%N]
              [mkTensor [1; 1; 1; 3] [f32_of_N 1; S754_zero false; S754_zero false];
               mkTensor [1; 1; 1; 3] [S754_zero false; S754_zero false; f32_of_N 1]]
              [1; 1; 3] example_image_world)
    as (batch & Hrun & Hshape & _).
  - discriminate.
  - exact Hdecoded.
  - constructor; [reflexivity|]. constructor; [reflexivity|]. constructor.
  - intros t [<-|[<-|[]]]; reflexivity.
  - exists batch. split; [exact Hrun | exact Hshape].
Defined.

(** ** Output shaping *)
Section OutputShaping.

Context `{Host}.
Variable schema : value.
Variable replicate_model : string.

Lemma bind_assoc {A B C} (m : M A) (k : A -> M B) (k' : B -> M C) (st : state) :
  bind (bind m k) k' st = bind m (fun a => bind (k a) k') st.
Proof.
  unfold bind. destruct (m st) as [[a|e] st1]; reflexivity.
Qed.

Lemma process_slot_recognised (output : value) (acc : list value)
    (slot : string * string) (st : state) :
  recognised (snd slot) = true ->
  process_slot output acc slot st
  = bind (decode_slot output slot) (fun r => ret (acc ++ [r])) st.
Proof.
  unfold recognised, process_slot, decode_slot.
  destruct (snd slot =? "IMAGE"); [intros _; now rewrite bind_assoc|].
  destruct (snd slot =? "AUDIO"); [intros _; now rewrite bind_assoc|].
  destruct (snd slot =? "SVG"); [intros _; now rewrite bind_assoc|].
  destruct (snd slot =? "STRING"); [intros _; now rewrite bind_assoc|].
  discriminate.
Qed.

(** A slot of any other type is passed over. *)
Lemma process_slot_other (output : value) (acc : list value)
    (slot : string * string) (st : state) :
  recognised (snd slot) = false ->
  process_slot output acc slot st = (Ret acc, st).
Proof.
  unfold recognised, process_slot.
  destruct (snd slot =? "IMAGE"); [discriminate|].
  destruct (snd slot =? "AUDIO"); [discriminate|].
  destruct (snd slot =? "SVG"); [discriminate|].
  destruct (snd slot =? "STRING"); [discriminate|].
  reflexivity.
Qed.

Lemma slots_loop (output : value) st slots results st' :
  decoded_slots output st slots results st' ->
  forallb (fun slot => recognised (snd slot)) slots = true ->
  forall acc,
    for_each slots acc (process_slot output) st = (Ret (acc ++ results), st').
Proof.
  induction 1 as [st | st slot v st1 slots results st' Hslot _ IH];
    intros Hrec acc; simpl in *.
  - now rewrite app_nil_r.
  - apply andb_prop in Hrec as [Hone Hrest].
    unfold bind at 1. rewrite (process_slot_recognised _ _ _ _ Hone).
    unfold bind at 1. rewrite Hslot. unfold ret.
    rewrite (IH Hrest). now rewrite <- app_assoc.
Qed.

Lemma decoded_slots_length (output : value) st slots results st' :
  decoded_slots output st slots results st' ->
  List.length results = List.length slots.
Proof. induction 1; simpl; congruence. Qed.

Lemma decoded_slots_nth (output : value) st slots results st' :
  decoded_slots output st slots results st' ->
  forall i slot, nth_error slots i = Some slot ->
    exists v before after,
      nth_error results i = Some v
      /\ decode_slot output slot before = (Ret v, after).
Proof.
  induction 1 as [st | st slot0 v st1 slots results st' Hslot _ IH];
    intros i slot Hi.
  - destruct i; discriminate.
  - destruct i as [|i]; simpl in *.
    + injection Hi as <-. now exists v, st, st1.
    + now apply IH.
Qed.

(** For a return spec of named slots whose types are all among IMAGE,
    AUDIO, SVG and STRING: when the model has been called and each slot
    decodes, [run_replicate_model] returns the tuple of the decoded slots in
    declared order; it has one element per declared slot, the i-th being the
    i-th slot of the response decoded by the adapter of that slot's type,
    and its length is that of [RETURN_TYPES]. *)
Theorem run_replicate_model_slots (slots : dict string) (kwargs : kwargs_t)
    (st st1 st2 : state) (output : value) (results : list value) :
  forallb (fun slot => recognised (snd slot)) slots = true ->
  call_model schema replicate_model kwargs st = (Ret output, st1) ->
  decoded_slots output st1 slots results st2 ->
  run_replicate_model schema replicate_model (ReturnDict slots) kwargs st
  = (Ret (PyTuple results), st2)
  /\ RETURN_TYPES (ReturnDict slots) = map snd slots
  /\ List.length results = List.length (RETURN_TYPES (ReturnDict slots))
  /\ (forall i slot, nth_error slots i = Some slot ->
        exists v before after,
          nth_error results i = Some v
          /\ decode_slot output slot before = (Ret v, after)).
Proof.
  intros Hrec Hcall Hslots. split; [|split; [|split]].
  - unfold run_replicate_model. erewrite bind_Ret; [|exact Hcall].
    unfold process_outputs. erewrite bind_Ret; [reflexivity|].
    now rewrite (slots_loop Hslots Hrec).
  - reflexivity.
  - simpl. rewrite length_map. exact (decoded_slots_length Hslots).
  - exact (decoded_slots_nth Hslots).
Qed.

End OutputShaping.

(** C3.  The tuple returned for a return spec of named slots is to have one
    element per declared slot, as [RETURN_TYPES] declares; but the loop over
    the slots has no branch for a slot whose type is none of IMAGE, AUDIO,
    SVG and STRING, where the single-type path falls back to text.  With the
    slots caption: STRING and seed: INT the entry point returns a tuple of
    one element while [RETURN_TYPES] declares two. *)
Theorem run_replicate_model_skips_slot :
  let slots := [("caption", "STRING"); ("seed", "INT")] in
  fst (run_replicate_model (H := Example.host) example_optional_schema
         "acme/painter:v2" (ReturnDict slots) example_prompt_kwargs
         (example_state example_caption_world))
  = Ret (PyTuple [PyStr "a cat"])
  /\ RETURN_TYPES (ReturnDict slots) = ["STRING"; "INT"]
  /\ fst (run_replicate_model (H := Example.host) example_optional_schema
            "acme/painter:v2" (ReturnOne "INT") example_prompt_kwargs
            (example_state
               (Example.mkWorld 1730000000000 [] [] (PyStr " 7 ") [] 0)))
     = Ret (PyTuple [PyStr "7"]).
Proof. split; [|split]; reflexivity. Qed.

Lemma run_replicate_model_slots_witness :
  let slots := [("caption", "STRING"); ("title", "STRING")] in
  exists st2,
    run_replicate_model (H := Example.host) example_optional_schema
      "acme/painter:v2" (ReturnDict slots) example_prompt_kwargs
      (example_state example_caption_world)
    = (Ret (PyTuple [PyStr "a cat"; PyStr ""]), st2).
Proof.
  intros slots.
  set (st1 := mkState (H := Example.host)
                ["Running acme/painter:v2 with <object>"; "Output: <object>"]
                example_caption_world None).
  destruct (@run_replicate_model_slots Example.host example_optional_schema
              "acme/painter:v2" slots example_prompt_kwargs
              (example_state example_caption_world) st1 st1
              (Example.model_output example_caption_world)
              [PyStr "a cat"; PyStr ""])
    as (Hrun & _).
  - reflexivity.
  - reflexivity.
  - eapply decoded_slots_cons; [reflexivity|].
    eapply decoded_slots_cons; [reflexivity|].
    apply decoded_slots_nil.
  - exists st1. exact Hrun.
Defined.

(** ** Audio encoding *)

Lemma startswith_append (p s : string) : startswith (p ++ s) p = true.
Proof.
  unfold startswith. induction p as [|c p IH]; simpl.
  - now destruct s.
  - destruct (ascii_dec c c); [exact IH | contradiction].
Qed.

Lemma dict_get_In {V} (d : dict V) (k : string) (v : V) :
  dict_get d k = Some v -> In (k, v) d.
Proof.
  induction d as [|[k0 v0] d IH]; simpl; [discriminate|].
  destruct (String.eqb_spec k0 k) as [->|Hne].
  - intros [= ->]. now left.
  - intros Hget. right. now apply IH.
Qed.

Lemma dict_set_keys_present {V} (d : dict V) (k : string) (v v0 : V) :
  dict_get d k = Some v0 -> dict_keys (dict_set d k v) = dict_keys d.
Proof.
  unfold dict_keys.
  induction d as [|[k1 v1] d IH]; simpl; [discriminate|].
  destruct (String.eqb_spec k1 k) as [->|Hne]; simpl; [reflexivity|].
  intros Hget. now rewrite IH.
Qed.

Section AudioEncoding.

Context `{Host}.
Variable schema : value.
Variable replicate_model : string.
Variable return_type : return_spec.

Lemma ensure_2d_mono (waveform : tensor) (n : nat) :
  shape waveform = [n] ->
  ensure_2d waveform = Ret (mkTensor [1; n] (data waveform)).
Proof.
  intros Hshape. unfold ensure_2d, dim, unsqueeze0. now rewrite Hshape.
Qed.

Lemma ensure_2d_squeezed (waveform : tensor) :
  2 < dim waveform -> dim (squeeze waveform) <= 2 ->
  ensure_2d waveform = Ret (squeeze waveform).
Proof.
  intros Hbig Hsmall. unfold ensure_2d.
  destruct (Nat.eqb_spec (dim waveform) 1) as [E|_]; [lia|].
  destruct (Nat.ltb_spec 2 (dim waveform)) as [_|]; [|lia].
  destruct (Nat.ltb_spec 2 (dim (squeeze waveform))) as [|_]; [lia | reflexivity].
Qed.

Lemma ensure_2d_rejects (waveform : tensor) :
  2 < dim waveform -> 2 < dim (squeeze waveform) ->
  ensure_2d waveform = Raise (ValueError "Waveform must be 1D or 2D").
Proof.
  intros Hbig Hstill. unfold ensure_2d.
  destruct (Nat.eqb_spec (dim waveform) 1) as [E|_]; [lia|].
  destruct (Nat.ltb_spec 2 (dim waveform)) as [_|]; [|lia].
  destruct (Nat.ltb_spec 2 (dim (squeeze waveform))) as [_|]; [reflexivity | lia].
Qed.

(** What is handed to the encoder has at most two dimensions. *)
Lemma ensure_2d_dim (waveform normal : tensor) :
  ensure_2d waveform = Ret normal -> dim normal <= 2.
Proof.
  unfold ensure_2d.
  destruct (Nat.eqb_spec (dim waveform) 1) as [E|_].
  - intros [= <-]. unfold dim in *. simpl. lia.
  - destruct (Nat.ltb_spec 2 (dim waveform)).
    + destruct (Nat.ltb_spec 2 (dim (squeeze waveform))); [discriminate|].
      now intros [= <-].
    + now intros [= <-].
Qed.

Lemma audio_to_base64_steps (audio : value) (waveform : tensor) (sample_rate : value) :
  waveform_and_rate audio = Ret (PyTensor waveform, sample_rate) ->
  audio_to_base64 audio
  = (normal <-? ensure_2d waveform ;;
     wav <-? wav_encode normal sample_rate ;;
     Ret (PyStr ("data:audio/wav;base64," ++ b64encode wav))).
Proof.
  intros Hparts. unfold audio_to_base64. now rewrite Hparts.
Qed.

(** An audio input is never pruned: it is a tensor or it is truthy. *)
Lemma audio_kept (audio : value) (parts : value * value) :
  waveform_and_rate audio = Ret parts ->
  is_tensor audio = true \/ truthy audio = Ret true.
Proof.
  destruct audio; simpl; unfold unpack2; simpl; try discriminate; auto.
  - destruct s; simpl; [discriminate | auto].
  - destruct l; [discriminate | auto].
  - destruct l; [discriminate | auto].
  - destruct d; [simpl; discriminate | auto].
Qed.

Lemma coerced_audio_kept (audio : value) (parts : value * value) :
  waveform_and_rate audio = Ret parts ->
  truthy (coerced audio) = Ret true.
Proof.
  destruct audio; simpl; unfold unpack2; simpl; try discriminate; auto.
  - destruct (String.eqb_spec s ""); [subst; simpl; discriminate|].
    intros _. pose proof (split_comma_not_nil s) as Hnil.
    now destruct (split_comma s).
  - destruct l; [discriminate | auto].
Qed.

(** Wrapped in a list by the array coercion, an audio input is rejected as
    well; a list is left as it is. *)
Lemma coerced_audio_raises (audio : value) (waveform : tensor) (sample_rate : value)
    (e : exn) :
  waveform_and_rate audio = Ret (PyTensor waveform, sample_rate) ->
  audio_to_base64 audio = Raise e ->
  exists e', audio_to_base64 (coerced audio) = Raise e'.
Proof.
  intros Hparts Hraise.
  destruct audio; try (simpl in Hparts; unfold unpack2 in Hparts; simpl in Hparts;
                       discriminate);
    try (eexists; unfold audio_to_base64; simpl; reflexivity).
  - (* text: its pieces are text, not a tensor *)
    exfalso. simpl in Hparts. unfold unpack2 in Hparts. simpl in Hparts.
    destruct s as [|c1 [|c2 [|c3 s]]]; simpl in Hparts; discriminate.
  - (* a list is left as it is *)
    exists e. exact Hraise.
Qed.

Lemma convert_item_raises (kwargs : kwargs_t) (key : string) (v : value) (e : exn) :
  input_type_of schema key = Ret (PyStr "AUDIO") ->
  audio_to_base64 v = Raise e ->
  v <> PyNone ->
  convert_item schema kwargs (key, v) = Raise e.
Proof.
  intros Hty Hraise Hnone. unfold convert_item. cbn [fst snd].
  rewrite Hty, Hraise. destruct v; try reflexivity. contradiction.
Qed.

Lemma convert_loop_raises (items : list (string * value)) (key : string)
    (v : value) (e : exn) :
  In (key, v) items ->
  input_type_of schema key = Ret (PyStr "AUDIO") ->
  audio_to_base64 v = Raise e ->
  v <> PyNone ->
  forall acc, exists e', ofor_each items acc (convert_item schema) = Raise e'.
Proof.
  intros Hin Hty Hraise Hnone.
  induction items as [|item items IH]; intros acc; [destruct Hin|].
  simpl. destruct Hin as [->|Hin].
  - rewrite (@convert_item_raises acc key v e Hty Hraise Hnone). simpl. now exists e.
  - destruct (convert_item schema acc item) as [acc'|e0]; simpl.
    + now apply IH.
    + now exists e0.
Qed.

Lemma handle_array_inputs_keys (kwargs : kwargs_t) :
  dict_keys (handle_array_inputs schema kwargs) = dict_keys kwargs.
Proof.
  unfold handle_array_inputs.
  generalize (inputs_that_need_arrays schema) as names. intros names.
  revert kwargs. induction names as [|n names IH]; intros kwargs; simpl;
    [reflexivity|].
  rewrite IH. clear IH.
  destruct (dict_get kwargs n) as [v|] eqn:Hget; [|reflexivity].
  destruct v; simpl; try (now apply dict_set_keys_present with (v0 := PyNone));
    try (eapply dict_set_keys_present; eassumption); try reflexivity.
  destruct (s =? ""); eapply dict_set_keys_present; eassumption.
Qed.

(** The rejection reaches the entry point. *)
Lemma run_replicate_model_rejects (kwargs : kwargs_t) (key : string) (audio : value)
    (waveform : tensor) (sample_rate : value) (e : exn) (st : state) :
  NoDup (dict_keys kwargs) ->
  dict_get kwargs key = Some audio ->
  input_type_of schema key = Ret (PyStr "AUDIO") ->
  waveform_and_rate audio = Ret (PyTensor waveform, sample_rate) ->
  audio_to_base64 audio = Raise e ->
  exists e' st',
    run_replicate_model schema replicate_model return_type kwargs st = (Raise e', st').
Proof.
  intros Hnd Hget Hty Hparts Hraise.
  set (kwargs1 := handle_array_inputs schema kwargs).
  assert (Hnd1 : NoDup (dict_keys kwargs1))
    by (unfold kwargs1; now rewrite handle_array_inputs_keys).
  (* the value under the key after the array coercion *)
  assert (Hv1 : exists v1,
             dict_get kwargs1 key = Some v1
             /\ (is_tensor v1 = true \/ truthy v1 = Ret true)
             /\ v1 <> PyNone
             /\ exists e1, audio_to_base64 v1 = Raise e1).
  { unfold kwargs1. rewrite handle_array_inputs_get, Hget.
    destruct (existsb _ _); simpl.
    - exists (coerced audio). split; [reflexivity|].
      split; [right; eapply coerced_audio_kept; eassumption|].
      split; [destruct audio; simpl; try discriminate;
              destruct (s =? ""); discriminate|].
      eapply coerced_audio_raises; eassumption.
    - exists audio. split; [reflexivity|].
      split; [eapply audio_kept; eassumption|].
      split; [intros ->; simpl in Hparts; discriminate|].
      now exists e. }
  destruct Hv1 as (v1 & Hget1 & Hkept & Hnone & e1 & Hraise1).
  (* it is not pruned *)
  destruct (@remove_falsey_optional_inputs_get _ schema kwargs1 Hnd1)
    as (kwargs2 & Hprune & Hget2).
  assert (Hin2 : In (key, v1) kwargs2).
  { apply dict_get_In. rewrite Hget2.
    unfold pruned_away, falsey. rewrite Hget1.
    destruct Hkept as [Ht | Ht]; rewrite Ht; simpl;
      now rewrite ?andb_false_r. }
  (* so the conversion meets it and raises *)
  destruct (@convert_loop_raises kwargs2 key v1 e1 Hin2 Hty Hraise1 Hnone kwargs2)
    as [e2 Hconvert].
  exists e2, st.
  unfold run_replicate_model, call_model. fold kwargs1.
  unfold bind, lift. rewrite Hprune.
  unfold convert_input_images_to_base64.
  change (ofor_each kwargs2 kwargs2 _) with (ofor_each kwargs2 kwargs2 (convert_item schema)).
  now rewrite Hconvert.
Qed.

(** C6.  For an audio input that gives a waveform tensor and a sample
    rate: a one-dimensional waveform of length N is encoded as 1 x N; a
    waveform of more than two dimensions is squeezed, and encoded if at most
    two dimensions remain; if more than two remain the conversion raises
    [ValueError], which neither the conversion of the arguments nor the
    entry point catches; in every other case the tensor handed to the
    encoder has at most two dimensions and, the encoder returning, the
    result is the text "data:audio/wav;base64," followed by the base64 of
    the encoding. *)
Theorem audio_to_base64_dimensions (audio : value) (waveform : tensor)
    (sample_rate : value) :
  waveform_and_rate audio = Ret (PyTensor waveform, sample_rate) ->
  (forall n, shape waveform = [n] ->
     ensure_2d waveform = Ret (mkTensor [1; n] (data waveform)))
  /\ (2 < dim waveform -> dim (squeeze waveform) <= 2 ->
      ensure_2d waveform = Ret (squeeze waveform))
  /\ (2 < dim waveform -> 2 < dim (squeeze waveform) ->
      audio_to_base64 audio = Raise (ValueError "Waveform must be 1D or 2D")
      /\ (forall kwargs key,
            In (key, audio) kwargs ->
            input_type_of schema key = Ret (PyStr "AUDIO") ->
            exists e, convert_input_images_to_base64 schema kwargs = Raise e)
      /\ (forall kwargs key st,
            NoDup (dict_keys kwargs) ->
            dict_get kwargs key = Some audio ->
            input_type_of schema key = Ret (PyStr "AUDIO") ->
            exists e st',
              run_replicate_model schema replicate_model return_type kwargs st
              = (Raise e, st')))
  /\ (forall normal wav,
        ensure_2d waveform = Ret normal ->
        wav_encode normal sample_rate = Ret wav ->
        dim normal <= 2
        /\ audio_to_base64 audio
           = Ret (PyStr ("data:audio/wav;base64," ++ b64encode wav))
        /\ startswith ("data:audio/wav;base64," ++ b64encode wav)
             "data:audio/wav;base64," = true).
Proof.
  intros Hparts. split; [|split; [|split]].
  - intros n Hshape. now apply ensure_2d_mono.
  - apply ensure_2d_squeezed.
  - intros Hbig Hstill.
    assert (Hraise : audio_to_base64 audio = Raise (ValueError "Waveform must be 1D or 2D")).
    { rewrite (@audio_to_base64_steps audio waveform sample_rate Hparts).
      now rewrite (@ensure_2d_rejects waveform Hbig Hstill). }
    split; [exact Hraise|]. split.
    + intros kwargs key Hin Hty.
      apply (@convert_loop_raises kwargs key audio _ Hin Hty Hraise).
      intros ->. simpl in Hparts. discriminate.
    + intros kwargs key st Hnd Hget Hty.
      eapply run_replicate_model_rejects; eassumption.
  - intros normal wav Hnormal Hwav.
    split; [now apply ensure_2d_dim with waveform|].
    split; [|apply startswith_append].
    rewrite (@audio_to_base64_steps audio waveform sample_rate Hparts), Hnormal.
    simpl. now rewrite Hwav.
Qed.

End AudioEncoding.

Lemma audio_to_base64_dimensions_witness :
  audio_to_base64 (H := Example.host) example_audio
  = Ret (PyStr "data:audio/wav;base64,UklGRg==").
Proof.
  destruct (@audio_to_base64_dimensions Example.host example_optional_schema
              "acme/painter:v2" (ReturnOne "STRING")
              example_audio example_mono (PyInt 44100) eq_refl)
    as (Hmono & _ & _ & Hencode).
  destruct (Hencode (mkTensor [1; 4] (data example_mono)) [x52; x49; x46; x46]%byte
              (Hmono 4 eq_refl) eq_refl) as (_ & Hresult & _).
  exact Hresult.
Defined.

(** A waveform of shape 2 x 2 x 3 keeps three dimensions when squeezed: the
    entry point raises. *)
Example run_replicate_model_rejects_audio :
  let clip := PyDict [("waveform", PyTensor (mkTensor [2; 2; 3] []));
                      ("sample_rate", PyInt 44100)] in
  let schema := PyDict [("required", PyDict [("clip", PyStr "AUDIO")])] in
  run_replicate_model (H := Example.host) schema "acme/echo:v1" (ReturnOne "AUDIO")
    [("clip", clip)] (example_state example_world)
  = (Raise (ValueError "Waveform must be 1D or 2D"), example_state example_world).
Proof. reflexivity. Qed.

(** * Further properties *)

(** ** Preparing the arguments *)
Section Preparing.

Context `{Host}.
Variable schema : value.

Lemma coerced_is_list (v : value) : is_list (coerced v) = true.
Proof.
  destruct v; simpl; try reflexivity. now destruct (s =? "").
Qed.

Lemma coerce_input_fixed (kwargs : kwargs_t) (name : string) :
  absent_or_list kwargs name -> coerce_input kwargs name = kwargs.
Proof.
  unfold absent_or_list, coerce_input.
  destruct (dict_get kwargs name) as [v|]; [|reflexivity].
  destruct v; simpl; intros Hl; try discriminate. reflexivity.
Qed.

Lemma coerce_loop_fixed (names : list string) (kwargs : kwargs_t) :
  (forall n, In n names -> absent_or_list kwargs n) ->
  fold_left coerce_input names kwargs = kwargs.
Proof.
  induction names as [|n names IH]; intros Hall; simpl; [reflexivity|].
  rewrite coerce_input_fixed by (apply Hall; now left).
  apply IH. intros m Hm. apply Hall. now right.
Qed.

(** The array coercion keeps the keys of the call and their order, leaves
    the inputs that are not array-typed as they are, and has nothing left to
    do when applied again. *)
Theorem handle_array_inputs_settles (kwargs : kwargs_t) :
  dict_keys (handle_array_inputs schema kwargs) = dict_keys kwargs
  /\ (forall key, ~ In key (inputs_that_need_arrays schema) ->
        dict_get (handle_array_inputs schema kwargs) key = dict_get kwargs key)
  /\ (forall key v, dict_get (handle_array_inputs schema kwargs) key = Some v ->
        In key (inputs_that_need_arrays schema) -> is_list v = true)
  /\ handle_array_inputs schema (handle_array_inputs schema kwargs)
     = handle_array_inputs schema kwargs.
Proof.
  assert (Hlists : forall key v,
             dict_get (handle_array_inputs schema kwargs) key = Some v ->
             In key (inputs_that_need_arrays schema) -> is_list v = true).
  { intros key v Hget Hin. rewrite handle_array_inputs_get in Hget.
    replace (existsb _ _) with true in Hget.
    - destruct (dict_get kwargs key) as [v0|]; [|discriminate].
      simpl in Hget. injection Hget as <-. apply coerced_is_list.
    - symmetry. apply existsb_exists. exists key.
      split; [assumption | apply String.eqb_refl]. }
  split; [apply handle_array_inputs_keys|].
  split; [apply handle_array_inputs_other|].
  split; [exact Hlists|].
  change (fold_left coerce_input (inputs_that_need_arrays schema)
            (handle_array_inputs schema kwargs)
          = handle_array_inputs schema kwargs).
  apply coerce_loop_fixed. intros n Hn. unfold absent_or_list.
  destruct (dict_get (handle_array_inputs schema kwargs) n) as [v|] eqn:Hget;
    [|exact I].
  now apply (Hlists n v).
Qed.

(** The coercion runs before the pruning: an optional array-typed input
    given as the empty text, or as the empty list, is dropped from the call,
    while one given as a value that is neither text nor a list is kept as
    the one-element list of that value, also when the value is zero or
    [None]. *)
Theorem optional_array_input_prepared (kwargs : kwargs_t) (key : string) (v : value) :
  NoDup (dict_keys kwargs) ->
  In key (inputs_that_need_arrays schema) ->
  declared_optional schema key = true ->
  dict_get kwargs key = Some v ->
  exists pruned,
    remove_falsey_optional_inputs schema (handle_array_inputs schema kwargs) = Ret pruned
    /\ (v = PyStr "" \/ v = PyList [] -> dict_get pruned key = None)
    /\ (is_str v = false -> is_list v = false ->
        dict_get pruned key = Some (PyList [v]))
    /\ (forall s, v = PyStr s -> s <> "" ->
        dict_get pruned key = Some (PyList (map number_or_text (split_comma s))))
    /\ (forall first rest, v = PyList (first :: rest) ->
        dict_get pruned key = Some v).
Proof.
  intros Hnd Hin Hopt Hget.
  assert (Hnd1 : NoDup (dict_keys (handle_array_inputs schema kwargs)))
    by now rewrite handle_array_inputs_keys.
  destruct (@remove_falsey_optional_inputs_get _ schema _ Hnd1)
    as (pruned & Hrun & Hpruned).
  exists pruned. split; [exact Hrun|].
  assert (Hafter : dict_get (handle_array_inputs schema kwargs) key = Some (coerced v)).
  { rewrite handle_array_inputs_get, Hget.
    replace (existsb _ _) with true; [reflexivity|].
    symmetry. apply existsb_exists. exists key.
    split; [assumption | apply String.eqb_refl]. }
  assert (Hkey : dict_get pruned key
                 = if falsey (coerced v) then None else Some (coerced v)).
  { rewrite Hpruned. unfold pruned_away. rewrite Hafter, Hopt.
    pose proof (coerced_is_list v) as Hl.
    destruct (coerced v); simpl in Hl; try discriminate. reflexivity. }
  rewrite Hkey. repeat split.
  - intros [-> | ->]; reflexivity.
  - intros Hs Hl. destruct v; simpl in *; try discriminate; reflexivity.
  - intros s -> Hs. simpl. destruct (String.eqb_spec s ""); [contradiction|].
    pose proof (split_comma_not_nil s) as Hnil.
    destruct (split_comma s); [contradiction | reflexivity].
  - intros first rest ->. reflexivity.
Qed.

Lemma filter_filter {A} (f g : A -> bool) (l : list A) :
  filter f (filter g l) = filter (fun x => g x && f x) l.
Proof.
  induction l as [|x l IH]; simpl; [reflexivity|].
  destruct (g x); simpl; [destruct (f x)|]; now rewrite IH.
Qed.

Lemma filter_all {A} (f : A -> bool) (l : list A) :
  (forall x, In x l -> f x = true) -> filter f l = l.
Proof.
  induction l as [|x l IH]; intros Hall; simpl; [reflexivity|].
  rewrite (Hall x (or_introl eq_refl)), IH; [reflexivity|].
  intros y Hy. apply Hall. now right.
Qed.

Lemma prune_loop_filter (keys : list string) :
  forall kwargs : kwargs_t,
    NoDup keys ->
    (forall k, In k keys -> dict_get kwargs k <> None) ->
    ofor_each keys kwargs (prune_key schema)
    = Ret (filter (fun kv => negb (existsb (fun k => k =? fst kv) keys
                                   && pruned_away schema kwargs (fst kv)))
             kwargs).
Proof.
  induction keys as [|k keys IH]; intros kwargs Hnd Hall.
  - simpl. now rewrite filter_all.
  - inversion Hnd as [|? ? Hnotin Hnd']; subst.
    destruct (dict_get kwargs k) as [v|] eqn:Hk;
      [|exfalso; apply (Hall k); [now left | assumption]].
    cbn [ofor_each]. rewrite (@prune_key_present _ schema kwargs k v Hk).
    cbn [obind].
    assert (Hrest : existsb (fun k0 => k0 =? k) keys = false).
    { apply not_true_is_false. intros E.
      apply existsb_exists in E as (k' & Hin & Hk').
      apply String.eqb_eq in Hk'. subst. contradiction. }
    destruct (pruned_away schema kwargs k) eqn:Haway.
    + rewrite IH; [|assumption|].
      * unfold dict_del. rewrite filter_filter. f_equal.
        apply filter_ext. intros [k0 v0]. cbn [fst existsb].
        destruct (String.eqb_spec k0 k) as [->|Hne].
        -- rewrite String.eqb_refl, Haway. reflexivity.
        -- destruct (String.eqb_spec k k0) as [E|_]; [congruence|].
           cbn [negb andb orb].
           fold (dict_del kwargs k).
           now rewrite pruned_away_del by congruence.
      * intros k' Hin. rewrite dict_get_del_other; [apply Hall; now right|].
        intros ->. contradiction.
    + rewrite IH; [|assumption|intros k' Hin; apply Hall; now right].
      f_equal. apply filter_ext. intros [k0 v0]. cbn [fst existsb].
      destruct (String.eqb_spec k k0) as [<-|Hne]; [|reflexivity].
      now rewrite Hrest, Haway.
Qed.

Lemma nodup_keys_filter {V} (f : string * V -> bool) (d : dict V) :
  NoDup (dict_keys d) -> NoDup (dict_keys (filter f d)).
Proof.
  unfold dict_keys. induction d as [|kv d IH]; simpl; intros Hnd; [constructor|].
  inversion Hnd as [|? ? Hnotin Hnd']; subst.
  destruct (f kv); [|now apply IH].
  simpl. constructor; [|now apply IH].
  intros Hin. apply Hnotin. apply in_map_iff in Hin as (x & Hx & Hin).
  apply filter_In in Hin as [Hin _]. rewrite <- Hx. now apply in_map.
Qed.

(** The pruning returns the entries of the call that are not optional
    falsey non-tensors, in their order; nothing is left to prune in what it
    returns. *)
Theorem remove_falsey_optional_inputs_filters (kwargs : kwargs_t) :
  NoDup (dict_keys kwargs) ->
  remove_falsey_optional_inputs schema kwargs
  = Ret (filter (kept schema kwargs) kwargs)
  /\ remove_falsey_optional_inputs schema (filter (kept schema kwargs) kwargs)
     = Ret (filter (kept schema kwargs) kwargs).
Proof.
  intros Hnd.
  assert (Hfilter : forall kw : kwargs_t,
             NoDup (dict_keys kw) ->
             remove_falsey_optional_inputs schema kw
             = Ret (filter (kept schema kw) kw)).
  { intros kw Hkw.
    change (ofor_each (dict_keys kw) kw (prune_key schema)
            = Ret (filter (kept schema kw) kw)).
    rewrite prune_loop_filter;
      [|assumption|intros k Hin; now apply dict_get_in_keys].
    f_equal. apply filter_ext_in. intros [k0 v0] Hin. unfold kept. cbn [fst].
    replace (existsb (fun k => k =? k0) (dict_keys kw)) with true; [reflexivity|].
    symmetry. apply existsb_exists. exists k0.
    split; [|apply String.eqb_refl].
    unfold dict_keys. now apply (in_map fst) in Hin. }
  split; [now apply Hfilter|].
  rewrite (Hfilter _ (@nodup_keys_filter _ (kept schema kwargs) kwargs Hnd)). f_equal.
  apply filter_all. intros [k0 v0] Hin.
  apply filter_In in Hin as [Hin Hkept].
  unfold kept in Hkept. unfold kept at 1. cbn [fst] in *.
  apply negb_true_iff in Hkept. apply negb_true_iff.
  destruct (@remove_falsey_optional_inputs_get _ schema kwargs Hnd)
    as (pruned & Hrun & Hget).
  rewrite (Hfilter kwargs Hnd) in Hrun. injection Hrun as <-.
  assert (Hsame : dict_get (filter (kept schema kwargs) kwargs) k0
                  = dict_get kwargs k0) by now rewrite Hget, Hkept.
  unfold pruned_away. rewrite Hsame. exact Hkept.
Qed.

End Preparing.

(** ** Encoding the media arguments *)

Lemma dict_set_middle {V} (done rest : dict V) (k : string) (v v' : V) :
  ~ In k (dict_keys done) ->
  dict_set (done ++ (k, v) :: rest) k v' = done ++ (k, v') :: rest.
Proof.
  unfold dict_keys.
  induction done as [|[k0 v0] done IH]; simpl; intros Hnotin.
  - now rewrite String.eqb_refl.
  - destruct (String.eqb_spec k0 k) as [->|Hne]; [exfalso; auto|].
    rewrite IH; [reflexivity | auto].
Qed.

Lemma numel_squeeze (sh : list nat) :
  numel (filter (fun n => negb (n =? 1)%nat) sh) = numel sh.
Proof.
  induction sh as [|n sh IH]; simpl; [reflexivity|].
  destruct (Nat.eqb_spec n 1) as [->|Hne]; simpl; rewrite IH; lia.
Qed.

Section MediaEncoding.

Context `{Host}.
Variable schema : value.

Lemma convert_item_middle (done rest : kwargs_t) (key : string) (v : value) :
  ~ In key (dict_keys done) ->
  convert_item schema (done ++ (key, v) :: rest) (key, v)
  = (r <-? convert_value schema key v ;; Ret (done ++ (key, r) :: rest)).
Proof.
  intros Hnotin. unfold convert_item, convert_value. cbn [fst snd].
  destruct v; try reflexivity;
    (destruct (input_type_of schema key) as [ty|e]; [|reflexivity];
     cbn [obind];
     destruct (value_eq_str ty "IMAGE");
     [ destruct (image_to_base64 _) as [b64|e]; [|reflexivity];
       cbn [obind]; now rewrite dict_set_middle
     | destruct (value_eq_str ty "AUDIO");
       [ destruct (audio_to_base64 _) as [b64|e]; [|reflexivity];
         cbn [obind]; now rewrite dict_set_middle
       | reflexivity ] ]).
Qed.

Lemma convert_loop (rest : kwargs_t) :
  forall done : kwargs_t,
    NoDup (dict_keys (done ++ rest)) ->
    ofor_each rest (done ++ rest) (convert_item schema)
    = (converted <-? omap_list (convert_entry schema) rest ;;
       Ret (done ++ converted)).
Proof.
  induction rest as [|[key v] rest IH]; intros done Hnd.
  - reflexivity.
  - assert (Hnotin : ~ In key (dict_keys done)).
    { unfold dict_keys in *. rewrite map_app in Hnd.
      apply NoDup_remove_2 in Hnd. intros Hin. apply Hnd.
      apply in_or_app. now left. }
    cbn [ofor_each omap_list]. rewrite (@convert_item_middle done rest key v Hnotin).
    unfold convert_entry at 1. cbn [fst snd].
    destruct (convert_value schema key v) as [r|e]; [|reflexivity].
    cbn [obind].
    replace (done ++ (key, r) :: rest) with ((done ++ [(key, r)]) ++ rest)
      by now rewrite <- app_assoc.
    rewrite IH.
    + destruct (omap_list (convert_entry schema) rest) as [converted|e];
        [|reflexivity].
      cbn [obind]. now rewrite <- app_assoc.
    + unfold dict_keys in *. rewrite <- app_assoc. cbn [app].
      rewrite map_app in *. exact Hnd.
Qed.

Lemma omap_list_entries (kwargs converted : kwargs_t) :
  omap_list (convert_entry schema) kwargs = Ret converted ->
  dict_keys converted = dict_keys kwargs
  /\ Forall2 (fun kv kv' => convert_value schema (fst kv) (snd kv) = Ret (snd kv'))
       kwargs converted.
Proof.
  revert converted.
  induction kwargs as [|[key v] kwargs IH]; intros converted; cbn [omap_list].
  - intros [= <-]. split; [reflexivity | constructor].
  - unfold convert_entry at 1. cbn [fst snd].
    destruct (convert_value schema key v) as [r|e] eqn:Hr; [|discriminate].
    cbn [obind].
    destruct (omap_list (convert_entry schema) kwargs) as [rest|e]; [|discriminate].
    cbn [obind]. intros [= <-].
    destruct (IH rest eq_refl) as [Hkeys Hall].
    split; [simpl; now rewrite Hkeys|].
    constructor; [exact Hr | exact Hall].
Qed.

(** On a call with distinct keys, the media encoding is the encoding of each
    argument in turn, put back under its key: it stops with the error of the
    first argument that fails, and otherwise returns the same keys in the
    same order, each holding what its argument encodes to. *)
Theorem convert_input_images_to_base64_itemwise (kwargs : kwargs_t) :
  NoDup (dict_keys kwargs) ->
  convert_input_images_to_base64 schema kwargs
  = omap_list (convert_entry schema) kwargs
  /\ (forall converted,
        convert_input_images_to_base64 schema kwargs = Ret converted ->
        dict_keys converted = dict_keys kwargs
        /\ Forall2 (fun kv kv' => convert_value schema (fst kv) (snd kv) = Ret (snd kv'))
             kwargs converted).
Proof.
  intros Hnd.
  assert (Heq : convert_input_images_to_base64 schema kwargs
                = omap_list (convert_entry schema) kwargs).
  { change (ofor_each kwargs ([] ++ kwargs) (convert_item schema)
            = omap_list (convert_entry schema) kwargs).
    rewrite convert_loop by exact Hnd.
    now destruct (omap_list (convert_entry schema) kwargs). }
  split; [exact Heq|].
  intros converted Hret. rewrite Heq in Hret. now apply omap_list_entries.
Qed.

(** Without the key "required" in the input descriptor, a call whose
    arguments are all [None] is returned as it is, and any other call raises
    the key-lookup error at its first argument that is not [None]. *)
Theorem convert_input_images_to_base64_without_required (kwargs : kwargs_t) :
  required (INPUT_TYPES schema) = None ->
  (Forall (fun kv => snd kv = PyNone) kwargs ->
   convert_input_images_to_base64 schema kwargs = Ret kwargs)
  /\ (Exists (fun kv => snd kv <> PyNone) kwargs ->
      convert_input_images_to_base64 schema kwargs = Raise (KeyError "required")).
Proof.
  intros Hreq.
  assert (Hitem : forall acc key v,
             v <> PyNone ->
             convert_item schema acc (key, v) = Raise (KeyError "required")).
  { intros acc key v Hv. unfold convert_item, input_type_of. cbn [fst snd].
    rewrite Hreq. destruct v; try reflexivity. contradiction. }
  assert (Hnone : forall (items acc : kwargs_t),
             Forall (fun kv => snd kv = PyNone) items ->
             ofor_each items acc (convert_item schema) = Ret acc).
  { induction items as [|[key v] rest IH]; intros acc Hall; [reflexivity|].
    inversion Hall as [|? ? Hv Hrest]; subst. cbn [snd] in Hv. subst v.
    cbn [ofor_each]. unfold convert_item at 1. cbn [fst snd obind].
    now apply IH. }
  assert (Hsome : forall (items acc : kwargs_t),
             Exists (fun kv => snd kv <> PyNone) items ->
             ofor_each items acc (convert_item schema) = Raise (KeyError "required")).
  { induction items as [|[key v] rest IH]; intros acc Hex; [inversion Hex|].
    cbn [ofor_each].
    destruct v;
      try (rewrite Hitem by discriminate; reflexivity).
    unfold convert_item at 1. cbn [fst snd obind].
    apply IH. inversion Hex as [? ? Hv|? ? Hrest]; subst;
      [cbn [snd] in Hv; contradiction | assumption]. }
  split; intros Hkw.
  - exact (Hnone kwargs kwargs Hkw).
  - exact (Hsome kwargs kwargs Hkw).
Qed.

(** [image_to_base64] takes a tensor of four dimensions or a decoded
    image.  A batch of one, [1 x H x W x C], reaches the image conversion as
    [C x H x W]; a larger batch reaches it with its four dimensions; the
    result is the text "data:image/png;base64," followed by the base64 of
    the PNG.  A tensor of another rank raises, and so does a value that is
    neither a tensor nor an image. *)
Theorem image_to_base64_cases :
  (forall t, dim t <> 4 -> exists e, image_to_base64 (PyTensor t) = Raise e)
  /\ (forall t n h w c,
        shape t = [n; h; w; c] ->
        exists nchw,
          permute [0; 3; 1; 2] t = Ret nchw
          /\ shape nchw = [n; c; h; w]
          /\ shape (squeeze0 nchw) = (if (n =? 1)%nat then [c; h; w] else [n; c; h; w])
          /\ image_to_base64 (PyTensor t)
             = (im <-? ToPILImage (squeeze0 nchw) ;;
                png <-? png_encode im ;;
                Ret (PyStr ("data:image/png;base64," ++ b64encode png))))
  /\ (forall im,
        image_to_base64 (PyImage im)
        = (png <-? png_encode im ;;
           Ret (PyStr ("data:image/png;base64," ++ b64encode png))))
  /\ (forall v, is_tensor v = false -> (forall im, v <> PyImage im) ->
        image_to_base64 v = Raise (AttributeError "save")).
Proof.
  split; [|split; [|split]].
  - intros t Hdim. unfold image_to_base64, permute, dim in *.
    destruct (Nat.eqb_spec (List.length [0; 3; 1; 2]) (List.length (shape t)))
      as [E|_]; [simpl in E; congruence|].
    simpl. eauto.
  - intros t n h w c Hshape.
    destruct (permute [0; 3; 1; 2] t) as [nchw|e] eqn:Hperm.
    + pose proof (permute_shape _ _ Hperm) as [Hs _].
      rewrite Hshape in Hs. cbn [map nth] in Hs.
      exists nchw. split; [reflexivity|]. split; [exact Hs|]. split.
      * unfold squeeze0. rewrite Hs.
        destruct n as [|[|n]]; cbn [shape Nat.eqb]; rewrite ?Hs; reflexivity.
      * unfold image_to_base64. rewrite Hperm. cbn [obind].
        destruct (ToPILImage (squeeze0 nchw)); reflexivity.
    + exfalso. unfold permute in Hperm. rewrite Hshape in Hperm.
      simpl in Hperm. discriminate.
  - intros im. reflexivity.
  - intros v Ht Him. destruct v; simpl in *; try discriminate; try reflexivity.
    exfalso. now apply (Him im).
Qed.

(** Making the waveform two-dimensional never touches the samples and never
    changes how many there are; a waveform of shape [1 x 1 x N] is squeezed
    to the one dimension [N] and handed on as such. *)
Theorem ensure_2d_keeps_samples (waveform normal : tensor) :
  ensure_2d waveform = Ret normal ->
  data normal = data waveform
  /\ numel (shape normal) = numel (shape waveform)
  /\ (forall n, n <> 1 -> shape waveform = [1; 1; n] -> shape normal = [n]).
Proof.
  unfold ensure_2d.
  destruct (Nat.eqb_spec (dim waveform) 1) as [E|Hne].
  - intros [= <-]. split; [reflexivity|]. split; [simpl; lia|].
    intros n _ Hs. unfold dim in E. rewrite Hs in E. discriminate.
  - destruct (Nat.ltb_spec 2 (dim waveform)) as [Hbig|Hsmall].
    + destruct (Nat.ltb_spec 2 (dim (squeeze waveform))); [discriminate|].
      intros [= <-]. split; [reflexivity|].
      split; [apply numel_squeeze|].
      intros n Hn Hs. unfold squeeze. rewrite Hs. cbn [shape filter Nat.eqb negb].
      destruct (Nat.eqb_spec n 1); [contradiction | reflexivity].
    + intros [= <-]. split; [reflexivity|]. split; [reflexivity|].
      intros n _ Hs. unfold dim in Hsmall. rewrite Hs in Hsmall. simpl in Hsmall. lia.
Qed.

(** An audio input given as a mapping that lacks "waveform" or
    "sample_rate" is never encoded: it is unpacked as the pair of its keys,
    which are text, or has the wrong number of keys. *)
Theorem audio_to_base64_incomplete_mapping (d : dict value) :
  dict_mem d "waveform" && dict_mem d "sample_rate" = false ->
  exists e, audio_to_base64 (PyDict d) = Raise e.
Proof.
  intros Hmiss. unfold audio_to_base64, waveform_and_rate. rewrite Hmiss.
  unfold unpack2, py_list.
  destruct d as [|[k1 v1] [|[k2 v2] [|kv3 d]]]; simpl; eauto.
Qed.

End MediaEncoding.

(** ** Calling the model and shaping its response *)

Lemma join_values_chars (s : string) : join_values (chars s) = Ret s.
Proof.
  induction s as [|c s IH]; simpl; [reflexivity|]. now rewrite IH.
Qed.

Lemma append_empty (s : string) : (s ++ "")%string = s.
Proof. induction s as [|c s IH]; simpl; [reflexivity | now rewrite IH]. Qed.

Lemma join_values_texts (texts : list string) :
  join_values (map PyStr texts) = Ret (String.concat "" texts).
Proof.
  induction texts as [|t texts IH]; [reflexivity|].
  cbn [map join_values]. rewrite IH.
  destruct texts; simpl; [now rewrite append_empty | reflexivity].
Qed.

Lemma join_values_not_text (parts : list value) :
  Exists (fun p => is_str p = false) parts ->
  exists e, join_values parts = Raise e.
Proof.
  induction 1 as [p parts Hp | p parts _ IH].
  - destruct p; simpl in *; try discriminate; eauto.
  - destruct IH as [e He]. destruct p; simpl; eauto. rewrite He. eauto.
Qed.

Section CallAndShape.

Context `{Host}.
Variable schema : value.
Variable replicate_model : string.

(** The remote call is made once, on the prepared arguments without the
    key "force_rerun" and with every other one; the line of [log_input] is
    printed before it.  An error of the preparation is raised before
    anything is printed or called; an error of the remote call is raised
    after the one line, and nothing calls again. *)
Theorem call_model_calls_once (kwargs : kwargs_t) (st : state) :
  (forall e, prepared_arguments schema kwargs = Raise e ->
     call_model schema replicate_model kwargs st = (Raise e, st))
  /\ (forall prepared,
        prepared_arguments schema kwargs = Ret prepared ->
        dict_get (sent_arguments prepared) "force_rerun" = None
        /\ (forall key, key <> "force_rerun" ->
              dict_get (sent_arguments prepared) key = dict_get prepared key)
        /\ call_model schema replicate_model kwargs st
           = match replicate_run replicate_model (sent_arguments prepared) (world st) with
             | (Ret output, w) =>
                 (Ret output,
                  mkState (stdout st ++ [log_line replicate_model prepared;
                                         "Output: " ++ py_str output]%string)
                    w (cached_node_class_mappings st))
             | (Raise e, w) =>
                 (Raise e,
                  mkState (stdout st ++ [log_line replicate_model prepared])
                    w (cached_node_class_mappings st))
             end).
Proof.
  unfold prepared_arguments. split.
  - intros e Hprep. unfold call_model, bind, lift.
    destruct (remove_falsey_optional_inputs schema (handle_array_inputs schema kwargs))
      as [pruned|e0]; cbn [obind] in Hprep.
    + now rewrite Hprep.
    + congruence.
  - intros prepared Hprep.
    split; [apply (dict_get_del_same prepared "force_rerun")|].
    split; [intros key Hne; apply (dict_get_del_other prepared); congruence|].
    unfold call_model, bind, lift.
    destruct (remove_falsey_optional_inputs schema (handle_array_inputs schema kwargs))
      as [pruned|e0]; cbn [obind] in Hprep; [|discriminate].
    rewrite Hprep. unfold log_input, print, effect, ret, sent_arguments.
    cbn [world stdout cached_node_class_mappings].
    destruct (replicate_run replicate_model _ (world st)) as [[output|e] w];
      [|reflexivity].
    cbn [world stdout cached_node_class_mappings]. now rewrite <- app_assoc.
Qed.

(** A response that is text is returned stripped; a list of text chunks
    is joined and stripped; [None] and a list holding anything but text
    raise. *)
Theorem string_output_joins (st : state) :
  (forall s, string_output (PyStr s) st = (Ret (PyStr (strip s)), st))
  /\ (forall texts,
        string_output (PyList (map PyStr texts)) st
        = (Ret (PyStr (strip (String.concat "" texts))), st))
  /\ (exists e, string_output PyNone st = (Raise e, st))
  /\ (forall parts, Exists (fun p => is_str p = false) parts ->
        exists e, string_output (PyList parts) st = (Raise e, st)).
Proof.
  unfold string_output, bind, lift, ret. cbn [py_list].
  split; [|split; [|split]].
  - intros s. now rewrite join_values_chars.
  - intros texts. now rewrite join_values_texts.
  - eauto.
  - intros parts Hparts. destruct (join_values_not_text Hparts) as [e He].
    rewrite He. eauto.
Qed.

(** For a single return type the entry point returns, when it returns, a
    tuple of exactly one element, as [RETURN_TYPES] declares: the response
    through the adapter of the type, which is the text adapter for every
    type token other than IMAGE, AUDIO and SVG. *)
Theorem run_replicate_model_single (t : string) (kwargs : kwargs_t)
    (st st1 : state) (output : value) :
  call_model schema replicate_model kwargs st = (Ret output, st1) ->
  RETURN_TYPES (ReturnOne t) = [t]
  /\ run_replicate_model schema replicate_model (ReturnOne t) kwargs st
     = match single_adapter t output st1 with
       | (Ret r, st2) => (Ret (PyTuple [r]), st2)
       | (Raise e, st2) => (Raise e, st2)
       end
  /\ (recognised t = false -> single_adapter t output = string_output output)
  /\ (forall v st2,
        run_replicate_model schema replicate_model (ReturnOne t) kwargs st = (Ret v, st2) ->
        exists r, v = PyTuple [r]).
Proof.
  intros Hcall.
  assert (Hrun : run_replicate_model schema replicate_model (ReturnOne t) kwargs st
                 = match single_adapter t output st1 with
                   | (Ret r, st2) => (Ret (PyTuple [r]), st2)
                   | (Raise e, st2) => (Raise e, st2)
                   end).
  { unfold run_replicate_model. erewrite bind_Ret; [|exact Hcall].
    unfold process_outputs, single_adapter, bind, ret.
    destruct (t =? "IMAGE");
      [destruct (handle_image_output output st1) as [[r|e] st2]; reflexivity|].
    destruct (t =? "AUDIO");
      [destruct (handle_audio_output output st1) as [[r|e] st2]; reflexivity|].
    destruct (t =? "SVG");
      [destruct (handle_svg_output output st1) as [[r|e] st2]; reflexivity|].
    destruct (string_output output st1) as [[r|e] st2]; reflexivity. }
  split; [reflexivity|]. split; [exact Hrun|]. split.
  - unfold recognised, single_adapter.
    destruct (t =? "IMAGE"); [discriminate|].
    destruct (t =? "AUDIO"); [discriminate|].
    destruct (t =? "SVG"); [discriminate | reflexivity].
  - intros v st2. rewrite Hrun.
    destruct (single_adapter t output st1) as [[r|e] st3]; [|discriminate].
    intros [= <- _]. now exists r.
Qed.

Lemma slots_loop_any (output : value) (slots : dict string) :
  forall st results st' acc,
    decoded_slots output st (filter (fun slot => recognised (snd slot)) slots)
      results st' ->
    for_each slots acc (process_slot output) st = (Ret (acc ++ results), st').
Proof.
  induction slots as [|slot slots IH]; intros st results st' acc Hdec.
  - inversion Hdec; subst. simpl. now rewrite app_nil_r.
  - cbn [filter for_each] in *. unfold bind at 1.
    destruct (recognised (snd slot)) eqn:Hrec.
    + inversion Hdec as [|? ? v st1 ? rest ? Hslot Hrest]; subst.
      rewrite (process_slot_recognised _ _ _ _ Hrec).
      unfold bind at 1. rewrite Hslot. unfold ret.
      rewrite (IH _ _ _ _ Hrest). now rewrite <- app_assoc.
    + rewrite (process_slot_other _ _ _ _ Hrec). now apply IH.
Qed.

(** For any return spec of named slots, the tuple the entry point returns
    holds the decoded slots whose type is IMAGE, AUDIO, SVG or STRING, in
    declared order, and nothing for the others: its length is the number of
    those slots, at most that of [RETURN_TYPES]. *)
Theorem run_replicate_model_named_slots (slots : dict string) (kwargs : kwargs_t)
    (st st1 st2 : state) (output : value) (results : list value) :
  call_model schema replicate_model kwargs st = (Ret output, st1) ->
  decoded_slots output st1 (filter (fun slot => recognised (snd slot)) slots)
    results st2 ->
  run_replicate_model schema replicate_model (ReturnDict slots) kwargs st
  = (Ret (PyTuple results), st2)
  /\ List.length results
     = List.length (filter (fun slot => recognised (snd slot)) slots)
  /\ List.length results <= List.length (RETURN_TYPES (ReturnDict slots)).
Proof.
  intros Hcall Hdec.
  pose proof (decoded_slots_length Hdec) as Hlen.
  split; [|split; [exact Hlen|]].
  - unfold run_replicate_model. erewrite bind_Ret; [|exact Hcall].
    unfold process_outputs. erewrite bind_Ret; [reflexivity|].
    now rewrite (slots_loop_any _ _ Hdec).
  - rewrite Hlen. simpl. rewrite length_map. apply filter_length_le.
Qed.

(** A slot that the response does not hold: a STRING slot gives the empty
    text, an IMAGE, AUDIO or SVG slot gives [None] after the diagnostic of
    its adapter; a response that is not a mapping raises for every slot of
    one of these types. *)
Theorem process_slot_missing (d : dict value) (name : string)
    (acc : list value) (st : state) :
  dict_get d name = None ->
  process_slot (PyDict d) acc (name, "STRING") st = (Ret (acc ++ [PyStr ""]), st)
  /\ process_slot (PyDict d) acc (name, "IMAGE") st
     = (Ret (acc ++ [PyNone]), report st "No image output received")
  /\ process_slot (PyDict d) acc (name, "AUDIO") st
     = (Ret (acc ++ [PyNone]), report st "No audio output received from the model")
  /\ process_slot (PyDict d) acc (name, "SVG") st
     = (Ret (acc ++ [PyNone]), report st "No SVG output received from the model")
  /\ (forall output ty, recognised ty = true ->
        (forall d', output <> PyDict d') ->
        process_slot output acc (name, ty) st = (Raise (AttributeError "get"), st)).
Proof.
  intros Hmissing.
  repeat split;
    try (unfold process_slot, bind, lift; cbn [fst snd String.eqb Ascii.eqb Bool.eqb py_get];
         rewrite Hmissing; reflexivity).
  intros output ty Hrec Hnot. unfold recognised in Hrec. unfold process_slot.
  cbn [fst snd].
  assert (Hget : forall default, py_get output name default = Raise (AttributeError "get")).
  { intros default. destruct output; try reflexivity. exfalso. now apply (Hnot d0). }
  unfold bind, lift. rewrite !Hget.
  destruct (ty =? "IMAGE"); [reflexivity|].
  destruct (ty =? "AUDIO"); [reflexivity|].
  destruct (ty =? "SVG"); [reflexivity|].
  destruct (ty =? "STRING"); [reflexivity | discriminate].
Qed.

End CallAndShape.

(** ** The adapters on responses that fail *)
Section AdapterFailures.

Context `{Host}.

Lemma for_each_app {A S} (xs ys : list A) (body : S -> A -> M S) :
  forall (acc : S) (st : state),
    for_each (xs ++ ys) acc body st
    = bind (for_each xs acc body) (fun acc' => for_each ys acc' body) st.
Proof.
  induction xs as [|x xs IH]; intros acc st; [reflexivity|].
  cbn [app for_each]. unfold bind.
  destruct (body acc x st) as [[acc'|e] st1]; [|reflexivity].
  rewrite IH. reflexivity.
Qed.

Lemma image_step_fails w item e w' :
  undecodable w item e w' ->
  forall (acc : list tensor) out cache,
    (image_data <- read item ;;
     image <- lift (Image_open image_data) ;;
     tensor_image <- lift (image_tensor image) ;;
     ret (acc ++ [tensor_image])) (mkState out w cache)
    = (Raise e, mkState out w' cache).
Proof.
  intros Hbad acc out cache.
  destruct Hbad as [w item Hno | w fd e w' Hread | w fd bytes e w' Hread Hopen
                    | w fd bytes im e w' Hread Hopen Hconv].
  - destruct item; simpl in Hno; try discriminate; reflexivity.
  - unfold bind, read, effect. cbn [world stdout cached_node_class_mappings].
    now rewrite Hread.
  - unfold bind, read, effect, lift. cbn [world stdout cached_node_class_mappings].
    now rewrite Hread, Hopen.
  - unfold bind, read, effect, lift. cbn [world stdout cached_node_class_mappings].
    now rewrite Hread, Hopen, Hconv.
Qed.

(** Reading and decoding an image is not guarded: when the images before it
    decode and one response object does not, [handle_image_output] raises
    the error of that object; it skips nothing, prints nothing, reads none
    of the objects after it and returns no partial batch. *)
Theorem handle_image_output_fails_whole (st : state) (before after : list value)
    (item : value) (ims : list image) (frames : list tensor) (e : exn) (w1 w2 : World) :
  decoded (world st) before ims w1 ->
  Forall2 (fun im t => image_tensor im = Ret t) ims frames ->
  undecodable w1 item e w2 ->
  handle_image_output (PyList (before ++ item :: after)) st
  = (Raise e, mkState (stdout st) w2 (cached_node_class_mappings st)).
Proof.
  intros Hdec Hframes Hbad. unfold handle_image_output.
  destruct (before ++ item :: after) as [|x l] eqn:Happ;
    [destruct before; discriminate|].
  rewrite <- Happ. clear Happ x l.
  erewrite bind_Raise; [reflexivity|].
  rewrite for_each_app. rewrite <- (state_eta st) at 1.
  erewrite bind_Ret; [|apply (image_loop Hdec Hframes)].
  cbn [for_each]. erewrite bind_Raise; [reflexivity|].
  apply (image_step_fails Hbad).
Qed.

Lemma audio_loop w items clips diags w' :
  heard w items clips diags w' ->
  forall (acc : list value) out cache,
    for_each items acc
      (fun audio_data audio_file =>
         nonempty <- lift (truthy audio_file) ;;
         if nonempty then
           audio_content <- read audio_file ;;
           loaded <- lift (torchaudio_load audio_content) ;;
           ret (audio_data ++
                  [PyDict [("waveform", PyTensor (unsqueeze0 (fst loaded)));
                           ("sample_rate", PyInt (snd loaded))]])
         else
           print "Empty audio file received" ;; ret audio_data)
      (mkState out w cache)
    = (Ret (acc ++ map audio_entry clips), mkState (out ++ diags) w' cache).
Proof.
  induction 1 as [w | w fd bytes w1 clip items clips diags w' Hread Hload _ IH
                  | w item items clips diags w' Hfalse _ IH];
    intros acc out cache.
  - simpl. now rewrite !app_nil_r.
  - cbn [for_each]. unfold bind at 1.
    unfold bind, lift, read, effect, ret. cbn [truthy world stdout cached_node_class_mappings].
    rewrite Hread, Hload. rewrite IH. cbn [map]. unfold audio_entry at 2.
    now rewrite <- app_assoc.
  - cbn [for_each]. unfold bind at 1.
    unfold bind, lift, print, ret. rewrite Hfalse.
    cbn [world stdout cached_node_class_mappings].
    rewrite IH. now rewrite <- app_assoc.
Qed.

(** The audio files of a response that all load give their entries in
    order, each waveform with a leading batch dimension of one: a single
    entry is returned as it is, several as a list, none as [None] after a
    diagnostic; an item that is falsey is passed over with a diagnostic. *)
Theorem handle_audio_output_entries (st : state) (items : list value)
    (clips : list (tensor * Z)) (diags : list string) (w' : World) :
  heard (world st) items clips diags w' ->
  handle_audio_output (PyList items) st
  = (Ret (audio_result (map audio_entry clips)),
     mkState (stdout st ++ diags ++ nothing_heard (map audio_entry clips)) w'
       (cached_node_class_mappings st))
  /\ (forall clip, In clip clips ->
        exists waveform,
          dict_get (match audio_entry clip with PyDict d => d | _ => [] end) "waveform"
          = Some (PyTensor waveform)
          /\ shape waveform = 1 :: shape (fst clip)
          /\ data waveform = data (fst clip)).
Proof.
  intros Hheard. split.
  - unfold handle_audio_output.
    erewrite bind_Ret;
      [|rewrite <- (state_eta st) at 1; apply (audio_loop Hheard)].
    cbn [app]. destruct (map audio_entry clips) as [|one [|two more]];
      unfold bind, print, ret; simpl.
    + now rewrite app_assoc.
    + now rewrite app_nil_r.
    + now rewrite app_nil_r.
  - intros clip _. exists (unsqueeze0 (fst clip)). repeat split.
Qed.

Lemma audio_step_fails w item e w' :
  unheard w item e w' ->
  forall (acc : list value) out cache,
    (nonempty <- lift (truthy item) ;;
     if nonempty then
       audio_content <- read item ;;
       loaded <- lift (torchaudio_load audio_content) ;;
       ret (acc ++
              [PyDict [("waveform", PyTensor (unsqueeze0 (fst loaded)));
                       ("sample_rate", PyInt (snd loaded))]])
     else
       print "Empty audio file received" ;; ret acc) (mkState out w cache)
    = (Raise e, mkState out w' cache).
Proof.
  intros Hbad acc out cache.
  destruct Hbad as [w item e Htruth | w item Htruth Hno | w fd e w' Hread
                    | w fd bytes e w' Hread Hload].
  - unfold bind, lift. now rewrite Htruth.
  - unfold bind, lift. rewrite Htruth.
    destruct item; simpl in Hno; try discriminate; reflexivity.
  - unfold bind, lift, read, effect. cbn [truthy world stdout cached_node_class_mappings].
    now rewrite Hread.
  - unfold bind, lift, read, effect. cbn [truthy world stdout cached_node_class_mappings].
    now rewrite Hread, Hload.
Qed.

(** Loading an audio file is not guarded either: when the files before it
    load and one does not, [handle_audio_output] raises its error and
    returns none of the clips already loaded. *)
Theorem handle_audio_output_fails_whole (st : state) (before after : list value)
    (item : value) (clips : list (tensor * Z)) (diags : list string)
    (e : exn) (w1 w2 : World) :
  heard (world st) before clips diags w1 ->
  unheard w1 item e w2 ->
  handle_audio_output (PyList (before ++ item :: after)) st
  = (Raise e, mkState (stdout st ++ diags) w2 (cached_node_class_mappings st)).
Proof.
  intros Hheard Hbad. unfold handle_audio_output.
  erewrite bind_Raise; [reflexivity|].
  rewrite for_each_app. rewrite <- (state_eta st) at 1.
  erewrite bind_Ret; [|apply (audio_loop Hheard)].
  cbn [for_each]. erewrite bind_Raise; [reflexivity|].
  apply (audio_step_fails Hbad).
Qed.

Lemma svg_item_returns (svg_data : list (list byte)) (item : value) (st : state) :
  exists more st',
    svg_item svg_data item st = (Ret (svg_data ++ more), st')
    /\ cached_node_class_mappings st' = cached_node_class_mappings st.
Proof.
  unfold svg_item.
  assert (Hskip : exists more st',
             (print ("Unsupported SVG output format: " ++ py_type_str item) ;;
              ret svg_data) st = (Ret (svg_data ++ more), st')
             /\ cached_node_class_mappings st' = cached_node_class_mappings st).
  { exists [], (report st (unsupported_line item)).
    rewrite app_nil_r. split; reflexivity. }
  destruct item; try exact Hskip.
  - (* text *)
    destruct (is_url (PyStr s)); [|exact Hskip].
    unfold try_except, bind, effect, lift, print, ret.
    destruct (requests_get s 10 (world st)) as [[resp|e] w].
    + cbn [world stdout cached_node_class_mappings].
      destruct (raise_for_status resp) as [[]|e].
      * exists [content resp]. eexists. split; reflexivity.
      * exists []. eexists. rewrite app_nil_r. split; reflexivity.
    + exists []. eexists. rewrite app_nil_r. split; reflexivity.
  - (* a byte-readable object *)
    cbn [has_read]. unfold try_except, bind, read, effect, print, ret.
    destruct (file_read fd (world st)) as [[bytes|e] w].
    + exists [bytes]. eexists. split; reflexivity.
    + exists []. eexists. rewrite app_nil_r. split; reflexivity.
Qed.

Lemma svg_loop_returns (items : list value) :
  forall (svg_data : list (list byte)) (st : state),
  exists more st',
    for_each items svg_data svg_item st = (Ret (svg_data ++ more), st')
    /\ cached_node_class_mappings st' = cached_node_class_mappings st.
Proof.
  induction items as [|item items IH]; intros svg_data st.
  - exists [], st. simpl. rewrite app_nil_r. split; reflexivity.
  - destruct (svg_item_returns svg_data item st) as (m1 & st1 & Hitem & Hc1).
    destruct (IH (svg_data ++ m1) st1) as (m2 & st2 & Hrest & Hc2).
    exists (m1 ++ m2), st2. cbn [for_each]. unfold bind. rewrite Hitem, Hrest.
    rewrite app_assoc. split; [reflexivity | congruence].
Qed.

Lemma svg_loop_unsupported (items : list value) :
  Forall (fun item => svg_source item = false) items ->
  forall (svg_data : list (list byte)) out w cache,
    for_each items svg_data svg_item (mkState out w cache)
    = (Ret svg_data, mkState (out ++ map unsupported_line items) w cache).
Proof.
  induction 1 as [|item items Hitem _ IH]; intros svg_data out w cache.
  - simpl. now rewrite app_nil_r.
  - cbn [for_each map]. unfold bind at 1.
    assert (Hstep : svg_item svg_data item (mkState out w cache)
                    = (Ret svg_data, mkState (out ++ [unsupported_line item]) w cache)).
    { unfold svg_source in Hitem. apply orb_false_iff in Hitem as [Hu Hr].
      unfold svg_item. rewrite Hr.
      destruct item; try reflexivity.
      now rewrite Hu. }
    rewrite Hstep, IH. now rewrite <- app_assoc.
Qed.

(** Whatever the response, [handle_svg_output] returns: every fetch and
    every read is guarded, so the result is [None] or a container with at
    least one entry.  Items that are neither a web address nor
    byte-readable give one diagnostic each and no entry, without any call
    to the network. *)
Theorem handle_svg_output_never_raises (output : value) (st : state) :
  (exists v st',
      handle_svg_output output st = (Ret v, st')
      /\ (v = PyNone \/ exists first others, v = PySVG (first :: others)))
  /\ (forall items,
        output = PyList items ->
        Forall (fun item => svg_source item = false) items ->
        handle_svg_output output st
        = (Ret PyNone,
           mkState (stdout st ++ map unsupported_line items
                      ++ ["No valid SVG data processed"])
             (world st) (cached_node_class_mappings st))).
Proof.
  split.
  - unfold handle_svg_output.
    assert (Hloop : forall items,
               exists v st',
                 (svg_data <- for_each items [] svg_item ;;
                  match svg_data with
                  | _ :: _ => ret (PySVG svg_data)
                  | [] => print "No valid SVG data processed" ;; ret PyNone
                  end) st = (Ret v, st')
                 /\ (v = PyNone \/ exists first others, v = PySVG (first :: others))).
    { intros items.
      destruct (svg_loop_returns items [] st) as (more & st1 & Hrun & _).
      unfold bind at 1. rewrite Hrun. cbn [app].
      destruct more as [|first others].
      - eexists _, _. split; [reflexivity | now left].
      - eexists _, _. split; [reflexivity | right; eauto]. }
    destruct output; try apply (Hloop [_]).
    + eexists _, _. split; [reflexivity | now left].
    + apply Hloop.
  - intros items -> Hitems. unfold handle_svg_output.
    erewrite bind_Ret;
      [|rewrite <- (state_eta st) at 1; apply (svg_loop_unsupported Hitems)].
    unfold bind, print, ret. simpl. now rewrite <- app_assoc.
Qed.

End AdapterFailures.

(** ** The registry when schema files fail or share a name *)
Section RegistryEdges.

Context `{Host}.

Lemma create_comfyui_nodes_from_schemas_keeps_cache (schemas_dir : string) :
  keeps_cache (create_comfyui_nodes_from_schemas schemas_dir).
Proof.
  unfold create_comfyui_nodes_from_schemas, load_schema_file. keeps_cache_tac.
Qed.

Lemma load_schema_file_fails (dir : string) w file e w' :
  unloadable dir w file e w' ->
  forall nodes out cache,
    load_schema_file dir nodes file (mkState out w cache)
    = (Raise e, mkState out w' cache).
Proof.
  intros Hbad nodes out cache.
  destruct Hbad as [w file e w' Hext Hload | w file bad e w' Hext Hload Hnode];
    unfold load_schema_file; rewrite Hext;
    unfold bind, effect, lift; cbn [world stdout cached_node_class_mappings];
    rewrite Hload; [reflexivity | now rewrite Hnode].
Qed.

(** There is no partial load: when the directory cannot be listed, or a
    schema file does not load or does not give a node, the construction
    raises that error and returns no mapping; the files listed after the
    failing one are not opened. *)
Theorem create_comfyui_nodes_from_schemas_fails_whole (schemas_dir : string)
    (st : state) :
  let dir := os_path_join current_path schemas_dir in
  (forall e w1,
      os_listdir dir (world st) = (Raise e, w1) ->
      create_comfyui_nodes_from_schemas schemas_dir st
      = (Raise e, mkState (stdout st) w1 (cached_node_class_mappings st)))
  /\ (forall before file after entries e w1 w2 w3,
        os_listdir dir (world st) = (Ret (before ++ file :: after), w1) ->
        loaded dir w1 before entries w2 ->
        unloadable dir w2 file e w3 ->
        create_comfyui_nodes_from_schemas schemas_dir st
        = (Raise e, mkState (stdout st) w3 (cached_node_class_mappings st))).
Proof.
  intros dir. split.
  - intros e w1 Hlist. unfold create_comfyui_nodes_from_schemas. fold dir.
    erewrite bind_Raise; [reflexivity|]. apply effect_run. exact Hlist.
  - intros before file after entries e w1 w2 w3 Hlist Hloaded Hbad.
    unfold create_comfyui_nodes_from_schemas. fold dir.
    erewrite bind_Ret; [|apply effect_run; exact Hlist].
    rewrite for_each_app.
    erewrite bind_Ret; [|apply (load_loop Hloaded)].
    cbn [for_each]. erewrite bind_Raise; [reflexivity|].
    apply (load_schema_file_fails Hbad).
Qed.

Lemma dict_get_app_last {V} (d : dict V) (k name : string) (v : V) :
  dict_get (d ++ [(k, v)]) name
  = match dict_get d name with
    | Some x => Some x
    | None => if k =? name then Some v else None
    end.
Proof.
  induction d as [|[k0 v0] d IH]; simpl; [reflexivity|].
  destruct (k0 =? name); [reflexivity | exact IH].
Qed.

Lemma store_all_get (entries : list (string * node_class)) :
  forall (nodes : dict node_class) (name : string),
    dict_get (fold_left store entries nodes) name
    = match last_entry entries name with
      | Some cls => Some cls
      | None => dict_get nodes name
      end.
Proof.
  unfold last_entry.
  induction entries as [|[k c] entries IH]; intros nodes name; [reflexivity|].
  cbn [fold_left rev]. rewrite IH, dict_get_app_last.
  destruct (dict_get (rev entries) name); [reflexivity|].
  unfold store. cbn [fst snd].
  destruct (String.eqb_spec k name) as [->|Hne].
  - apply dict_get_set_same.
  - now apply dict_get_set_other.
Qed.

Lemma store_all_shape (entries : list (string * node_class)) :
  forall nodes : dict node_class,
    NoDup (dict_keys nodes) ->
    NoDup (dict_keys (fold_left store entries nodes))
    /\ List.length (fold_left store entries nodes)
       <= List.length nodes + List.length entries.
Proof.
  induction entries as [|[k c] entries IH]; intros nodes Hnd; cbn [fold_left].
  - split; [assumption | simpl; lia].
  - destruct (IH (store nodes (k, c))) as [Hnd' Hlen].
    + now apply dict_set_keys_nodup.
    + split; [exact Hnd'|].
      assert (Hone : List.length (store nodes (k, c)) <= S (List.length nodes)).
      { unfold store. cbn [fst snd]. rewrite dict_set_length.
        destruct (dict_mem nodes k); lia. }
      simpl. lia.
Qed.

(** Whatever names the schemas give, the mapping built from a directory
    that loads has no name twice and at most one entry per schema file; a
    name holds the class of the schema file listed last among those that
    give it, and every name some schema file gives is in the mapping. *)
Theorem create_comfyui_nodes_from_schemas_last_wins
    (schemas_dir : string) (st : state) (listing : list string)
    (entries : list (string * node_class)) (w1 w2 : World) :
  let dir := os_path_join current_path schemas_dir in
  os_listdir dir (world st) = (Ret listing, w1) ->
  loaded dir w1 listing entries w2 ->
  exists nodes,
    create_comfyui_nodes_from_schemas schemas_dir st
    = (Ret nodes, mkState (stdout st) w2 (cached_node_class_mappings st))
    /\ NoDup (dict_keys nodes)
    /\ List.length nodes <= List.length (filter is_schema_file listing)
    /\ (forall name, dict_get nodes name = last_entry entries name)
    /\ (forall name cls, In (name, cls) entries -> dict_get nodes name <> None).
Proof.
  intros dir Hlist Hloaded.
  exists (fold_left store entries []).
  split; [exact (create_comfyui_nodes_from_schemas_stores _ st Hlist Hloaded)|].
  destruct (@store_all_shape entries [] (NoDup_nil _)) as [Hnd Hlen].
  split; [exact Hnd|].
  split; [rewrite <- (loaded_count Hloaded); exact Hlen|].
  assert (Hget : forall name,
             dict_get (fold_left store entries []) name = last_entry entries name).
  { intros name. rewrite store_all_get.
    now destruct (last_entry entries name). }
  split; [exact Hget|].
  intros name cls Hin. rewrite Hget. unfold last_entry.
  apply dict_get_in_keys. unfold dict_keys.
  apply in_map_iff. exists (name, cls). split; [reflexivity|].
  now apply in_rev in Hin.
Qed.

(** A build that raises is not cached: the accessor raises the same error
    and leaves the cache empty, so the next call runs the build again. *)
Theorem get_node_class_mappings_failed_build (st st' : state) (e : exn) :
  cached_node_class_mappings st = None ->
  create_comfyui_nodes_from_schemas "schemas" st = (Raise e, st') ->
  get_node_class_mappings st = (Raise e, st')
  /\ cached_node_class_mappings st' = None
  /\ get_node_class_mappings st'
     = match create_comfyui_nodes_from_schemas "schemas" st' with
       | (Ret nodes, built) =>
           (Ret nodes, mkState (stdout built) (world built) (Some nodes))
       | (Raise e', failed) => (Raise e', failed)
       end.
Proof.
  intros Hempty Hbuild.
  assert (Hstill : cached_node_class_mappings st' = None).
  { pose proof (create_comfyui_nodes_from_schemas_keeps_cache "schemas" st) as Hk.
    rewrite Hbuild in Hk. simpl in Hk. congruence. }
  split; [|split; [exact Hstill|]].
  - unfold get_node_class_mappings. now rewrite Hempty, Hbuild.
  - unfold get_node_class_mappings. rewrite Hstill.
    destruct (create_comfyui_nodes_from_schemas "schemas" st') as [[nodes|e'] s];
      reflexivity.
Qed.

End RegistryEdges.

(** ** The layout of image tensors *)

Lemma map_add_seq (a n s : nat) :
  map (fun r => a + r) (seq s n) = seq (a + s) n.
Proof.
  revert s. induction n as [|n IH]; intros s; simpl; [reflexivity|].
  rewrite IH. now rewrite Nat.add_succ_r.
Qed.

Lemma flat_map_seq_blocks (size a n : nat) :
  flat_map (fun i => seq (i * size) size) (seq a n) = seq (a * size) (n * size).
Proof.
  revert a. induction n as [|n IH]; intros a; simpl; [reflexivity|].
  rewrite IH, seq_app. simpl. now rewrite (Nat.add_comm size (a * size)).
Qed.

Lemma rank_multi_indices (sh : list nat) :
  map (rank sh) (multi_indices sh) = seq 0 (numel sh).
Proof.
  induction sh as [|n sh IH]; [reflexivity|].
  cbn [multi_indices numel fold_right].
  rewrite flat_map_concat_map, concat_map, map_map, <- flat_map_concat_map.
  rewrite (flat_map_ext _ (fun i => seq (i * numel sh) (numel sh))).
  - apply (flat_map_seq_blocks (numel sh) 0 n).
  - intros i. rewrite map_map.
    rewrite (map_ext _ (fun idx => i * numel sh + rank sh idx)) by reflexivity.
    rewrite <- (map_map (rank sh) (fun r => i * numel sh + r)), IH.
    rewrite map_add_seq. now rewrite Nat.add_0_r.
Qed.

Lemma map_nth_seq {A} (l : list A) (d : A) :
  map (fun k => nth k l d) (seq 0 (List.length l)) = l.
Proof.
  induction l as [|x l IH]; [reflexivity|].
  cbn [List.length seq map nth]. rewrite <- seq_shift, map_map.
  cbn [nth]. now rewrite IH.
Qed.

(** Reading a tensor at the position of each multi-index, in order, gives
    its data back. *)
Lemma tabulate_rank {A} (sh : list nat) (xs : list A) (d : A) :
  List.length xs = numel sh ->
  map (fun idx => nth (rank sh idx) xs d) (multi_indices sh) = xs.
Proof.
  intros Hlen.
  rewrite <- (map_map (rank sh) (fun k => nth k xs d)), rank_multi_indices.
  rewrite <- Hlen. apply map_nth_seq.
Qed.

(** A table over the multi-indices is read back at the rank of an index. *)
Lemma tabulated_at {A} (sh idx : list nat) (f : list nat -> A) (d : A) :
  In idx (multi_indices sh) ->
  nth (rank sh idx) (map f (multi_indices sh)) d = f idx.
Proof.
  intros Hin.
  destruct (In_nth _ _ [] Hin) as (k & Hk & Hnth).
  assert (Hrank : rank sh idx = k).
  { rewrite <- Hnth.
    rewrite <- (map_nth (rank sh) (multi_indices sh) [] k), rank_multi_indices.
    rewrite multi_indices_length in Hk. now rewrite seq_nth. }
  rewrite Hrank.
  rewrite (nth_indep _ d (f [])) by now rewrite length_map.
  now rewrite map_nth, Hnth.
Qed.

Lemma multi_indices_in (sh idx : list nat) :
  In idx (multi_indices sh) <-> Forall2 lt idx sh.
Proof.
  revert idx. induction sh as [|n sh IH]; intros idx; cbn [multi_indices].
  - split.
    + intros [<-|[]]. constructor.
    + intros Hf. inversion Hf. now left.
  - rewrite in_flat_map. split.
    + intros (i & Hi & Hin). apply in_map_iff in Hin as (rest & <- & Hrest).
      apply in_seq in Hi. constructor; [lia | now apply IH].
    + intros Hf. inversion Hf as [|i ? rest ? Hi Hrest]; subst.
      exists i. split; [apply in_seq; lia|].
      apply in_map. now apply IH.
Qed.

Section ImageLayout.

Context `{Host}.

(** The frame of a decoded RGB image lists its pixels row by row with the
    channels last, each band value divided by 255: lines 158 to 160 turn
    the channels-first tensor of [ToTensor] into exactly this. *)
Theorem image_tensor_pixels (im : image) :
  im_mode im = "RGB" ->
  List.length (im_pixels im) = im_height im * im_width im * 3 ->
  image_tensor im
  = Ret (mkTensor [1; im_height im; im_width im; 3] (map scaled (im_pixels im))).
Proof.
  intros Hmode Hlen. unfold image_tensor. rewrite Hmode. cbn [String.eqb Ascii.eqb Bool.eqb negb obind].
  unfold permute, unsqueeze0, ToTensor. rewrite Hmode.
  change (bands_of_mode "RGB") with 3.
  set (h := im_height im) in *. set (w := im_width im) in *.
  cbn [shape data List.length Nat.eqb forallb Nat.ltb Nat.leb andb
       nodup_nat mem_nat orb negb map nth strides].
  f_equal. f_equal.
  assert (Hpx : List.length (map scaled (im_pixels im)) = numel [1; h; w; 3])
    by (rewrite length_map, Hlen; simpl; lia).
  refine (eq_trans _ (tabulate_rank [1; h; w; 3] _ (S754_zero false) Hpx)).
  apply map_ext_in. intros idx Hidx.
  apply multi_indices_in in Hidx.
  inversion Hidx as [|i ? r1 ? Hi H1]; subst.
  inversion H1 as [|y ? r2 ? Hy H2]; subst.
  inversion H2 as [|x ? r3 ? Hx H3]; subst.
  inversion H3 as [|c ? r4 ? Hc H4]; subst.
  inversion H4; subst.
  assert (Hi0 : i = 0) by lia. subst i.
  replace (dot [0; y; x; c] [numel [3; h; w]; numel [w]; numel []; numel [h; w]])
    with (rank [3; h; w] [c; y; x])
    by (unfold rank; cbn [dot strides numel fold_right]; ring).
  rewrite tabulated_at
    by (apply multi_indices_in; repeat (apply Forall2_cons; [assumption|]);
        apply Forall2_nil).
  replace (rank [1; h; w; 3] [0; y; x; c]) with ((y * w + x) * 3 + c)
    by (unfold rank; cbn [dot strides numel fold_right]; ring).
  rewrite (nth_indep _ (S754_zero false) (scaled 0)).
  - now rewrite map_nth.
  - rewrite length_map, Hlen. nia.
Qed.

Lemma permute_back (u t : tensor) (n c h w : nat) :
  shape u = [n; c; h; w] ->
  List.length (data u) = numel [n; c; h; w] ->
  permute [0; 2; 3; 1] u = Ret t ->
  permute [0; 3; 1; 2] t = Ret u.
Proof.
  destruct u as [sh dt]. cbn [shape data]. intros -> Hlen.
  unfold permute.
  cbn [shape data List.length Nat.eqb forallb Nat.ltb Nat.leb andb
       nodup_nat mem_nat orb negb map nth strides].
  intros [= <-].
  cbn [shape data List.length Nat.eqb forallb Nat.ltb Nat.leb andb
       nodup_nat mem_nat orb negb map nth strides].
  f_equal. f_equal.
  refine (eq_trans _ (tabulate_rank [n; c; h; w] dt (S754_zero false) Hlen)).
  apply map_ext_in. intros idx Hidx.
  apply multi_indices_in in Hidx.
  inversion Hidx as [|i ? r1 ? Hi H1]; subst.
  inversion H1 as [|k ? r2 ? Hk H2]; subst.
  inversion H2 as [|y ? r3 ? Hy H3]; subst.
  inversion H3 as [|x ? r4 ? Hx H4]; subst.
  inversion H4; subst.
  replace (dot [i; k; y; x] [numel [h; w; c]; numel []; numel [w; c]; numel [c]])
    with (rank [n; h; w; c] [i; y; x; k])
    by (unfold rank; cbn [dot strides numel fold_right]; ring).
  rewrite tabulated_at
    by (apply multi_indices_in; repeat (apply Forall2_cons; [assumption|]);
        apply Forall2_nil).
  f_equal. unfold rank. cbn [dot strides numel fold_right]. ring.
Qed.

(** The two layout changes undo each other: a frame that
    [handle_image_output] made of a decoded image, given to
    [image_to_base64], reaches the image conversion as the channels-first
    tensor of that image (converted to RGB when it was not). *)
Theorem image_frame_round_trip (im : image) (t : tensor) :
  image_tensor im = Ret t ->
  exists rgb,
    (if negb (im_mode im =? "RGB") then Image_convert im "RGB" else Ret im) = Ret rgb
    /\ permute [0; 3; 1; 2] t = Ret (unsqueeze0 (ToTensor rgb))
    /\ image_to_base64 (PyTensor t)
       = (pil <-? ToPILImage (ToTensor rgb) ;;
          png <-? png_encode pil ;;
          Ret (PyStr ("data:image/png;base64," ++ b64encode png))).
Proof.
  unfold image_tensor.
  destruct (if negb (im_mode im =? "RGB") then Image_convert im "RGB" else Ret im)
    as [rgb|e]; [|discriminate].
  cbn [obind]. intros Hperm.
  assert (Hback : permute [0; 3; 1; 2] t = Ret (unsqueeze0 (ToTensor rgb))).
  { apply (@permute_back _ t 1 (bands_of_mode (im_mode rgb)) (im_height rgb)
             (im_width rgb)); [reflexivity | | exact Hperm].
    unfold unsqueeze0, ToTensor. cbn [data].
    rewrite length_map, multi_indices_length. simpl. lia. }
  exists rgb. split; [reflexivity|]. split; [exact Hback|].
  unfold image_to_base64. rewrite Hback. cbn [obind].
  change (squeeze0 (unsqueeze0 (ToTensor rgb))) with (ToTensor rgb).
  destruct (ToPILImage (ToTensor rgb)); reflexivity.
Qed.

End ImageLayout.

(** ** Worked instances *)

Lemma handle_array_inputs_settles_witness :
  let kwargs := [("prompt", PyStr "a cat"); ("seeds", PyStr "1,2,foo")] in
  dict_keys (handle_array_inputs (H := Example.host) example_seeds_schema kwargs)
  = ["prompt"; "seeds"]
  /\ dict_get (handle_array_inputs (H := Example.host) example_seeds_schema kwargs) "prompt"
     = Some (PyStr "a cat")
  /\ handle_array_inputs (H := Example.host) example_seeds_schema
       (handle_array_inputs (H := Example.host) example_seeds_schema kwargs)
     = handle_array_inputs (H := Example.host) example_seeds_schema kwargs.
Proof.
  intros kwargs.
  destruct (@handle_array_inputs_settles Example.host example_seeds_schema kwargs)
    as (Hkeys & Hother & _ & Hagain).
  split; [exact Hkeys|]. split; [|exact Hagain].
  refine (eq_trans (Hother "prompt" _) eq_refl).
  simpl. intuition discriminate.
Defined.

Lemma optional_array_input_prepared_witness :
  exists pruned,
    remove_falsey_optional_inputs (H := Example.host) example_seeds_schema
      (handle_array_inputs (H := Example.host) example_seeds_schema example_seeds_kwargs)
    = Ret pruned
    /\ dict_get pruned "seeds" = Some (PyList [PyNone]).
Proof.
  assert (Hnd : NoDup (dict_keys example_seeds_kwargs)).
  { repeat constructor; simpl; intuition discriminate. }
  destruct (@optional_array_input_prepared Example.host example_seeds_schema
              example_seeds_kwargs "seeds" PyNone Hnd)
    as (pruned & Hrun & _ & Hscalar & _).
  - simpl. auto.
  - reflexivity.
  - reflexivity.
  - exists pruned. split; [exact Hrun|]. apply Hscalar; reflexivity.
Defined.

Lemma remove_falsey_optional_inputs_filters_witness :
  remove_falsey_optional_inputs (H := Example.host) example_optional_schema
    example_optional_kwargs
  = Ret [("prompt", PyStr ""); ("mask", PyTensor example_zero_tensor);
         ("negative_prompt", PyStr "blurry")].
Proof.
  assert (Hnd : NoDup (dict_keys example_optional_kwargs)).
  { repeat constructor; simpl; intuition discriminate. }
  destruct (@remove_falsey_optional_inputs_filters Example.host example_optional_schema
              example_optional_kwargs Hnd) as [Hrun _].
  exact Hrun.
Defined.

Lemma convert_input_images_to_base64_itemwise_witness :
  convert_input_images_to_base64 (H := Example.host) example_echo_schema
    example_echo_kwargs
  = Ret [("prompt", PyStr "louder"); ("clip", PyStr "data:audio/wav;base64,UklGRg==")].
Proof.
  assert (Hnd : NoDup (dict_keys example_echo_kwargs)).
  { repeat constructor; simpl; intuition discriminate. }
  destruct (@convert_input_images_to_base64_itemwise Example.host example_echo_schema
              example_echo_kwargs Hnd) as [Heq _].
  exact Heq.
Defined.

Lemma convert_input_images_to_base64_without_required_witness :
  convert_input_images_to_base64 (H := example_bare_host) example_echo_schema
    [("prompt", PyNone)]
  = Ret [("prompt", PyNone)]
  /\ convert_input_images_to_base64 (H := example_bare_host) example_echo_schema
       example_echo_kwargs
     = Raise (KeyError "required").
Proof.
  split.
  - destruct (@convert_input_images_to_base64_without_required example_bare_host
                example_echo_schema [("prompt", PyNone)] eq_refl) as [Hnone _].
    apply Hnone. repeat constructor.
  - destruct (@convert_input_images_to_base64_without_required example_bare_host
                example_echo_schema example_echo_kwargs eq_refl) as [_ Hsome].
    apply Hsome. apply Exists_cons_hd. discriminate.
Defined.

Lemma image_to_base64_cases_witness :
  image_to_base64 (H := Example.host)
    (PyTensor (mkTensor [1; 1; 1; 3] [f32_of_N 1; S754_zero false; S754_zero false]))
  = Ret (PyStr "data:image/png;base64,iVBORw==")
  /\ exists e, image_to_base64 (H := Example.host) (PyTensor example_mono) = Raise e.
Proof.
  destruct (@image_to_base64_cases Example.host) as (Hrank & Hfour & _ & _).
  split.
  - destruct (Hfour (mkTensor [1; 1; 1; 3] [f32_of_N 1; S754_zero false; S754_zero false])
                1 1 1 3 eq_refl) as (nchw & _ & _ & Hsq & Hrun).
    refine (eq_trans Hrun _).
    change (ToPILImage (squeeze0 nchw)) with (Example.to_image (squeeze0 nchw)).
    unfold Example.to_image. rewrite Hsq. reflexivity.
  - apply Hrank. discriminate.
Defined.

Lemma ensure_2d_keeps_samples_witness :
  let wave := mkTensor [1; 1; 4] (data example_mono) in
  ensure_2d wave = Ret (mkTensor [4] (data example_mono))
  /\ data (mkTensor [4] (data example_mono)) = data wave
  /\ shape (mkTensor [4] (data example_mono)) = [4].
Proof.
  intros wave.
  assert (Hrun : ensure_2d wave = Ret (mkTensor [4] (data example_mono))) by reflexivity.
  destruct (@ensure_2d_keeps_samples wave _ Hrun) as (Hdata & _ & Hshape).
  split; [exact Hrun|]. split; [exact Hdata|].
  apply (Hshape 4); [discriminate | reflexivity].
Defined.

Lemma audio_to_base64_incomplete_mapping_witness :
  exists e,
    audio_to_base64 (H := Example.host) (PyDict [("waveform", PyTensor example_mono)])
    = Raise e.
Proof.
  apply (@audio_to_base64_incomplete_mapping Example.host
           [("waveform", PyTensor example_mono)]).
  reflexivity.
Defined.

Lemma call_model_calls_once_witness :
  let st := example_state example_caption_world in
  call_model (H := Example.host) example_optional_schema "acme/painter:v2"
    example_prompt_kwargs st
  = (Ret (Example.model_output example_caption_world),
     mkState (H := Example.host)
       ["Running acme/painter:v2 with <object>"; "Output: <object>"]
       example_caption_world None)
  /\ dict_get (sent_arguments example_prompt_kwargs) "force_rerun" = None
  /\ dict_get (sent_arguments example_prompt_kwargs) "prompt" = Some (PyStr "a cat").
Proof.
  intros st.
  destruct (@call_model_calls_once Example.host example_optional_schema "acme/painter:v2"
              example_prompt_kwargs st) as [_ Hok].
  destruct (Hok example_prompt_kwargs eq_refl) as (Hflag & Hothers & Hcall).
  split; [exact Hcall|]. split; [exact Hflag|].
  refine (eq_trans (Hothers "prompt" _) eq_refl). discriminate.
Defined.

Lemma string_output_joins_witness :
  string_output (H := Example.host) (PyList [PyStr " a"; PyStr " cat "])
    (example_state example_world)
  = (Ret (PyStr "a cat"), example_state example_world)
  /\ exists e,
       string_output (H := Example.host) (PyList [PyStr "a"; PyInt 1])
         (example_state example_world)
       = (Raise e, example_state example_world).
Proof.
  destruct (@string_output_joins Example.host (example_state example_world))
    as (_ & Hjoin & _ & Hbad).
  split.
  - exact (Hjoin [" a"; " cat "]).
  - apply Hbad. apply Exists_cons_tl. apply Exists_cons_hd. reflexivity.
Defined.

Lemma run_replicate_model_single_witness :
  exists st2,
    run_replicate_model (H := Example.host) example_optional_schema "acme/painter:v2"
      (ReturnOne "INT") example_prompt_kwargs (example_state example_number_world)
    = (Ret (PyTuple [PyStr "7"]), st2).
Proof.
  set (st1 := mkState (H := Example.host)
                ["Running acme/painter:v2 with <object>"; "Output:  7 "]
                example_number_world None).
  destruct (@run_replicate_model_single Example.host example_optional_schema
              "acme/painter:v2" "INT" example_prompt_kwargs
              (example_state example_number_world) st1 (PyStr " 7 ") eq_refl)
    as (_ & Hrun & _).
  exists st1. exact Hrun.
Defined.

Lemma run_replicate_model_named_slots_witness :
  let slots := [("caption", "STRING"); ("seed", "INT")] in
  exists st2,
    run_replicate_model (H := Example.host) example_optional_schema "acme/painter:v2"
      (ReturnDict slots) example_prompt_kwargs (example_state example_caption_world)
    = (Ret (PyTuple [PyStr "a cat"]), st2)
    /\ List.length (RETURN_TYPES (ReturnDict slots)) = 2.
Proof.
  intros slots.
  set (st1 := mkState (H := Example.host)
                ["Running acme/painter:v2 with <object>"; "Output: <object>"]
                example_caption_world None).
  destruct (@run_replicate_model_named_slots Example.host example_optional_schema
              "acme/painter:v2" slots example_prompt_kwargs
              (example_state example_caption_world) st1 st1
              (Example.model_output example_caption_world)
              [PyStr "a cat"])
    as (Hrun & _).
  - reflexivity.
  - eapply decoded_slots_cons; [reflexivity|]. apply decoded_slots_nil.
  - exists st1. split; [exact Hrun | reflexivity].
Defined.

Lemma process_slot_missing_witness :
  process_slot (H := Example.host) (PyDict [("seed", PyInt 7)]) [] ("caption", "STRING")
    (example_state example_world)
  = (Ret [PyStr ""], example_state example_world)
  /\ process_slot (H := Example.host) (PyStr "text") [] ("caption", "IMAGE")
       (example_state example_world)
     = (Raise (AttributeError "get"), example_state example_world).
Proof.
  destruct (@process_slot_missing Example.host [("seed", PyInt 7)] "caption" []
              (example_state example_world) eq_refl) as (Hs & _ & _ & _ & Hbad).
  split; [exact Hs|]. apply Hbad; [reflexivity | discriminate].
Defined.

Lemma handle_image_output_fails_whole_witness :
  handle_image_output (H := Example.host) (PyList [PyFile 0; PyFile 7; PyFile 1])
    (example_state example_image_world)
  = (Raise (OtherException "OSError" "read failed"), example_state example_image_world).
Proof.
  refine (@handle_image_output_fails_whole Example.host
            (example_state example_image_world) [PyFile 0] [PyFile 1] (PyFile 7)
            [mkImage "RGB" 1 1 [255; 0; 0]%N]
            [mkTensor [1; 1; 1; 3] [f32_of_N 1; S754_zero false; S754_zero false]]
            _ example_image_world example_image_world _ _ _).
  - eapply decoded_cons; [reflexivity | reflexivity | apply decoded_nil].
  - constructor; [reflexivity | constructor].
  - apply undecodable_read. reflexivity.
Defined.

Lemma handle_audio_output_entries_witness :
  let clips := [(mkTensor [1; 2] [f32_of_N 1; f32_of_N 2], 44100%Z);
                (mkTensor [1; 1] [f32_of_N 3], 44100%Z)] in
  handle_audio_output (H := Example.host) (PyList [PyFile 0; PyNone; PyFile 1])
    (example_state example_audio_world)
  = (Ret (PyList (map audio_entry clips)),
     mkState (H := Example.host) ["Empty audio file received"] example_audio_world None).
Proof.
  intros clips.
  refine (proj1 (@handle_audio_output_entries Example.host
                   (example_state example_audio_world) [PyFile 0; PyNone; PyFile 1]
                   clips ["Empty audio file received"] example_audio_world _)).
  eapply heard_file; [reflexivity | reflexivity |].
  eapply heard_empty; [reflexivity |].
  eapply heard_file; [reflexivity | reflexivity |].
  apply heard_nil.
Defined.

Lemma handle_audio_output_fails_whole_witness :
  handle_audio_output (H := Example.host) (PyList [PyFile 0; PyFile 9; PyFile 1])
    (example_state example_audio_world)
  = (Raise (OtherException "OSError" "read failed"), example_state example_audio_world).
Proof.
  refine (@handle_audio_output_fails_whole Example.host
            (example_state example_audio_world) [PyFile 0] [PyFile 1] (PyFile 9)
            [(mkTensor [1; 2] [f32_of_N 1; f32_of_N 2], 44100%Z)] []
            _ example_audio_world example_audio_world _ _).
  - eapply heard_file; [reflexivity | reflexivity | apply heard_nil].
  - apply unheard_read. reflexivity.
Defined.

Lemma handle_svg_output_never_raises_witness :
  handle_svg_output (H := Example.host) (PyList [PyInt 3; PyStr "ftp://example.com/a.svg"])
    (example_state example_world)
  = (Ret PyNone,
     mkState (H := Example.host)
       ["Unsupported SVG output format: <class 'int'>";
        "Unsupported SVG output format: <class 'str'>";
        "No valid SVG data processed"]
       example_world None).
Proof.
  destruct (@handle_svg_output_never_raises Example.host
              (PyList [PyInt 3; PyStr "ftp://example.com/a.svg"])
              (example_state example_world)) as [_ Hnone].
  refine (Hnone [PyInt 3; PyStr "ftp://example.com/a.svg"] eq_refl _).
  repeat constructor.
Defined.

Lemma create_comfyui_nodes_from_schemas_fails_whole_witness :
  let w1 := Example.mkWorld 1730000000000 [] [] (PyDict [])
              (Example.directory example_broken_world) 1 in
  create_comfyui_nodes_from_schemas (H := Example.host) "schemas"
    (example_state example_broken_world)
  = (Raise (TypeError "schema is not an object"), mkState (H := Example.host) [] w1 None).
Proof.
  intros w1.
  destruct (@create_comfyui_nodes_from_schemas_fails_whole Example.host "schemas"
              (example_state example_broken_world)) as [_ Hfile].
  refine (Hfile ["painter.json"] "broken.json" ["singer.json"]
            [("Replicate acme/painter",
              mkNode example_painter_schema "acme/painter:v2" (ReturnOne "IMAGE"))]
            _ w1 w1 w1 eq_refl _ _).
  - eapply loaded_schema; [reflexivity | reflexivity | reflexivity | apply loaded_nil].
  - eapply unloadable_schema; [reflexivity | reflexivity | reflexivity].
Defined.

Lemma create_comfyui_nodes_from_schemas_last_wins_witness :
  exists nodes st',
    create_comfyui_nodes_from_schemas (H := Example.host) "schemas"
      (example_state example_versions_world) = (Ret nodes, st')
    /\ List.length nodes <= 2
    /\ dict_get nodes "Replicate acme/painter"
       = Some (mkNode example_painter_v3_schema "acme/painter:v3" (ReturnOne "IMAGE")).
Proof.
  set (w1 := Example.mkWorld 1730000000000 [] [] (PyDict [])
               (Example.directory example_versions_world) 1).
  set (entries :=
         [("Replicate acme/painter",
           mkNode example_painter_schema "acme/painter:v2" (ReturnOne "IMAGE"));
          ("Replicate acme/painter",
           mkNode example_painter_v3_schema "acme/painter:v3" (ReturnOne "IMAGE"))]).
  assert (Hloaded : loaded (H := Example.host)
                      (os_path_join (Host := Example.host)
                         (current_path (Host := Example.host)) "schemas")
                      w1 (dict_keys (Example.directory example_versions_world))
                      entries w1).
  { eapply loaded_schema; [reflexivity | reflexivity | reflexivity |].
    eapply loaded_schema; [reflexivity | reflexivity | reflexivity |].
    apply loaded_nil. }
  destruct (@create_comfyui_nodes_from_schemas_last_wins Example.host "schemas"
              (example_state example_versions_world) _ entries w1 w1 eq_refl Hloaded)
    as (nodes & Hrun & _ & Hcount & Hget & _).
  exists nodes. eexists. split; [exact Hrun|]. split; [exact Hcount|].
  exact (Hget "Replicate acme/painter").
Defined.

Lemma get_node_class_mappings_failed_build_witness :
  let w1 := Example.mkWorld 1730000000000 [] [] (PyDict [])
              (Example.directory example_broken_world) 1 in
  get_node_class_mappings (H := Example.host) (example_state example_broken_world)
  = (Raise (TypeError "schema is not an object"), mkState (H := Example.host) [] w1 None)
  /\ cached_node_class_mappings (mkState (H := Example.host) [] w1 None) = None.
Proof.
  intros w1.
  destruct (@get_node_class_mappings_failed_build Example.host
              (example_state example_broken_world)
              (mkState (H := Example.host) [] w1 None)
              (TypeError "schema is not an object") eq_refl eq_refl)
    as (Hrun & Hcache & _).
  split; [exact Hrun | exact Hcache].
Defined.

Lemma image_tensor_pixels_witness :
  image_tensor (H := Example.host) example_two_pixels = Ret example_two_pixels_frame.
Proof.
  exact (@image_tensor_pixels Example.host example_two_pixels eq_refl eq_refl).
Defined.

Lemma image_frame_round_trip_witness :
  permute [0; 3; 1; 2] example_two_pixels_frame
  = Ret (unsqueeze0 (ToTensor example_two_pixels))
  /\ image_to_base64 (H := Example.host) (PyTensor example_two_pixels_frame)
     = Ret (PyStr "data:image/png;base64,iVBORw==").
Proof.
  assert (Hframe : image_tensor (H := Example.host) example_two_pixels
                   = Ret example_two_pixels_frame) by reflexivity.
  destruct (@image_frame_round_trip Example.host example_two_pixels
              example_two_pixels_frame Hframe) as (rgb & Hrgb & Hperm & Hrun).
  simpl in Hrgb. injection Hrgb as <-.
  split; [exact Hperm|]. refine (eq_trans Hrun _). reflexivity.
Defined.

(** ** Logging and the shape of a response *)
Section LoggingAndResponses.

Context `{Host}.
Variable replicate_model : string.

(** [log_input] prints one line and changes nothing else.  An encoded
    image is shown as "data:image/png;base6..." and an encoded clip as
    "data:audio/wav;base6...", whatever was encoded, so no byte of the media
    reaches the log; text that starts otherwise, and values that are not
    text, are shown whole. *)
Theorem log_input_hides_media :
  (forall kwargs st,
      log_input replicate_model kwargs st
      = (Ret tt,
         report st ("Running " ++ replicate_model ++ " with "
                    ++ py_str (PyDict (map (fun kv => (fst kv, truncated (snd kv)))
                                         kwargs)))))
  /\ (forall image uri,
        image_to_base64 image = Ret uri ->
        truncated uri = PyStr "data:image/png;base6...")
  /\ (forall audio uri,
        audio_to_base64 audio = Ret uri ->
        truncated uri = PyStr "data:audio/wav;base6...")
  /\ (forall s,
        startswith s "data:image" = false -> startswith s "data:audio" = false ->
        truncated (PyStr s) = PyStr s)
  /\ (forall v, is_str v = false -> truncated v = v).
Proof.
  split.
  { intros kwargs st.
    assert (Hshown : map (fun kv => (fst kv, truncated (snd kv))) kwargs
                     = map (fun kv =>
                              (fst kv,
                               match snd kv with
                               | PyStr v =>
                                   if startswith v "data:image" || startswith v "data:audio"
                                   then PyStr (str_take 20 v ++ "...")
                                   else PyStr v
                               | v => v
                               end)) kwargs).
    { apply map_ext. intros [key v]. now destruct v. }
    rewrite Hshown. reflexivity. }
  split; [|split; [|split]].
  - intros image uri Hrun. unfold image_to_base64 in Hrun.
    assert (Hshape : exists b64, uri = PyStr ("data:image/png;base64," ++ b64)).
    { destruct image; try discriminate.
      - destruct (permute [0; 3; 1; 2] t) as [nchw|]; [|discriminate].
        simpl in Hrun.
        destruct (ToPILImage (squeeze0 nchw)) as [pil|]; [|discriminate].
        simpl in Hrun.
        destruct (png_encode pil) as [png|]; [|discriminate].
        injection Hrun as <-. exists (b64encode png). reflexivity.
      - simpl in Hrun.
        destruct (png_encode im) as [png|]; [|discriminate].
        injection Hrun as <-. exists (b64encode png). reflexivity. }
    destruct Hshape as [b64 ->]. reflexivity.
  - intros audio uri Hrun. unfold audio_to_base64 in Hrun.
    destruct (waveform_and_rate audio) as [[waveform rate]|]; [|discriminate].
    destruct waveform; try discriminate. simpl in Hrun.
    destruct (ensure_2d t) as [normal|]; [|discriminate]. simpl in Hrun.
    destruct (wav_encode normal rate) as [wav|]; [|discriminate].
    injection Hrun as <-. reflexivity.
  - intros s Himage Haudio. unfold truncated. now rewrite Himage, Haudio.
  - intros v Hv. destruct v; try reflexivity. discriminate.
Qed.

(** Each adapter handles a response that is not a list as the list of
    that one response; an empty list gives [None] after one diagnostic,
    and nothing is read or fetched. *)
Theorem adapters_take_one_or_a_list :
  (forall v,
      v <> PyNone -> is_list v = false ->
      handle_image_output v = handle_image_output (PyList [v])
      /\ handle_audio_output v = handle_audio_output (PyList [v])
      /\ handle_svg_output v = handle_svg_output (PyList [v]))
  /\ (forall st,
        handle_image_output (PyList []) st
        = (Ret PyNone, report st "No output received from the model")
        /\ handle_audio_output (PyList []) st
           = (Ret PyNone, report st "No valid audio files processed")
        /\ handle_svg_output (PyList []) st
           = (Ret PyNone, report st "No valid SVG data processed")).
Proof.
  split.
  - intros v Hnone Hlist.
    destruct v; try discriminate; try contradiction; repeat split; reflexivity.
  - intros st. repeat split; reflexivity.
Qed.

End LoggingAndResponses.

Lemma log_input_hides_media_witness :
  truncated (PyStr "data:image/png;base64,iVBORw==") = PyStr "data:image/png;base6..."
  /\ truncated (PyStr "data:video/mp4;base64,AAAA") = PyStr "data:video/mp4;base64,AAAA".
Proof.
  destruct (@log_input_hides_media Example.host "acme/painter:v2")
    as (_ & Himage & _ & Hother & _).
  split.
  - apply (Himage (PyImage example_two_pixels)). reflexivity.
  - apply Hother; reflexivity.
Defined.

Lemma adapters_take_one_or_a_list_witness :
  handle_image_output (H := Example.host) (PyFile 0)
  = handle_image_output (H := Example.host) (PyList [PyFile 0]).
Proof.
  destruct (@adapters_take_one_or_a_list Example.host) as [Hone _].
  destruct (Hone (PyFile 0)) as (Himage & _ & _);
    [discriminate | reflexivity | exact Himage].
Defined.
